(** * Relinker resolution of the Rai extractor (yt_dlp/extractor/rai.py)

    A shallow embedding of [RaiBaseIE._extract_relinker_info],
    [RaiBaseIE._create_http_urls] and [RaiBaseIE._extract_subtitles].

    The framework methods the extractor inherits ([_download_xml],
    [_extract_m3u8_formats], [_request_webpage], ...) and the helpers it
    imports from [..utils] are not part of the file; they are interfaces
    here (type classes), so every theorem holds for any behaviour of
    theirs.  Python built-ins ([str.replace], [in], [str.split], string
    formatting of integers) are written out. *)

From Stdlib Require Import ZArith String Ascii List Bool Lia QArith Qround.
From stdpp Require Import base option list gmap strings pretty.

Open Scope string_scope.
Open Scope list_scope.
Open Scope Z_scope.

(** ** Python built-ins on [str] *)

Module PyStr.

(** [sub in s] *)
Fixpoint contains (sub s : string) : bool :=
  String.prefix sub s ||
  match s with
  | EmptyString => false
  | String _ s' => contains sub s'
  end.

(** Scanning loop of [s.replace(old, new)] for a non-empty [old]:
    [skip] counts the characters of a replaced occurrence still to be
    dropped. *)
Fixpoint replace_go (old new : string) (skip : nat) (s : string) : string :=
  match s with
  | EmptyString => EmptyString
  | String c s' =>
      match skip with
      | S k => replace_go old new k s'
      | O =>
          if String.prefix old s
          then new +:+ replace_go old new (String.length old - 1) s'
          else String c (replace_go old new 0 s')
      end
  end.

Definition replace (old new s : string) : string := replace_go old new 0 s.

(** [s.split(sep)] for a one-character separator. *)
Fixpoint split (sep : ascii) (s : string) : list string :=
  match s with
  | EmptyString => [EmptyString]
  | String c s' =>
      if Ascii.eqb c sep then EmptyString :: split sep s'
      else match split sep s' with
           | [] => [String c EmptyString]
           | w :: ws => String c w :: ws
           end
  end.

(** [s[:-n]] for [n > 0].  A [string] is a sequence of bytes, so this
    is Python's slice on ASCII text only: on a tail that is not ASCII it
    drops [n] bytes where Python drops [n] code points. *)
Definition drop_last (n : nat) (s : string) : string :=
  String.substring 0 (String.length s - n) s.

(** [bool(s)] *)
Definition truthy (s : string) : bool :=
  match s with EmptyString => false | _ => true end.

Definition digit_value (c : ascii) : option Z :=
  let n := Z.of_nat (nat_of_ascii c) in
  if (48 <=? n) && (n <=? 57) then Some (n - 48) else None.

Fixpoint int_digits (acc : Z) (s : string) : option Z :=
  match s with
  | EmptyString => Some acc
  | String c s' =>
      match digit_value c with
      | Some d => int_digits (acc * 10 + d) s'
      | None => None
      end
  end.

(** [int(s)] on a string of ASCII decimal digits; [None] stands for
    the [ValueError] of a string that is not one. *)
Definition int (s : string) : option Z :=
  match s with
  | EmptyString => None
  | _ => int_digits 0 s
  end.

(** [re.match(r'https?://', s)] is not [None] *)
Definition match_http (s : string) : bool :=
  String.prefix "http://" s || String.prefix "https://" s.

End PyStr.

(** ** Exceptions and the effects of one extraction call *)

Inductive exc : Type :=
| TypeError
| AttributeError
| KeyError (key : string)
| ValueError
| OverflowError
| ExtractorError
| GeoRestrictedError (countries : list string) (metadata_available : bool).

Inductive result (A : Type) : Type :=
| Ok (a : A)
| Raise (e : exc).
Arguments Ok {A} a.
Arguments Raise {A} e.

Global Instance result_ret : MRet result := fun _ a => Ok a.
Global Instance result_bind : MBind result := fun _ _ f m =>
  match m with
  | Ok a => f a
  | Raise e => Raise e
  end.

(** What an extraction call does to the outside world, in order. *)
Inductive event : Type :=
| DownloadXml (url video_id platform : string)
| ReportDrm (video_id : string)
| ExtractM3u8 (manifest_url : string)
| ExtractF4m (manifest_url : string)
| HeadRequest (url : string).

(** A computation appends to the log of events and returns or raises. *)
Definition M (A : Type) : Type := list event -> list event * result A.

Global Instance M_ret : MRet M := fun _ a tr => (tr, Ok a).
Global Instance M_bind : MBind M := fun _ _ f m tr =>
  match m tr with
  | (tr', Ok a) => f a tr'
  | (tr', Raise e) => (tr', Raise e)
  end.

Definition emit (ev : event) : M unit := fun tr => (tr ++ [ev], Ok tt).
Definition raise {A : Type} (e : exc) : M A := fun tr => (tr, Raise e).
Definition lift {A : Type} (r : result A) : M A := fun tr => (tr, r).

(** ** Python numbers

    [tbr] and [duration] are Python floats or ints.  Floats stay
    abstract: only the operations the extractor applies to them are
    named. *)

(** What [math.floor] makes of a float: an int, or the [OverflowError]
    of an infinity, or the [ValueError] of a nan. *)
Inductive floored : Type :=
| Floor (k : Z)
| FloorOfInf
| FloorOfNan.

Class PyFloat : Type := {
  float : Type;
  (** [bool(x)] *)
  float_truthy : float -> bool;
  (** [x > 300] *)
  float_gt_300 : float -> bool;
  (** [math.floor(x / 100)] *)
  float_floor_div_100 : float -> floored;
  (** [math.floor(n / 100)] for an int [n] beyond the range in which
      true division is exact enough; [None] when the division overflows *)
  huge_int_floor_div_100 : Z -> option Z;
}.

Section Numbers.
Context `{PyFloat}.

Inductive num : Type :=
| NInt (z : Z)
| NFloat (x : float).

(** [bool(v)] of an optional number; [None] is falsy *)
Definition num_truthy (v : option num) : bool :=
  match v with
  | None => false
  | Some (NInt z) => negb (z =? 0)
  | Some (NFloat x) => float_truthy x
  end.

Definition num_gt_300 (n : num) : bool :=
  match n with
  | NInt z => 300 <? z
  | NFloat x => float_gt_300 x
  end.

(** [math.floor(v / 100)].  [None / 100] is a [TypeError].  For an int
    below 2^46 in absolute value the float quotient rounds to a value
    with the same floor as the exact quotient. *)
Definition floor_div_100 (v : option num) : result Z :=
  match v with
  | None => Raise TypeError
  | Some (NInt z) =>
      if Z.abs z <? 2 ^ 46 then Ok (z / 100)
      else match huge_int_floor_div_100 z with
           | Some k => Ok k
           | None => Raise OverflowError
           end
  | Some (NFloat x) =>
      match float_floor_div_100 x with
      | Floor k => Ok k
      | FloorOfInf => Raise OverflowError
      | FloorOfNan => Raise ValueError
      end
  end.

End Numbers.

(** ** Format descriptors and the aggregate outcome *)

Section Formats.
Context `{PyFloat}.

(** A format dict.  A key bound to [None] and a missing key are both
    [None]: the extractor reads format dicts with [.get] only (and
    [f['tbr']] only after [f.get('tbr')] was truthy). *)
Record format : Type := {
  f_url : option string;
  f_format_id : option string;
  f_protocol : option string;
  f_ext : option string;
  f_vcodec : option string;
  f_acodec : option string;
  f_tbr : option num;
  f_width : option Z;
  f_height : option Z;
  f_fps : option num;
}.

(** Values of the dict [_extract_relinker_info] returns. *)
Inductive info_value : Type :=
| IVNone
| IVBool (b : bool)
| IVFloat (x : float)
| IVFormats (fs : list format).

Definition info_dict : Type := list (string * info_value).

Definition of_bool (v : option bool) : info_value :=
  match v with Some b => IVBool b | None => IVNone end.
Definition of_float (v : option float) : info_value :=
  match v with Some x => IVFloat x | None => IVNone end.

(** [d.get(k)]: [None] when the key is missing *)
Fixpoint dict_get (k : string) (d : info_dict) : option info_value :=
  match d with
  | [] => None
  | (k', v) :: d' => if bool_decide (k' = k) then Some v else dict_get k d'
  end.

Definition is_none (v : info_value) : bool :=
  match v with IVNone => true | _ => false end.

(** Modelled from the spec: [filter_dict] of [..utils] is not in the
    file; "absent optional fields (liveness, duration) must be omitted
    rather than defaulted to false/zero": the entries whose value is
    [None] are dropped, the others kept in order. *)
Definition filter_dict (d : info_dict) : info_dict :=
  List.filter (fun kv => negb (is_none (snd kv))) d.

End Formats.

(** ** The interfaces the extractor calls into *)

(** The [default] argument of [xpath_text] *)
Inductive default_arg : Type :=
| NO_DEFAULT
| Default (v : option string).

(** What the module imports: [re.match], the helpers of [..utils], and
    the XML element they read. *)
Class Utils `{PyFloat} : Type := {
  (** [re.match(pattern, s)]: [None] when there is no match, otherwise
      [mobj.group], which is [None] on a group that took no part *)
  re_match : string -> string -> option (string -> option string);
  Element : Type;
  (** [elem.text] *)
  text : Element -> option string;
  (** [xpath_text(node, xpath, default=...)], not fatal *)
  xpath_text : Element -> string -> default_arg -> option string;
  (** [find_xpath_attr(node, xpath, key, val)] *)
  find_xpath_attr : Element -> string -> string -> string -> option Element;
  parse_duration : option string -> option float;
  (** [determine_ext(url, default_ext)] *)
  determine_ext : option string -> string -> string;
  int_or_none : option string -> option Z;
  update_url_query : string -> list (string * string) -> string;
  (** [urljoin(base, path)] for a [str] path *)
  urljoin : string -> string -> option string;
}.

(** The response of a HEAD request *)
Record response : Type := { code : Z; resp_url : string }.

(** Methods inherited from [InfoExtractor], as the extractor calls them. *)
Class InfoExtractor `{Utils} : Type := {
  (** [_download_xml(relinker_url, video_id, ..., query={'output': 45,
      'pl': platform}, ...)]; [None] when the fetch fails *)
  _download_xml : string -> string -> string -> option Element;
  (** [_extract_m3u8_formats(url, video_id, 'mp4', 'm3u8_native',
      m3u8_id='hls', fatal=False)]: the renditions, none on failure *)
  _extract_m3u8_formats : string -> string -> list format;
  (** [_extract_f4m_formats(url, video_id, f4m_id='hds', fatal=False)] *)
  _extract_f4m_formats : string -> string -> list format;
  (** [_request_webpage(HEADRequest(url), None, headers={'User-Agent':
      'Rai'}, fatal=False, ...)]; [None] is the [False] of a failure *)
  _request_webpage : string -> option response;
}.

(** ** RaiBaseIE *)

Section RaiBaseIE.
Context `{InfoExtractor}.

Definition _GEO_COUNTRIES : list string := ["IT"].

(** Modelled from the spec: [report_drm] is inherited, not in the file;
    "surface as a reportable DRM event, not a hard failure -
    extraction continues". *)
Definition report_drm (video_id : string) : M unit :=
  emit (ReportDrm video_id).

(** Modelled from the spec: [raise_geo_restricted] is inherited, not in
    the file; "fail with GeoRestricted (carrying the configured
    restricted-country set and a flag that metadata was nonetheless
    available)". *)
Definition raise_geo_restricted {A : Type}
    (countries : list string) (metadata_available : bool) : M A :=
  raise (GeoRestrictedError countries metadata_available).

Definition download_xml (relinker_url video_id platform : string) : M Element :=
  _ ← emit (DownloadXml relinker_url video_id platform);
  match _download_xml relinker_url video_id platform with
  | Some relinker => mret relinker
  | None => raise ExtractorError
  end.

Definition extract_m3u8_formats (media_url video_id : string) : M (list format) :=
  _ ← emit (ExtractM3u8 media_url);
  mret (_extract_m3u8_formats media_url video_id).

Definition extract_f4m_formats (manifest_url video_id : string) : M (list format) :=
  _ ← emit (ExtractF4m manifest_url);
  mret (_extract_f4m_formats manifest_url video_id).

(** The local variables of [_extract_relinker_info] that live across
    the iterations of its loop. *)
Record locals : Type := {
  formats : list format;
  geoprotection : option bool;
  is_live : option bool;
  duration : option float;
}.

Definition with_formats (st : locals) (fs : list format) : locals :=
  {| formats := fs; geoprotection := geoprotection st;
     is_live := is_live st; duration := duration st |}.

(** How an iteration ends: falls through or [continue]s, or [break]s. *)
Inductive flow : Type :=
| Next (st : locals)
| Break (st : locals).

(** [bool(v)] of [None], [True] or [False] *)
Definition flag_truthy (v : option bool) : bool :=
  match v with Some true => true | _ => false end.

(** [bool(v)] of [None] or a float *)
Definition duration_truthy (v : option float) : bool :=
  match v with Some x => float_truthy x | None => false end.

(** Lines 57-66: the three latches of one iteration. *)
Definition latch (relinker : Element) (st : locals) : locals :=
  {| formats := formats st;
     geoprotection :=
       if negb (flag_truthy (geoprotection st))
       then Some (bool_decide
              (xpath_text relinker "./geoprotection" (Default None) = Some "Y"))
       else geoprotection st;
     is_live :=
       if negb (flag_truthy (is_live st))
       then Some (bool_decide
              (xpath_text relinker "./is_live" (Default None) = Some "Y"))
       else is_live st;
     duration :=
       if negb (duration_truthy (duration st))
       then parse_duration (xpath_text relinker "./duration" (Default None))
       else duration st |}.

Definition mp3_format (media_url : string) : format :=
  {| f_url := Some media_url; f_format_id := Some "http-mp3";
     f_protocol := None; f_ext := None;
     f_vcodec := Some "none"; f_acodec := Some "mp3"; f_tbr := None;
     f_width := None; f_height := None; f_fps := None |}.

Definition http_format (media_url : string) (bitrate : Z) : format :=
  {| f_url := Some media_url;
     f_format_id :=
       Some ("http-" +:+ (if 0 <? bitrate then pretty bitrate else "http"));
     f_protocol := None; f_ext := None; f_vcodec := None; f_acodec := None;
     f_tbr := if 0 <? bitrate then Some (NInt bitrate) else None;
     f_width := None; f_height := None; f_fps := None |}.

(** Lines 79-107: what one iteration does with a media URL that is not
    the placeholder. *)
Definition classify (video_id platform : string) (relinker : Element)
    (media_url : string) (st : locals) : M flow :=
  let ext := determine_ext (Some media_url) "unknown_video" in
  if bool_decide (ext = "m3u8") && negb (bool_decide (platform = "mon"))
     || bool_decide (ext = "f4m") && negb (bool_decide (platform = "flash"))
  then mret (Next st)
  else if bool_decide (ext = "mp3") then
    mret (Break (with_formats st (formats st ++ [mp3_format media_url])))
  else if bool_decide (ext = "m3u8")
          || PyStr.contains "format=m3u8" media_url
          || bool_decide (platform = "mon") then
    fs ← extract_m3u8_formats media_url video_id;
    mret (Next (with_formats st (formats st ++ fs)))
  else if bool_decide (ext = "f4m") || bool_decide (platform = "flash") then
    let manifest_url :=
      update_url_query
        (PyStr.replace "manifest#live_hds.f4m" "manifest.f4m" media_url)
        [("hdcore", "3.7.0"); ("plugin", "aasp-3.7.0.39.44")] in
    fs ← extract_f4m_formats manifest_url video_id;
    mret (Next (with_formats st (formats st ++ fs)))
  else
    match int_or_none (xpath_text relinker "bitrate" NO_DEFAULT) with
    | None => raise TypeError   (* [None > 0] *)
    | Some bitrate =>
        mret (Next (with_formats st (formats st ++ [http_format media_url bitrate])))
    end.

(** Lines 47-107: one iteration of the loop over the platforms. *)
Definition iteration (relinker_url video_id platform : string)
    (st : locals) : M flow :=
  relinker ← download_xml relinker_url video_id platform;
  _ ← (if negb (bool_decide
            (xpath_text relinker "./license_url" (Default (Some "{}")) = Some "{}"))
       then report_drm video_id else mret tt);
  let st := latch relinker st in
  match find_xpath_attr relinker "./url" "type" "content" with
  | None => mret (Next st)
  | Some url_elem =>
      match text url_elem with
      | None => raise TypeError   (* ['...' in None] *)
      | Some media_url =>
          if PyStr.contains "/video_no_available.mp4" media_url
          then mret (Next st)
          else classify video_id platform relinker media_url st
      end
  end.

Fixpoint loop (relinker_url video_id : string) (platforms : list string)
    (st : locals) : M locals :=
  match platforms with
  | [] => mret st
  | platform :: rest =>
      r ← iteration relinker_url video_id platform st;
      match r with
      | Break st' => mret st'
      | Next st' => loop relinker_url video_id rest st'
      end
  end.

Definition initial : locals :=
  {| formats := []; geoprotection := None; is_live := None; duration := None |}.

Definition platforms : list string := ["mon"; "flash"; "native"].

(** *** [_create_http_urls] *)

Definition _RELINKER_REG : string :=
  "https?://(?P<host>[^/]+?)/(?:i/)?(?P<extra>[^/]+?)/(?P<path>.+?)/(?P<id>\w+)(?:_(?P<quality>[\d\,]+))?(?:\.mp4|/playlist\.m3u8).+?".

Definition _MP4_TMPL (relinker_url quality : string) : string :=
  relinker_url +:+ "&overrideUserAgentRule=mp4-" +:+ quality.

(** tbr: w, h *)
Definition _QUALITY : list (string * (Z * Z)) :=
  [ ("250", (352, 198));
    ("400", (512, 288));
    ("700", (512, 288));
    ("800", (700, 394));
    ("1200", (736, 414));
    ("1800", (1024, 576));
    ("2400", (1280, 720));
    ("3200", (1440, 810));
    ("3600", (1440, 810));
    ("5000", (1920, 1080));
    ("10000", (1920, 1080)) ].

(** [_QUALITY[tbr]]; [None] is the [KeyError] *)
Fixpoint quality_get (table : list (string * (Z * Z))) (tbr : string)
    : option (Z * Z) :=
  match table with
  | [] => None
  | (k, wh) :: table' =>
      if bool_decide (k = tbr) then Some wh else quality_get table' tbr
  end.

(** What [test_url] returns: [False], [None] or the final URL. *)
Inductive probe : Type :=
| ProbeFalse
| ProbeNone
| ProbeUrl (final_url : string).

Definition test_url (url : string) : M probe :=
  _ ← emit (HeadRequest url);
  mret (match _request_webpage url with
        | None => ProbeFalse
        | Some resp =>
            if code resp =? 200 then
              if bool_decide (resp_url resp = url) then ProbeFalse
              else ProbeUrl (resp_url resp)
            else ProbeNone
        end).

(** Lines 159-162: the tier string. *)
Definition tier (br : option num) : result string :=
  match br with
  | Some n =>
      if num_truthy br && num_gt_300 n then
        k ← floor_div_100 br; mret (pretty (k * 100))
      else mret "250"
  | None => mret "250"
  end.

(** Lines 165-170: the last of the formats within one bucket of [br]. *)
Fixpoint find_copy (br : option num) (fmts : list format)
    (format_copy : option format) : result (option format) :=
  match fmts with
  | [] => mret format_copy
  | f :: rest =>
      if num_truthy (f_tbr f) then
        br_limit ← floor_div_100 br;
        k ← floor_div_100 (f_tbr f);
        find_copy br rest
          (if (br_limit - 1 <=? k) && (k <=? br_limit + 1)
           then Some f else format_copy)
      else find_copy br rest format_copy
  end.

(** Lines 156-158: the bitrate a quality token stands for. *)
Definition target_bitrate (fmts : list format) (tbr : string) : option num :=
  let br := NInt <$> int_or_none (Some tbr) in
  if bool_decide (length fmts = 1%nat) && negb (num_truthy br)
  then match fmts with f :: _ => f_tbr f | [] => None end
  else br.

(** [get_format_info(tbr)], closed over the filtered [fmts]. *)
Definition get_format_info (fmts : list format) (tbr : string) : result format :=
  let br := target_bitrate fmts tbr in
  tbr ← tier br;
  format_copy ← find_copy br fmts None;
  match format_copy with
  | Some f =>
      mret {| f_url := None; f_protocol := None; f_ext := None;
              f_width := f_width f; f_height := f_height f;
              f_tbr := f_tbr f; f_vcodec := f_vcodec f;
              f_acodec := f_acodec f; f_fps := f_fps f;
              f_format_id := Some ("https-" +:+ tbr) |}
  | None =>
      match quality_get _QUALITY tbr with
      | None => Raise (KeyError tbr)
      | Some (w, h) =>
          match PyStr.int tbr with
          | None => Raise ValueError
          | Some n =>
              mret {| f_url := None; f_protocol := None; f_ext := None;
                      f_width := Some w; f_height := Some h;
                      f_format_id := Some ("https-" +:+ tbr);
                      f_tbr := Some (NInt n);
                      f_vcodec := None; f_acodec := None; f_fps := None |}
          end
      end
  end.

(** Lines 201-206: the descriptor of one quality token. *)
Definition https_format (relinker_url : string) (fmts : list format)
    (q : string) : result format :=
  info ← get_format_info fmts q;
  mret {| f_url := Some (_MP4_TMPL relinker_url q);
          f_protocol := Some "https"; f_ext := Some "mp4";
          f_width := f_width info; f_height := f_height info;
          f_tbr := f_tbr info; f_vcodec := f_vcodec info;
          f_acodec := f_acodec info; f_fps := f_fps info;
          f_format_id := f_format_id info |}.

(** Lines 199-208: the loop over the quality tokens. *)
Fixpoint https_formats (relinker_url : string) (fmts : list format)
    (available_qualities : list string) : result (list format) :=
  match available_qualities with
  | [] => mret []
  | q :: rest =>
      fmt ← https_format relinker_url fmts q;
      formats ← https_formats relinker_url fmts rest;
      mret (fmt :: formats)
  end.

Definition is_audio_only (f : format) : bool :=
  bool_decide (f_vcodec f = Some "none").

Definition available_qualities (quality : option string) : list string :=
  List.filter PyStr.truthy
    (match quality with
     | Some q => if PyStr.truthy q then PyStr.split "," q else ["*"]
     | None => ["*"]
     end).

Definition _create_http_urls (relinker_url : string) (fmts : list format)
    : M (list format) :=
  let fmts := List.filter (fun f => negb (is_audio_only f)) fmts in
  loc ← test_url (_MP4_TMPL relinker_url "*");
  match loc with
  | ProbeUrl _ =>
      target ← test_url relinker_url;
      match re_match _RELINKER_REG
              (match target with ProbeUrl s => s | _ => "" end) with
      | None => mret []
      | Some mobj =>
          lift (https_formats relinker_url fmts
                  (available_qualities (mobj "quality")))
      end
  | _ => mret []
  end.

(** *** [_extract_relinker_info] *)

Definition _extract_relinker_info (relinker_url video_id : string)
    (audio_only : bool) : M info_dict :=
  if negb (PyStr.match_http relinker_url) then
    mret [("formats",
           IVFormats [ {| f_url := Some relinker_url; f_format_id := None;
                          f_protocol := None; f_ext := None;
                          f_vcodec := None; f_acodec := None; f_tbr := None;
                          f_width := None; f_height := None; f_fps := None |} ])]
  else
    st ← loop relinker_url video_id platforms initial;
    _ ← (if bool_decide (formats st = []) && bool_decide (geoprotection st = Some true)
         then raise_geo_restricted _GEO_COUNTRIES true else mret tt);
    formats ← (if negb audio_only then
                 extra ← _create_http_urls relinker_url (formats st);
                 mret (formats st ++ extra)
               else mret (formats st));
    mret (filter_dict [ ("is_live", of_bool (is_live st));
                        ("duration", of_float (duration st));
                        ("formats", IVFormats formats) ]).

End RaiBaseIE.

(** ** [_extract_subtitles]

    [video_data] is a decoded JSON object.  The list under
    [subtitlesArray] is a Python list object the caller still holds, so
    lists are values in a store and a JSON array is a reference into it. *)

Definition loc : Type := positive.

(** Decoded JSON, without non-integer numbers. *)
#[local] Unset Elimination Schemes.
Inductive pyval : Type :=
| PNone
| PBool (b : bool)
| PInt (z : Z)
| PStr (s : string)
| PListRef (l : loc)
| PDict (items : list (string * pyval)).
#[local] Set Elimination Schemes.

Abbreviation store := (gmap loc (list pyval)).

Section Subtitles.
Context `{Utils}.

(** [bool(v)]; a list is read through the store *)
Definition truthy (heap : store) (v : pyval) : bool :=
  match v with
  | PNone => false
  | PBool b => b
  | PInt z => negb (z =? 0)
  | PStr s => PyStr.truthy s
  | PListRef l => match heap !! l with Some (_ :: _) => true | _ => false end
  | PDict items => match items with [] => false | _ => true end
  end.

(** [d.get(k)] on a [video_data] object: [None] when the key is missing *)
Definition get (video_data : gmap string pyval) (k : string) : pyval :=
  default PNone (video_data !! k).

(** [subtitle.get(k)] on a list entry; only a dict has [.get] *)
Fixpoint items_get (items : list (string * pyval)) (k : string) : pyval :=
  match items with
  | [] => PNone
  | (k', v) :: items' => if bool_decide (k' = k) then v else items_get items' k
  end.

Definition entry_get (subtitle : pyval) (k : string) : result pyval :=
  match subtitle with
  | PDict items => Ok (items_get items k)
  | _ => Raise AttributeError
  end.

(** One subtitle variant, [{'ext': ..., 'url': ...}] *)
Record variant : Type := { ext : string; url : option string }.

(** The returned dict, in insertion order.  Keys are the truthy values
    of [language]: strings, or ints and bools, which Python compares as
    numbers. *)
Definition subtitles_dict : Type := list (pyval * list variant).

Definition key_eqb (a b : pyval) : bool :=
  match a, b with
  | PStr s, PStr t => bool_decide (s = t)
  | PInt x, PInt y => x =? y
  | PBool x, PBool y => bool_decide (x = y)
  | PInt x, PBool y | PBool y, PInt x => x =? (if y then 1 else 0)
  | _, _ => false
  end.

Definition hashable (k : pyval) : bool :=
  match k with
  | PListRef _ | PDict _ => false
  | _ => true
  end.

(** [subtitles.setdefault(k, []).append(v)] and, for a key already
    there, [subtitles[k].append(v)] *)
Fixpoint append_to (subtitles : subtitles_dict) (k : pyval) (v : variant)
    : subtitles_dict :=
  match subtitles with
  | [] => [(k, [v])]
  | (k', vs) :: rest =>
      if key_eqb k' k then (k', vs ++ [v]) :: rest
      else (k', vs) :: append_to rest k v
  end.

Definition STL_EXT : string := "stl".
Definition SRT_EXT : string := "srt".

(** Lines 219-232: the body of the loop over [subtitles_array]. *)
Definition add_subtitle (heap : store) (url : string) (subtitle : pyval)
    (subtitles : subtitles_dict) : result subtitles_dict :=
  sub_url ← entry_get subtitle "url";
  match sub_url with
  | PStr s =>
      if PyStr.truthy s then
        language ← entry_get subtitle "language";
        let sub_lang := if truthy heap language then language else PStr "it" in
        let sub_url := urljoin url s in
        let sub_ext := determine_ext sub_url SRT_EXT in
        if negb (hashable sub_lang) then Raise TypeError else
        let subtitles :=
          append_to subtitles sub_lang {| ext := sub_ext; url := sub_url |} in
        if bool_decide (STL_EXT = sub_ext) then
          match sub_url with
          | None => Raise TypeError   (* [None[:-3]] *)
          | Some u =>
              Ok (append_to subtitles sub_lang
                    {| ext := SRT_EXT;
                       url := Some (PyStr.drop_last (String.length STL_EXT) u
                                    +:+ SRT_EXT) |})
          end
        else Ok subtitles
      else Ok subtitles
  | _ => Ok subtitles
  end.

Fixpoint add_subtitles (heap : store) (url : string) (entries : list pyval)
    (subtitles : subtitles_dict) : result subtitles_dict :=
  match entries with
  | [] => Ok subtitles
  | subtitle :: rest =>
      subtitles ← add_subtitle heap url subtitle subtitles;
      add_subtitles heap url rest subtitles
  end.

(** The two entries line 217 appends. *)
Definition legacy_entries (video_data : gmap string pyval) : list pyval :=
  [ PDict [("url", get video_data "subtitles")];
    PDict [("url", get video_data "subtitlesUrl")] ].

(** [_extract_subtitles(url, video_data)]: the store after the call and
    what the call returns.  [video_data.get('subtitlesArray') or []] is
    the caller's list when that is truthy and a fresh list otherwise;
    only a list has [.append]. *)
Definition _extract_subtitles (url : string) (video_data : gmap string pyval)
    (heap : store) : store * result subtitles_dict :=
  let v := get video_data "subtitlesArray" in
  if truthy heap v then
    match v with
    | PListRef l =>
        let subtitles_array := default [] (heap !! l) ++ legacy_entries video_data in
        let heap := <[l := subtitles_array]> heap in
        (heap, add_subtitles heap url subtitles_array [])
    | _ => (heap, Raise AttributeError)
    end
  else
    (heap, add_subtitles heap url ([] ++ legacy_entries video_data) []).

End Subtitles.

(** ** A concrete framework

    One implementation of the interfaces, to run the extractor on
    concrete responses.  Floats are read as exact rationals and the
    helpers follow [..utils] on the inputs used in this file: element
    lookup by child tag, durations and bitrates written as plain decimal
    digits, extensions as the alphanumeric text after the last dot of
    the part of the URL before [?], absolute URLs left as they are by
    [urljoin]. *)

Module Sample.

#[global] Instance exact_float : PyFloat := {|
  float := Q;
  float_truthy x := negb (Qeq_bool x 0);
  float_gt_300 x := negb (Qle_bool x 300);
  float_floor_div_100 x := Floor (Qfloor (x / 100));
  huge_int_floor_div_100 z := Some (z / 100);
|}.

#[local] Unset Elimination Schemes.
Inductive xml : Type :=
| Node (tag : string) (attrib : list (string * string))
       (node_text : option string) (children : list xml).
#[local] Set Elimination Schemes.

Definition tag_of (n : xml) : string := match n with Node t _ _ _ => t end.
Definition attrib_of (n : xml) : list (string * string) :=
  match n with Node _ a _ _ => a end.
Definition text_of (n : xml) : option string :=
  match n with Node _ _ t _ => t end.
Definition children_of (n : xml) : list xml :=
  match n with Node _ _ _ c => c end.

(** The child tag an xpath of the form [./tag] or [tag] names *)
Definition child_tag (xpath : string) : string :=
  if String.prefix "./" xpath
  then String.substring 2 (String.length xpath - 2) xpath
  else xpath.

Definition find_child (n : xml) (xpath : string) : option xml :=
  List.find (fun c => bool_decide (tag_of c = child_tag xpath)) (children_of n).

Definition sample_xpath_text (n : xml) (xpath : string) (d : default_arg)
    : option string :=
  let dflt := match d with Default v => v | NO_DEFAULT => None end in
  match find_child n xpath with
  | None => dflt
  | Some c => match text_of c with Some t => Some t | None => dflt end
  end.

Fixpoint attr_get (a : list (string * string)) (k : string) : option string :=
  match a with
  | [] => None
  | (k', v) :: a' => if bool_decide (k' = k) then Some v else attr_get a' k
  end.

Definition sample_find_xpath_attr (n : xml) (xpath key val : string)
    : option xml :=
  List.find
    (fun c => bool_decide (tag_of c = child_tag xpath)
              && bool_decide (attr_get (attrib_of c) key = Some val))
    (children_of n).

Definition sample_int_or_none (v : option string) : option Z :=
  match v with Some s => PyStr.int s | None => None end.

Definition sample_parse_duration (v : option string) : option Q :=
  match sample_int_or_none v with Some n => Some (inject_Z n) | None => None end.

Fixpoint before (c : ascii) (s : string) : string :=
  match s with
  | EmptyString => EmptyString
  | String a s' => if Ascii.eqb a c then EmptyString else String a (before c s')
  end.

Fixpoint after_last (c : ascii) (s : string) : option string :=
  match s with
  | EmptyString => None
  | String a s' =>
      match after_last c s' with
      | Some r => Some r
      | None => if Ascii.eqb a c then Some s' else None
      end
  end.

Definition is_alnum (c : ascii) : bool :=
  let n := nat_of_ascii c in
  ((48 <=? n) && (n <=? 57) || (65 <=? n) && (n <=? 90)
   || (97 <=? n) && (n <=? 122))%nat.

Fixpoint all_alnum (s : string) : bool :=
  match s with
  | EmptyString => true
  | String c s' => is_alnum c && all_alnum s'
  end.

Definition sample_determine_ext (url : option string) (default_ext : string)
    : string :=
  match url with
  | None => default_ext
  | Some u =>
      match after_last "." u with
      | None => default_ext
      | Some _ =>
          let path := before "?" u in
          let guess := default path (after_last "." path) in
          if PyStr.truthy guess && all_alnum guess then guess else default_ext
      end
  end.

Fixpoint query_string (query : list (string * string)) : string :=
  match query with
  | [] => EmptyString
  | [(k, v)] => k +:+ "=" +:+ v
  | (k, v) :: rest => k +:+ "=" +:+ v +:+ "&" +:+ query_string rest
  end.

Definition sample_update_url_query (url : string)
    (query : list (string * string)) : string :=
  url +:+ (if PyStr.contains "?" url then "&" else "?") +:+ query_string query.

Definition sample_urljoin (base path : string) : option string :=
  if PyStr.match_http path then Some path
  else if PyStr.match_http base then Some (base +:+ path) else None.

(** A backtracking matcher for the constructs [_RELINKER_REG] uses, on
    ASCII subjects. *)
Inductive regex : Type :=
| Lit (s : string)
| PlusGreedy (p : ascii -> bool)
| PlusLazy (p : ascii -> bool)
| Opt (r : regex)
| Alt (r1 r2 : regex)
| Seq (r1 r2 : regex)
| Group (name : string) (r : regex).

Definition captures : Type := list (string * string).

(** [p+]: as many characters as possible first *)
Fixpoint plus_greedy (p : ascii -> bool) (s : string)
    (k : string -> option captures) : option captures :=
  match s with
  | EmptyString => None
  | String c s' =>
      if p c then
        match plus_greedy p s' k with
        | Some m => Some m
        | None => k s'
        end
      else None
  end.

(** [p+?]: as few characters as possible first *)
Fixpoint plus_lazy (p : ascii -> bool) (s : string)
    (k : string -> option captures) : option captures :=
  match s with
  | EmptyString => None
  | String c s' =>
      if p c then
        match k s' with
        | Some m => Some m
        | None => plus_lazy p s' k
        end
      else None
  end.

(** The text between the start of [s] and its suffix [rest] *)
Definition consumed (s rest : string) : string :=
  String.substring 0 (String.length s - String.length rest) s.

Fixpoint rmatch (r : regex) (s : string) (caps : captures)
    (k : string -> captures -> option captures) : option captures :=
  match r with
  | Lit l =>
      if String.prefix l s
      then k (String.substring (String.length l)
                (String.length s - String.length l) s) caps
      else None
  | PlusGreedy p => plus_greedy p s (fun rest => k rest caps)
  | PlusLazy p => plus_lazy p s (fun rest => k rest caps)
  | Opt r' =>
      match rmatch r' s caps k with
      | Some m => Some m
      | None => k s caps
      end
  | Alt r1 r2 =>
      match rmatch r1 s caps k with
      | Some m => Some m
      | None => rmatch r2 s caps k
      end
  | Seq r1 r2 => rmatch r1 s caps (fun rest caps' => rmatch r2 rest caps' k)
  | Group name r' =>
      rmatch r' s caps (fun rest caps' => k rest ((name, consumed s rest) :: caps'))
  end.

Definition code_in (lo hi : nat) (c : ascii) : bool :=
  ((lo <=? nat_of_ascii c) && (nat_of_ascii c <=? hi))%nat.

Definition is_digit : ascii -> bool := code_in 48 57.
(** [\w] *)
Definition is_word (c : ascii) : bool :=
  is_digit c || code_in 65 90 c || code_in 97 122 c || Ascii.eqb c "_".
(** [[^/]] *)
Definition not_slash (c : ascii) : bool := negb (Ascii.eqb c "/").
(** [.] *)
Definition not_newline (c : ascii) : bool := negb (nat_of_ascii c =? 10)%nat.
(** [[\d\,]] *)
Definition digit_or_comma (c : ascii) : bool := is_digit c || Ascii.eqb c ",".

Definition seq (rs : list regex) : regex := fold_right Seq (Lit EmptyString) rs.

(** [_RELINKER_REG], construct by construct *)
Definition relinker_regex : regex :=
  seq [ Lit "http"; Opt (Lit "s"); Lit "://";
        Group "host" (PlusLazy not_slash); Lit "/";
        Opt (Lit "i/");
        Group "extra" (PlusLazy not_slash); Lit "/";
        Group "path" (PlusLazy not_newline); Lit "/";
        Group "id" (PlusGreedy is_word);
        Opt (Seq (Lit "_") (Group "quality" (PlusGreedy digit_or_comma)));
        Alt (Lit ".mp4") (Lit "/playlist.m3u8");
        PlusLazy not_newline ].

Fixpoint group_of (caps : captures) (name : string) : option string :=
  match caps with
  | [] => None
  | (n, v) :: caps' => if bool_decide (n = name) then Some v else group_of caps' name
  end.

Definition sample_re_match (pattern s : string)
    : option (string -> option string) :=
  if bool_decide (pattern = "https?://(?P<host>[^/]+?)/(?:i/)?(?P<extra>[^/]+?)/(?P<path>.+?)/(?P<id>\w+)(?:_(?P<quality>[\d\,]+))?(?:\.mp4|/playlist\.m3u8).+?")
  then group_of <$> rmatch relinker_regex s [] (fun _ caps => Some caps)
  else None.

#[global] Instance sample_utils : Utils := {|
  re_match := sample_re_match;
  Element := xml;
  text := text_of;
  xpath_text := sample_xpath_text;
  find_xpath_attr := sample_find_xpath_attr;
  parse_duration := sample_parse_duration;
  determine_ext := sample_determine_ext;
  int_or_none := sample_int_or_none;
  update_url_query := sample_update_url_query;
  urljoin := sample_urljoin;
|}.

(** The outside world of one example: the relinker's answer per
    platform, the manifests and the HEAD responses. *)
Record server : Type := {
  relinker_of : string -> option xml;
  hls_of : string -> list format;
  hds_of : string -> list format;
  head_of : string -> option response;
}.

Definition sample_ie (srv : server) : InfoExtractor := {|
  _download_xml _ _ platform := relinker_of srv platform;
  _extract_m3u8_formats media_url _ := hls_of srv media_url;
  _extract_f4m_formats manifest_url _ := hds_of srv manifest_url;
  _request_webpage := head_of srv;
|}.

Definition leaf (tag text : string) : xml := Node tag [] (Some text) [].
Definition content_url (media_url : string) : xml :=
  Node "url" [("type", "content")] (Some media_url) [].
Definition relinker_doc (children : list xml) : xml :=
  Node "Mediapolis" [] None children.

(** A server that knows no manifest and answers no HEAD request *)
Definition offline (relinker_of : string -> option xml) : server := {|
  relinker_of := relinker_of;
  hls_of _ := [];
  hds_of _ := [];
  head_of _ := None;
|}.

(** [is_live] is [N] for mon, [Y] for flash and missing for native;
    the duration is 0 for mon and 120 for flash. *)
Definition late_live : server :=
  offline (fun platform =>
    if bool_decide (platform = "mon")
    then Some (relinker_doc [leaf "is_live" "N"; leaf "duration" "0"])
    else if bool_decide (platform = "flash")
    then Some (relinker_doc [leaf "is_live" "Y"; leaf "duration" "120"])
    else Some (relinker_doc [])).

(** No profile declares anything. *)
Definition silent : server := offline (fun _ => Some (relinker_doc [])).

(** Every profile declares geo-protection and no media URL. *)
Definition geo_blocked : server :=
  offline (fun _ => Some (relinker_doc [leaf "geoprotection" "Y"])).

Definition hls_rendition : format :=
  {| f_url := Some "http://x/v/1200.m3u8"; f_format_id := Some "hls-1200";
     f_protocol := Some "m3u8_native"; f_ext := Some "mp4";
     f_vcodec := None; f_acodec := None; f_tbr := Some (NInt 1200);
     f_width := Some 736; f_height := Some 414; f_fps := None |}.

(** mon answers with an HLS manifest of one rendition, flash with an
    mp3 file. *)
Definition hls_then_mp3 : server := {|
  relinker_of platform :=
    if bool_decide (platform = "mon")
    then Some (relinker_doc [content_url "http://x/v.m3u8"])
    else if bool_decide (platform = "flash")
    then Some (relinker_doc [content_url "http://x/a.mp3"])
    else Some (relinker_doc []);
  hls_of media_url :=
    if bool_decide (media_url = "http://x/v.m3u8") then [hls_rendition] else [];
  hds_of _ := [];
  head_of _ := None;
|}.

(** Only native answers: a direct file, without a [bitrate] element. *)
Definition no_bitrate : server :=
  offline (fun platform =>
    if bool_decide (platform = "native")
    then Some (relinker_doc [content_url "http://x/a.mp4"])
    else Some (relinker_doc [])).

(** Only native answers: a direct file with the given [bitrate]. *)
Definition with_bitrate (bitrate : string) : server :=
  offline (fun platform =>
    if bool_decide (platform = "native")
    then Some (relinker_doc [content_url "http://x/a.mp4"; leaf "bitrate" bitrate])
    else Some (relinker_doc [])).

(** Only native answers, with an HLS manifest. *)
Definition m3u8_on_native : server := {|
  relinker_of platform :=
    if bool_decide (platform = "native")
    then Some (relinker_doc [content_url "http://x/a.m3u8"])
    else Some (relinker_doc []);
  hls_of _ := [hls_rendition];
  hds_of _ := [];
  head_of _ := None;
|}.

(** HEAD requests to the relinker are redirected to a file whose name
    carries the quality tokens [quality]. *)
Definition redirecting (quality : string) : server := {|
  relinker_of _ := Some (relinker_doc []);
  hls_of _ := [];
  hds_of _ := [];
  head_of url :=
    Some {| code := 200;
            resp_url := "https://host/extra/path/id_" +:+ quality +:+ ".mp4?auth=1" |};
|}.

(** The frameworks of the examples *)
Definition late_live_ie : InfoExtractor := sample_ie late_live.
Definition silent_ie : InfoExtractor := sample_ie silent.
Definition geo_blocked_ie : InfoExtractor := sample_ie geo_blocked.
Definition hls_then_mp3_ie : InfoExtractor := sample_ie hls_then_mp3.
Definition no_bitrate_ie : InfoExtractor := sample_ie no_bitrate.
Definition m3u8_on_native_ie : InfoExtractor := sample_ie m3u8_on_native.
Definition unknown_tier_ie : InfoExtractor := sample_ie (redirecting "250,500").
Definition two_tiers_ie : InfoExtractor := sample_ie (redirecting "250,400").
Definition one_tier_ie : InfoExtractor := sample_ie (redirecting "1800").
Definition bitrate_800_ie : InfoExtractor := sample_ie (with_bitrate "800").
Definition bitrate_0_ie : InfoExtractor := sample_ie (with_bitrate "0").

Definition relinker_url : string := "http://relinker/track?cont=abc".
Definition video_id : string := "abc".

Definition downloads : list event :=
  [ DownloadXml relinker_url video_id "mon";
    DownloadXml relinker_url video_id "flash";
    DownloadXml relinker_url video_id "native" ].

(** The responses of [late_live] and the state its loop ends in *)
Definition late_live_responses : list xml :=
  [ relinker_doc [leaf "is_live" "N"; leaf "duration" "0"];
    relinker_doc [leaf "is_live" "Y"; leaf "duration" "120"];
    relinker_doc [] ].

Definition late_live_locals : locals :=
  {| formats := []; geoprotection := Some false; is_live := Some true;
     duration := Some (inject_Z 120) |}.

Definition silent_responses : list xml :=
  [ relinker_doc []; relinker_doc []; relinker_doc [] ].

(** The state of [hls_then_mp3] when flash is reached *)
Definition after_mon : locals :=
  {| formats := [hls_rendition]; geoprotection := Some false;
     is_live := Some false; duration := None |}.

Definition url_only (u : string) : format :=
  {| f_url := Some u; f_format_id := None; f_protocol := None; f_ext := None;
     f_vcodec := None; f_acodec := None; f_tbr := None; f_width := None;
     f_height := None; f_fps := None |}.

(** A caller's record whose [subtitlesArray] is the list at location 1 *)
Definition shared_record : gmap string pyval :=
  {[ "subtitlesArray" := PListRef 1%positive ]}.
Definition shared_store : store :=
  {[ 1%positive := [PDict [("url", PStr "http://x/b.srt")]] ]}.

End Sample.

(** ** Vocabulary of the statements *)

Section Vocabulary.
Context `{InfoExtractor}.

(** The first value that is present, in order: the spec's "first
    non-empty value seen in profile order". *)
Fixpoint first_present {A : Type} (vals : list (option A)) : option A :=
  match vals with
  | [] => None
  | Some v :: _ => Some v
  | None :: rest => first_present rest
  end.

(** The flag under [field] as the spec's first-wins law reads it off the
    responses: the first declared value, compared with [Y]. *)
Definition spec_first_wins_flag (field : string) (rs : list Element)
    : option bool :=
  (fun v => bool_decide (v = "Y"))
    <$> first_present (map (fun r => xpath_text r field (Default None)) rs).

(** The duration as the spec's first-wins law reads it off the
    responses: the first one that parses. *)
Definition spec_first_wins_duration (rs : list Element) : option float :=
  first_present
    (map (fun r => parse_duration (xpath_text r "./duration" (Default None))) rs).

(** The response declares [Y] under [field]. *)
Definition says_Y (field : string) (relinker : Element) : bool :=
  bool_decide (xpath_text relinker field (Default None) = Some "Y").

Definition any_Y (field : string) (rs : list Element) : bool :=
  existsb (says_Y field) rs.

Definition parsed_duration (relinker : Element) : option float :=
  parse_duration (xpath_text relinker "./duration" (Default None)).

(** The first truthy value, or the last value when none is truthy. *)
Fixpoint first_truthy_or_last (ds : list (option float)) : option float :=
  match ds with
  | [] => None
  | d :: rest =>
      if duration_truthy d then d
      else match rest with
           | [] => d
           | _ => first_truthy_or_last rest
           end
  end.

(** [rs] are the responses of the first profiles of [ps], in order. *)
Definition responses_of (relinker_url video_id : string) (ps : list string)
    (rs : list Element) : Prop :=
  Forall2 (fun p r => _download_xml relinker_url video_id p = Some r)
          (take (length rs) ps) rs.

(** The latches of several responses in a row *)
Definition latch_all (rs : list Element) (st : locals) : locals :=
  fold_left (fun st r => latch r st) rs st.

(** What the DRM check of one iteration adds to the log *)
Definition drm_events (video_id : string) (relinker : Element) : list event :=
  if negb (bool_decide
       (xpath_text relinker "./license_url" (Default (Some "{}")) = Some "{}"))
  then [ReportDrm video_id] else [].

(** The log after the download and the DRM check of one iteration *)
Definition probed (tr : list event) (relinker_url video_id platform : string)
    (relinker : Element) : list event :=
  tr ++ [DownloadXml relinker_url video_id platform] ++ drm_events video_id relinker.

(** Two states agree on the latched fields. *)
Definition same_latches (s1 s2 : locals) : Prop :=
  geoprotection s1 = geoprotection s2 /\ is_live s1 = is_live s2
  /\ duration s1 = duration s2.

(** The dict [_extract_relinker_info] returns for the final state of the
    loop and the final list of formats (lines 115-119). *)
Definition outcome (st : locals) (fs : list format) : info_dict :=
  filter_dict [ ("is_live", of_bool (is_live st));
                ("duration", of_float (duration st));
                ("formats", IVFormats fs) ].

Definition locals_of (r : flow) : locals :=
  match r with Next st | Break st => st end.

(** The loop of [_extract_relinker_info] with its way of ending kept:
    [Next] when the platforms were exhausted, [Break] after a [break]. *)
Fixpoint probe_all (relinker_url video_id : string) (ps : list string)
    (st : locals) : M flow :=
  match ps with
  | [] => mret (Next st)
  | platform :: rest =>
      r ← iteration relinker_url video_id platform st;
      match r with
      | Break st' => mret (Break st')
      | Next st' => probe_all relinker_url video_id rest st'
      end
  end.

(** The tier string of an int bitrate (lines 159-162). *)
Definition tier_of (n : Z) : string :=
  if 300 <? n then pretty (n / 100 * 100) else "250".

Definition table_key (tbr : string) : Prop :=
  is_Some (quality_get _QUALITY tbr).

(** The bitrates [get_format_info] divides are finite. *)
Definition finite_tbr (f : format) : Prop :=
  num_truthy (f_tbr f) = true -> exists k, floor_div_100 (f_tbr f) = Ok k.

(** The format carries a bitrate within one bucket of [br] (line 169). *)
Definition within_bucket (br : option num) (f : format) : Prop :=
  num_truthy (f_tbr f) = true
  /\ exists b k, floor_div_100 br = Ok b /\ floor_div_100 (f_tbr f) = Ok k
                 /\ b - 1 <= k <= b + 1.

(** The quality tokens [get_format_info] has an answer for:
    - a positive bitrate, when its tier is a key of [_QUALITY] or some
      video format lies within one bucket of it;
    - a token that is no number (the wildcard), when no video format
      carries a bitrate (the tier is then 250);
    - the wildcard, when there is exactly one video format and it
      carries a bitrate (which is then the target). *)
Definition resolvable_token (fmts : list format) (q : string) : Prop :=
  (exists n, int_or_none (Some q) = Some n /\ 0 < n < 2 ^ 46
             /\ Forall finite_tbr fmts
             /\ (table_key (tier_of n)
                 \/ Exists (within_bucket (Some (NInt n))) fmts))
  \/ (int_or_none (Some q) = None
      /\ Forall (fun f => num_truthy (f_tbr f) = false) fmts)
  \/ (int_or_none (Some q) = None
      /\ exists f, fmts = [f] /\ num_truthy (f_tbr f) = true /\ finite_tbr f).

(** The quality tokens [get_format_info] has no answer for: a positive
    bitrate [n] whose tier is no key of [_QUALITY] and within one bucket
    of which no video format lies (line 180 then looks the tier up). *)
Definition unanswered_token (fmts : list format) (q : string) (n : Z) : Prop :=
  int_or_none (Some q) = Some n /\ 0 < n < 2 ^ 46
  /\ Forall finite_tbr fmts
  /\ ~ table_key (tier_of n)
  /\ Forall (fun f => ~ within_bucket (Some (NInt n)) f) fmts.

(** The descriptor of a token carries the tier of its target bitrate
    in its format id. *)
Definition has_tier_id (fmts : list format) (q : string) (f : format) : Prop :=
  exists t, tier (target_bitrate fmts q) = Ok t
            /\ f_format_id f = Some ("https-" +:+ t).

(** The final URL of a HEAD request that is answered with status 200
    from another URL than the one requested *)
Definition redirect_of (url : string) : option string :=
  match _request_webpage url with
  | Some resp =>
      if (code resp =? 200) && negb (bool_decide (resp_url resp = url))
      then Some (resp_url resp) else None
  | None => None
  end.

(** The formats [_create_http_urls] matches against (line 152) *)
Definition video_formats (fmts : list format) : list format :=
  List.filter (fun f => negb (is_audio_only f)) fmts.

(** The log after the two HEAD requests of [_create_http_urls] *)
Definition both_probes (tr : list event) (relinker_url : string) : list event :=
  tr ++ [HeadRequest (_MP4_TMPL relinker_url "*"); HeadRequest relinker_url].

Definition is_geo_restricted (e : exc) : Prop :=
  match e with GeoRestrictedError _ _ => True | _ => False end.

End Vocabulary.

(** ** Vocabulary of the further statements *)

Section Requests.
Context `{InfoExtractor}.

Definition is_download (ev : event) : bool :=
  match ev with DownloadXml _ _ _ => true | _ => false end.

Definition is_head (ev : event) : bool :=
  match ev with HeadRequest _ => true | _ => false end.

(** A manifest expansion, HLS or HDS *)
Definition is_expansion (ev : event) : bool :=
  match ev with ExtractM3u8 _ | ExtractF4m _ => true | _ => false end.

(** The profile answers, but with nothing to play: no [url] element of
    type [content], or the placeholder of line 76. *)
Definition unusable (relinker_url video_id platform : string) : Prop :=
  exists r,
    _download_xml relinker_url video_id platform = Some r
    /\ (find_xpath_attr r "./url" "type" "content" = None
        \/ exists e u,
             find_xpath_attr r "./url" "type" "content" = Some e
             /\ text e = Some u
             /\ PyStr.contains "/video_no_available.mp4" u = true).

(** The manifest URL of the HDS branch (lines 96-98) *)
Definition hds_manifest (media_url : string) : string :=
  update_url_query
    (PyStr.replace "manifest#live_hds.f4m" "manifest.f4m" media_url)
    [("hdcore", "3.7.0"); ("plugin", "aasp-3.7.0.39.44")].

(** The int a tier string stands for *)
Definition tier_value (n : Z) : Z :=
  if 300 <? n then n / 100 * 100 else 250.

(** The dict of lines 179-184, from the table *)
Definition table_info (t : string) (w h n : Z) : format :=
  {| f_url := None; f_protocol := None; f_ext := None;
     f_width := Some w; f_height := Some h;
     f_format_id := Some ("https-" +:+ t);
     f_tbr := Some (NInt n);
     f_vcodec := None; f_acodec := None; f_fps := None |}.

(** The dict of lines 171-178, copied from a format *)
Definition copied_info (t : string) (f : format) : format :=
  {| f_url := None; f_protocol := None; f_ext := None;
     f_width := f_width f; f_height := f_height f;
     f_tbr := f_tbr f; f_vcodec := f_vcodec f;
     f_acodec := f_acodec f; f_fps := f_fps f;
     f_format_id := Some ("https-" +:+ t) |}.

(** The descriptor of lines 201-206 around such a dict *)
Definition descriptor (relinker_url q : string) (info : format) : format :=
  {| f_url := Some (_MP4_TMPL relinker_url q);
     f_protocol := Some "https"; f_ext := Some "mp4";
     f_width := f_width info; f_height := f_height info;
     f_tbr := f_tbr info; f_vcodec := f_vcodec info;
     f_acodec := f_acodec info; f_fps := f_fps info;
     f_format_id := f_format_id info |}.

(** The format carries a bitrate whose bucket is within one of [b]. *)
Definition in_bucket (b : Z) (f : format) : bool :=
  num_truthy (f_tbr f)
  && match floor_div_100 (f_tbr f) with
     | Ok k => (b - 1 <=? k) && (k <=? b + 1)
     | Raise _ => false
     end.

(** [','.join(pieces)] *)
Fixpoint comma_join (pieces : list string) : string :=
  match pieces with
  | [] => EmptyString
  | p :: rest =>
      match rest with
      | [] => p
      | _ => p +:+ "," +:+ comma_join rest
      end
  end.

(** Events that are neither a relinker download nor a HEAD request *)
Definition quiet (evs : list event) : Prop :=
  Forall (fun ev => is_download ev = false /\ is_head ev = false) evs.

End Requests.

Section SubtitleVocabulary.
Context `{Utils}.

(** No two keys of the dict are equal as Python keys. *)
Fixpoint distinct_keys (d : subtitles_dict) : Prop :=
  match d with
  | [] => True
  | (k, _) :: rest =>
      Forall (fun kv => key_eqb k (fst kv) = false) rest /\ distinct_keys rest
  end.

(** The number of variants in the dict, over all languages *)
Definition total_variants (d : subtitles_dict) : nat :=
  foldr (fun kv n => (length (snd kv) + n)%nat) 0%nat d.

(** The number of variants an entry of [subtitles_array] gives: none
    without a non-empty [str] under [url], else one, and one more when
    the extension is stl. *)
Definition produced (page_url : string) (subtitle : pyval) : nat :=
  match subtitle with
  | PDict items =>
      match items_get items "url" with
      | PStr s =>
          if PyStr.truthy s then
            if bool_decide (STL_EXT = determine_ext (urljoin page_url s) SRT_EXT)
            then 2%nat else 1%nat
          else 0%nat
      | _ => 0%nat
      end
  | _ => 0%nat
  end.

Definition is_dict (v : pyval) : bool :=
  match v with PDict _ => true | _ => false end.

(** A key [subtitles] can have: a truthy hashable value *)
Definition language_key (k : pyval) : Prop :=
  match k with
  | PStr s => s <> EmptyString
  | PInt z => z <> 0
  | PBool b => b = true
  | _ => False
  end.

(** The entries the loop of [_extract_subtitles] goes through: those of
    the caller's list when [subtitlesArray] is a non-empty list, then
    the two of line 217. *)
Definition subtitle_entries (video_data : gmap string pyval) (heap : store)
    : list pyval :=
  match get video_data "subtitlesArray" with
  | PListRef l => default [] (heap !! l)
  | _ => []
  end ++ legacy_entries video_data.

Definition expected_variants (page_url : string) (entries : list pyval) : nat :=
  foldr (fun e n => (produced page_url e + n)%nat) 0%nat entries.

(** What holds of the returned dict: distinct keys, each a truthy
    hashable value, each with at least one variant. *)
Definition well_formed (d : subtitles_dict) : Prop :=
  distinct_keys d
  /\ Forall (fun kv => language_key (fst kv) /\ snd kv <> []) d.

End SubtitleVocabulary.

(** ** Further concrete responses *)

Module Cases.
Import Sample.

(** Every profile answers with the placeholder. *)
Definition placeholders : server :=
  offline (fun _ =>
    Some (relinker_doc [content_url "http://x/video_no_available.mp4"])).
Definition placeholders_ie : InfoExtractor := sample_ie placeholders.

(** mon answers with a [url] element that has no text. *)
Definition empty_url : server :=
  offline (fun _ =>
    Some (relinker_doc [Node "url" [("type", "content")] None []])).
Definition empty_url_ie : InfoExtractor := sample_ie empty_url.

(** The download for flash fails. *)
Definition flash_down : server :=
  offline (fun platform =>
    if bool_decide (platform = "flash") then None else Some (relinker_doc [])).
Definition flash_down_ie : InfoExtractor := sample_ie flash_down.

Definition hds_rendition : format :=
  {| f_url := Some "http://x/z/manifest.f4m"; f_format_id := Some "hds-800";
     f_protocol := Some "f4m"; f_ext := Some "flv";
     f_vcodec := None; f_acodec := None; f_tbr := Some (NInt 800);
     f_width := None; f_height := None; f_fps := None |}.

(** flash answers with a live HDS manifest. *)
Definition hds_on_flash : server := {|
  relinker_of platform :=
    if bool_decide (platform = "flash")
    then Some (relinker_doc [content_url "http://x/z/manifest#live_hds.f4m"])
    else Some (relinker_doc []);
  hls_of _ := [];
  hds_of _ := [hds_rendition];
  head_of _ := None;
|}.
Definition hds_on_flash_ie : InfoExtractor := sample_ie hds_on_flash.

(** The state of [hls_then_mp3] when its loop ends *)
Definition after_flash : locals :=
  {| formats := [hls_rendition; mp3_format "http://x/a.mp3"];
     geoprotection := Some false; is_live := Some false; duration := None |}.

Definition after_silent_mon : locals :=
  {| formats := []; geoprotection := Some false; is_live := Some false;
     duration := None |}.

(** A caller's record whose [subtitlesArray] holds a bare string *)
Definition bare_string_store : store :=
  {[ 1%positive := [PStr "http://x/b.srt"] ]}.

Definition stl_record : gmap string pyval :=
  {[ "subtitles" := PStr "http://x/a.stl" ]}.

Definition stl_subtitles : subtitles_dict :=
  [(PStr "it",
    [ {| ext := "stl"; url := Some "http://x/a.stl" |};
      {| ext := "srt"; url := Some "http://x/a.srt" |} ])].

End Cases.

(** ** Running the monad *)

Ltac mrun :=
  unfold mbind, mret, M_bind, M_ret, result_bind, result_ret,
         emit, raise, lift in *.

Section RelinkerProofs.
Context `{InfoExtractor}.

Implicit Types (st : locals) (tr : list event) (r : Element).

(** *** The latches *)

Lemma latch_formats r st : formats (latch r st) = formats st.
Proof. reflexivity. Qed.

Lemma latch_all_geoprotection rs st :
  rs <> [] ->
  geoprotection (latch_all rs st)
  = Some (flag_truthy (geoprotection st) || any_Y "./geoprotection" rs).
Proof.
  revert st. induction rs as [|r rs IH]; intros st Hne; [done|].
  destruct rs as [|r' rs].
  - cbn. unfold says_Y. destruct (geoprotection st) as [[]|]; cbn;
      by rewrite ?orb_false_r.
  - change (latch_all (r :: r' :: rs) st) with (latch_all (r' :: rs) (latch r st)).
    rewrite IH by done.
    change (any_Y "./geoprotection" (r :: r' :: rs))
      with (says_Y "./geoprotection" r || any_Y "./geoprotection" (r' :: rs)).
    unfold says_Y at 1. cbn [latch geoprotection].
    destruct (geoprotection st) as [[]|]; cbn [flag_truthy negb]; try done.
    + by destruct (bool_decide _).
    + by destruct (bool_decide _).
Qed.

Lemma latch_all_is_live rs st :
  rs <> [] ->
  is_live (latch_all rs st)
  = Some (flag_truthy (is_live st) || any_Y "./is_live" rs).
Proof.
  revert st. induction rs as [|r rs IH]; intros st Hne; [done|].
  destruct rs as [|r' rs].
  - cbn. unfold says_Y. destruct (is_live st) as [[]|]; cbn;
      by rewrite ?orb_false_r.
  - change (latch_all (r :: r' :: rs) st) with (latch_all (r' :: rs) (latch r st)).
    rewrite IH by done.
    change (any_Y "./is_live" (r :: r' :: rs))
      with (says_Y "./is_live" r || any_Y "./is_live" (r' :: rs)).
    unfold says_Y at 1. cbn [latch is_live].
    destruct (is_live st) as [[]|]; cbn [flag_truthy negb]; try done.
    + by destruct (bool_decide _).
    + by destruct (bool_decide _).
Qed.

Lemma latch_all_duration_kept rs st :
  duration_truthy (duration st) = true ->
  duration (latch_all rs st) = duration st.
Proof.
  revert st. induction rs as [|r rs IH]; intros st Hd; [done|].
  change (latch_all (r :: rs) st) with (latch_all rs (latch r st)).
  assert (Hl : duration (latch r st) = duration st) by (cbn; by rewrite Hd).
  rewrite IH; [done|]. by rewrite Hl.
Qed.

Lemma latch_all_duration rs st :
  rs <> [] -> duration_truthy (duration st) = false ->
  duration (latch_all rs st) = first_truthy_or_last (map parsed_duration rs).
Proof.
  revert st. induction rs as [|r rs IH]; intros st Hne Hd; [done|].
  assert (Hl : duration (latch r st) = parsed_duration r)
    by (cbn; by rewrite Hd).
  change (latch_all (r :: rs) st) with (latch_all rs (latch r st)).
  cbn [map first_truthy_or_last].
  destruct (duration_truthy (parsed_duration r)) eqn:Hr.
  - rewrite latch_all_duration_kept; [done|]. by rewrite Hl.
  - destruct rs as [|r' rs]; [done|].
    rewrite IH; [done|done|]. by rewrite Hl.
Qed.

Lemma latch_same r s1 s2 :
  same_latches s1 s2 -> same_latches (latch r s1) (latch r s2).
Proof. intros (Hg & Hl & Hd). unfold same_latches, latch. cbn. by rewrite Hg, Hl, Hd. Qed.

Lemma latch_all_same rs s1 s2 :
  same_latches s1 s2 -> same_latches (latch_all rs s1) (latch_all rs s2).
Proof.
  revert s1 s2. induction rs as [|r rs IH]; intros s1 s2 Hs; [done|].
  apply IH. by apply latch_same.
Qed.

Lemma with_formats_same st fs : same_latches (with_formats st fs) st.
Proof. done. Qed.

(** *** One iteration *)

Lemma iteration_unfold url vid p st tr r :
  _download_xml url vid p = Some r ->
  iteration url vid p st tr =
    let tr1 := probed tr url vid p r in
    match find_xpath_attr r "./url" "type" "content" with
    | None => (tr1, Ok (Next (latch r st)))
    | Some e =>
        match text e with
        | None => (tr1, Raise TypeError)
        | Some u =>
            if PyStr.contains "/video_no_available.mp4" u
            then (tr1, Ok (Next (latch r st)))
            else classify vid p r u (latch r st) tr1
        end
    end.
Proof.
  intros Hr. unfold iteration, download_xml, probed, drm_events, report_drm.
  mrun. rewrite Hr.
  destruct (negb (bool_decide _)); cbn [app]; rewrite <- ?app_assoc; cbn [app];
    repeat case_match; try done; by rewrite ?app_nil_r.
Qed.

Lemma iteration_failed_download url vid p st tr :
  _download_xml url vid p = None ->
  iteration url vid p st tr = (tr ++ [DownloadXml url vid p], Raise ExtractorError).
Proof. intros Hr. unfold iteration, download_xml. mrun. by rewrite Hr. Qed.

Lemma classify_same vid p r u st tr tr' fl :
  classify vid p r u st tr = (tr', Ok fl) -> same_latches (locals_of fl) st.
Proof.
  unfold classify, extract_m3u8_formats, extract_f4m_formats. mrun.
  intros Hc. repeat case_match; simplify_eq; done.
Qed.

Lemma classify_raises vid p r u st tr tr' e :
  classify vid p r u st tr = (tr', Raise e) -> e = TypeError.
Proof.
  unfold classify, extract_m3u8_formats, extract_f4m_formats. mrun.
  intros Hc. repeat case_match; simplify_eq; done.
Qed.

Lemma iteration_inv url vid p st tr tr' fl :
  iteration url vid p st tr = (tr', Ok fl) ->
  exists r, _download_xml url vid p = Some r
            /\ same_latches (locals_of fl) (latch r st).
Proof.
  destruct (_download_xml url vid p) as [r|] eqn:Hr.
  - rewrite (iteration_unfold _ _ _ _ _ _ Hr). cbn zeta. intros Hi.
    exists r. split; [done|].
    repeat case_match; simplify_eq; try done.
    by eapply classify_same.
  - by rewrite iteration_failed_download.
Qed.

Lemma iteration_raises url vid p st tr tr' e :
  iteration url vid p st tr = (tr', Raise e) ->
  e = ExtractorError \/ e = TypeError.
Proof.
  destruct (_download_xml url vid p) as [r|] eqn:Hr.
  - rewrite (iteration_unfold _ _ _ _ _ _ Hr). cbn zeta. intros Hi.
    repeat case_match; simplify_eq; auto.
    right. by eapply classify_raises.
  - rewrite iteration_failed_download by done. intros; simplify_eq. by left.
Qed.

(** *** The requests of one iteration *)

Lemma classify_trace vid p r u st tr tr' res :
  classify vid p r u st tr = (tr', res) ->
  exists evs, tr' = tr ++ evs /\ quiet evs.
Proof.
  unfold classify, extract_m3u8_formats, extract_f4m_formats. mrun.
  intros Hc.
  repeat case_match; simplify_eq;
    try (exists []; split; [by rewrite app_nil_r|constructor]);
    eexists [_]; (split; [reflexivity|by repeat constructor]).
Qed.

Lemma drm_events_quiet vid r : quiet (drm_events vid r).
Proof. unfold drm_events. case_match; by repeat constructor. Qed.

Lemma iteration_trace url vid p st tr tr' res :
  iteration url vid p st tr = (tr', res) ->
  exists evs, tr' = tr ++ DownloadXml url vid p :: evs /\ quiet evs.
Proof.
  destruct (_download_xml url vid p) as [r|] eqn:Hr.
  - rewrite (iteration_unfold _ _ _ _ _ _ Hr). cbn zeta. unfold probed.
    pose proof (drm_events_quiet vid r) as Hdrm.
    intros Hi.
    assert (Hplain : forall x, (tr ++ [DownloadXml url vid p] ++ drm_events vid r, x)
                               = (tr', res) ->
              exists evs, tr' = tr ++ DownloadXml url vid p :: evs /\ quiet evs).
    { intros x [= <- _]. by exists (drm_events vid r). }
    repeat case_match; eauto.
    apply classify_trace in Hi as (evs & -> & Hq).
    exists (drm_events vid r ++ evs). split.
    + by rewrite <- !app_assoc.
    + by apply Forall_app.
  - rewrite iteration_failed_download by done. intros [= <- _].
    exists []. split; [done|constructor].
Qed.

Lemma quiet_no_download evs : quiet evs -> List.filter is_download evs = [].
Proof.
  induction 1 as [|ev evs [Hd _] _ IH]; [done|]. cbn. by rewrite Hd.
Qed.

Lemma quiet_no_head evs : quiet evs -> Forall (fun ev => is_head ev = false) evs.
Proof. intros Hq. eapply Forall_impl; [exact Hq|]. by intros ev [_ ?]. Qed.

(** *** The loop *)

Lemma loop_cons url vid p ps st tr :
  loop url vid (p :: ps) st tr =
    match iteration url vid p st tr with
    | (tr1, Ok (Break st1)) => (tr1, Ok st1)
    | (tr1, Ok (Next st1)) => loop url vid ps st1 tr1
    | (tr1, Raise e) => (tr1, Raise e)
    end.
Proof. cbn [loop]. mrun. by repeat case_match. Qed.

Lemma probe_all_cons url vid p ps st tr :
  probe_all url vid (p :: ps) st tr =
    match iteration url vid p st tr with
    | (tr1, Ok (Break st1)) => (tr1, Ok (Break st1))
    | (tr1, Ok (Next st1)) => probe_all url vid ps st1 tr1
    | (tr1, Raise e) => (tr1, Raise e)
    end.
Proof. cbn [probe_all]. mrun. by repeat case_match. Qed.

Lemma loop_probe_all url vid ps st tr :
  loop url vid ps st tr =
    match probe_all url vid ps st tr with
    | (tr', Ok fl) => (tr', Ok (locals_of fl))
    | (tr', Raise e) => (tr', Raise e)
    end.
Proof.
  revert st tr. induction ps as [|p ps IH]; intros st tr; [done|].
  rewrite loop_cons, probe_all_cons.
  destruct (iteration url vid p st tr) as [tr1 [[st1|st1]|e]]; [|done|done].
  apply IH.
Qed.

Lemma probe_all_app url vid pre post st tr tr1 st1 :
  probe_all url vid pre st tr = (tr1, Ok (Next st1)) ->
  probe_all url vid (pre ++ post) st tr = probe_all url vid post st1 tr1.
Proof.
  revert st tr. induction pre as [|p pre IH]; intros st tr.
  - cbn. mrun. by intros [= -> ->].
  - rewrite <- app_comm_cons, !probe_all_cons.
    destruct (iteration url vid p st tr) as [tr2 [[st2|st2]|e]]; [|done|done].
    apply IH.
Qed.

Lemma loop_raises url vid ps st tr tr' e :
  loop url vid ps st tr = (tr', Raise e) ->
  e = ExtractorError \/ e = TypeError.
Proof.
  revert st tr. induction ps as [|p ps IH]; intros st tr; [done|].
  rewrite loop_cons.
  destruct (iteration url vid p st tr) as [tr1 [[st1|st1]|e1]] eqn:Hi.
  - apply IH.
  - done.
  - intros [= -> ->]. by eapply iteration_raises.
Qed.

(** The state after the loop carries the latches of the responses of
    the profiles that were probed. *)
Lemma loop_latches url vid ps st tr tr' st' :
  loop url vid ps st tr = (tr', Ok st') ->
  exists rs, responses_of url vid ps rs
             /\ (ps <> [] -> rs <> [])
             /\ same_latches st' (latch_all rs st).
Proof.
  revert st tr. induction ps as [|p ps IH]; intros st tr.
  - cbn. mrun. intros [= -> ->]. exists []. repeat split; try done.
    constructor.
  - rewrite loop_cons.
    destruct (iteration url vid p st tr) as [tr1 [[st1|st1]|e1]] eqn:Hi; [| |done].
    + intros Hl. apply iteration_inv in Hi as (r & Hr & Hs).
      apply IH in Hl as (rs & Hrs & _ & Hs').
      exists (r :: rs). split; [|split; [done|]].
      * unfold responses_of in *. cbn. by constructor.
      * destruct Hs' as (Hg & Hl & Hd).
        destruct (latch_all_same rs _ _ Hs) as (Hg' & Hl' & Hd').
        unfold same_latches. cbn [latch_all fold_left].
        unfold latch_all in *. by rewrite Hg, Hl, Hd.
    + intros [= -> ->]. apply iteration_inv in Hi as (r & Hr & Hs).
      exists [r]. split; [|split; [done|done]].
      unfold responses_of. cbn. by repeat constructor.
Qed.

(** The responses behind the latches are those of the profiles whose
    download is in the log: the loop logs one download for each of the
    first [length rs] profiles, and no other. *)
Lemma loop_probed url vid ps st tr tr' st' :
  loop url vid ps st tr = (tr', Ok st') ->
  exists rs evs,
    responses_of url vid ps rs
    /\ (ps <> [] -> rs <> [])
    /\ same_latches st' (latch_all rs st)
    /\ tr' = tr ++ evs
    /\ List.filter is_download evs
       = map (DownloadXml url vid) (take (length rs) ps).
Proof.
  revert st tr. induction ps as [|p ps IH]; intros st tr.
  - cbn. mrun. intros [= -> ->]. exists [], [].
    rewrite app_nil_r. repeat split; try done. constructor.
  - rewrite loop_cons.
    destruct (iteration url vid p st tr) as [tr1 [[st1|st1]|e1]] eqn:Hi; [| |done].
    + intros Hl. pose proof Hi as Ht.
      apply iteration_inv in Hi as (r & Hr & Hs).
      apply iteration_trace in Ht as (evs & -> & Hq).
      apply IH in Hl as (rs & evs' & Hrs & _ & Hs' & -> & Hf).
      exists (r :: rs), (DownloadXml url vid p :: evs ++ evs').
      split; [|split; [done|split; [|split]]].
      * unfold responses_of in *. cbn. by constructor.
      * destruct Hs' as (Hg & Hl & Hd).
        destruct (latch_all_same rs _ _ Hs) as (Hg' & Hl' & Hd').
        unfold same_latches. cbn [latch_all fold_left].
        unfold latch_all in *. by rewrite Hg, Hl, Hd.
      * by rewrite <- app_assoc.
      * cbn. rewrite List.filter_app, quiet_no_download by done. cbn.
        by rewrite Hf.
    + intros [= -> ->]. pose proof Hi as Ht.
      apply iteration_inv in Hi as (r & Hr & Hs).
      apply iteration_trace in Ht as (evs & -> & Hq).
      exists [r], (DownloadXml url vid p :: evs).
      split; [|split; [done|split; [done|split; [done|]]]].
      * unfold responses_of. cbn. by repeat constructor.
      * cbn. rewrite quiet_no_download by done. by rewrite take_0.
Qed.

(** So the log determines the responses: two lists of responses that
    account for the same downloads are the same list. *)
Lemma responses_determined_by_log url vid ps evs rs rs' :
  responses_of url vid ps rs ->
  responses_of url vid ps rs' ->
  List.filter is_download evs
    = map (DownloadXml url vid) (take (length rs) ps) ->
  List.filter is_download evs
    = map (DownloadXml url vid) (take (length rs') ps) ->
  rs = rs'.
Proof.
  unfold responses_of. intros Hrs Hrs' Hf Hf'.
  assert (Hlen : length rs = length rs').
  { apply Forall2_length in Hrs, Hrs'. rewrite <- Hrs, <- Hrs'.
    rewrite <- (length_map (DownloadXml url vid) (take (length rs) ps)).
    rewrite <- (length_map (DownloadXml url vid) (take (length rs') ps)).
    by rewrite <- Hf, <- Hf'. }
  rewrite <- Hlen in Hrs'. clear Hf Hf' Hlen.
  revert rs' Hrs'. induction Hrs as [|p r ps' rs0 Hr _ IH]; intros rs' Hrs'.
  - by inversion Hrs'.
  - inversion Hrs' as [|p' r' ps'' rs0' Hr' Hrest]; subst.
    f_equal; [congruence|]. by apply IH.
Qed.

(** *** The returned dict *)

Lemma outcome_is_live st fs :
  dict_get "is_live" (outcome st fs) = IVBool <$> is_live st.
Proof. unfold outcome. by destruct (is_live st) as [[]|], (duration st). Qed.

Lemma outcome_duration st fs :
  dict_get "duration" (outcome st fs) = IVFloat <$> duration st.
Proof. unfold outcome. by destruct (is_live st) as [[]|], (duration st). Qed.

Lemma outcome_formats st fs :
  dict_get "formats" (outcome st fs) = Some (IVFormats fs).
Proof. unfold outcome. by destruct (is_live st) as [[]|], (duration st). Qed.

Lemma relinker_info_unfold url vid ao tr :
  PyStr.match_http url = true ->
  _extract_relinker_info url vid ao tr =
    match loop url vid platforms initial tr with
    | (tr1, Raise e) => (tr1, Raise e)
    | (tr1, Ok st) =>
        if bool_decide (formats st = []) && bool_decide (geoprotection st = Some true)
        then (tr1, Raise (GeoRestrictedError _GEO_COUNTRIES true))
        else if ao then (tr1, Ok (outcome st (formats st)))
        else match _create_http_urls url (formats st) tr1 with
             | (tr2, Ok extra) => (tr2, Ok (outcome st (formats st ++ extra)))
             | (tr2, Raise e) => (tr2, Raise e)
             end
    end.
Proof.
  intros Hm. unfold _extract_relinker_info, raise_geo_restricted, outcome.
  rewrite Hm. cbn [negb]. mrun.
  destruct (loop url vid platforms initial tr) as [tr1 [st|e]]; [|done].
  destruct (bool_decide (formats st = []) && _); [done|].
  destruct ao; cbn [negb]; [done|].
  by destruct (_create_http_urls url (formats st) tr1) as [tr2 [extra|e]].
Qed.

(** *** What [_create_http_urls] can raise *)

Lemma floor_div_100_raises v e :
  floor_div_100 v = Raise e -> ~ is_geo_restricted e.
Proof. unfold floor_div_100. intros Hf. repeat case_match; simplify_eq; cbn; tauto. Qed.

Lemma tier_raises br e : tier br = Raise e -> ~ is_geo_restricted e.
Proof.
  unfold tier. mrun. intros Ht.
  repeat case_match; simplify_eq. by eapply floor_div_100_raises.
Qed.

Lemma find_copy_raises br fmts c e :
  find_copy br fmts c = Raise e -> ~ is_geo_restricted e.
Proof.
  revert c. induction fmts as [|f fmts IH]; intros c; [done|].
  cbn [find_copy]. mrun. intros Hf.
  repeat case_match; simplify_eq; eauto using floor_div_100_raises.
Qed.

Lemma get_format_info_raises fmts q e :
  get_format_info fmts q = Raise e -> ~ is_geo_restricted e.
Proof.
  unfold get_format_info. mrun. intros Hg.
  repeat case_match; simplify_eq; cbn; eauto using tier_raises, find_copy_raises.
Qed.

Lemma https_formats_raises url fmts qs e :
  https_formats url fmts qs = Raise e -> ~ is_geo_restricted e.
Proof.
  induction qs as [|q qs IH]; [done|].
  cbn [https_formats]. unfold https_format. mrun. intros Hh.
  repeat case_match; simplify_eq; eauto using get_format_info_raises.
Qed.

Lemma create_http_urls_raises url fmts tr tr' e :
  _create_http_urls url fmts tr = (tr', Raise e) -> ~ is_geo_restricted e.
Proof.
  unfold _create_http_urls, test_url. mrun. intros Hc.
  repeat case_match; simplify_eq; eauto using https_formats_raises.
Qed.

Lemma create_http_urls_trace url fmts tr tr' res :
  _create_http_urls url fmts tr = (tr', res) ->
  tr' = tr ++ [HeadRequest (_MP4_TMPL url "*")]
  \/ tr' = both_probes tr url.
Proof.
  unfold _create_http_urls, test_url, both_probes. mrun. intros Hc.
  repeat case_match; simplify_eq; rewrite <- ?app_assoc; auto.
Qed.

(** *** What [_extract_relinker_info] returns and raises *)

(** C1 (as amended).  When the loop over the profiles completes, with
    [rs] the responses of the profiles that were probed, in the order
    mon, flash, native: the geo-restriction flag and the liveness flag
    are true exactly when some probed profile declares [Y] (a [Y] of a
    later profile replaces the [N] of an earlier one), and the duration
    is the first parsed duration that is not zero, or else the one of the
    last probed profile.  The returned dict carries that liveness flag
    and that duration.

    The probed profiles are read off the log: the downloads the loop
    has logged are those of the first [length rs] profiles, and [rs]
    are the answers to them, so [rs] is the one list of
    [responses_determined_by_log]. *)
Theorem first_truthy_wins url vid tr tr1 st :
  loop url vid platforms initial tr = (tr1, Ok st) ->
  exists rs evs,
    rs <> [] /\ responses_of url vid platforms rs
    /\ tr1 = tr ++ evs
    /\ List.filter is_download evs
       = map (DownloadXml url vid) (take (length rs) platforms)
    /\ geoprotection st = Some (any_Y "./geoprotection" rs)
    /\ is_live st = Some (any_Y "./is_live" rs)
    /\ duration st = first_truthy_or_last (map parsed_duration rs)
    /\ forall ao tr' d,
         PyStr.match_http url = true ->
         _extract_relinker_info url vid ao tr = (tr', Ok d) ->
         dict_get "is_live" d = Some (IVBool (any_Y "./is_live" rs))
         /\ dict_get "duration" d
            = IVFloat <$> first_truthy_or_last (map parsed_duration rs).
Proof.
  intros Hloop.
  destruct (loop_probed _ _ _ _ _ _ _ Hloop)
    as (rs & evs & Hrs & Hne & (Hg & Hl & Hd) & Htr & Hlog).
  assert (Hrs0 : rs <> []) by (by apply Hne).
  rewrite latch_all_geoprotection in Hg by done.
  rewrite latch_all_is_live in Hl by done.
  rewrite latch_all_duration in Hd by done.
  cbn in Hg, Hl.
  exists rs, evs. repeat (split; [done|]).
  intros ao tr' d Hm. rewrite relinker_info_unfold, Hloop by done.
  intros Hrun.
  destruct (bool_decide (formats st = []) && _); [done|].
  destruct ao.
  - injection Hrun as <- <-.
    by rewrite outcome_is_live, outcome_duration, Hl, Hd.
  - destruct (_create_http_urls url (formats st) tr1) as [tr2 [extra|e]]; [|done].
    injection Hrun as <- <-.
    by rewrite outcome_is_live, outcome_duration, Hl, Hd.
Qed.

(** C3.  For a network URL, [_extract_relinker_info] raises
    [GeoRestrictedError] exactly when the loop over the profiles
    completes with no format and the geo-restriction flag latched true;
    the error then carries the countries [['IT']] and
    [metadata_available=True].  So with a format produced, or without
    the flag, no such error is raised. *)
Theorem geo_restricted_iff url vid ao tr c m :
  PyStr.match_http url = true ->
  snd (_extract_relinker_info url vid ao tr) = Raise (GeoRestrictedError c m)
  <-> (c = ["IT"] /\ m = true
       /\ exists tr1 st,
            loop url vid platforms initial tr = (tr1, Ok st)
            /\ formats st = [] /\ geoprotection st = Some true).
Proof.
  intros Hm. rewrite relinker_info_unfold by done.
  destruct (loop url vid platforms initial tr) as [tr1 [st|e]] eqn:Hloop.
  - destruct (bool_decide (formats st = [])) eqn:Hf;
      destruct (bool_decide (geoprotection st = Some true)) eqn:Hg;
      cbn [andb].
    1: { apply bool_decide_eq_true in Hf, Hg. cbn. split.
         - intros [= <- <-]. eauto 10.
         - by intros (-> & -> & _). }
    all: split;
      [ intros Hr;
        destruct ao; cbn in Hr; [done|];
        destruct (_create_http_urls url (formats st) tr1) as [tr2 [extra|e]] eqn:Hc;
        cbn in Hr; [done|];
        injection Hr as ->;
        by apply create_http_urls_raises in Hc
      | intros (_ & _ & tr2 & st2 & [= <- <-] & Hf' & Hg');
        apply bool_decide_eq_false in Hf || apply bool_decide_eq_false in Hg;
        done ].
  - cbn. split.
    + intros [= ->]. by apply loop_raises in Hloop as [|].
    + by intros (_ & _ & tr2 & st2 & ? & _).
Qed.

(** C4 (as amended).  For a string that does not start with [http://]
    or [https://], [_extract_relinker_info] does not fail: it returns
    the dict whose only entry is [formats], holding the single format
    whose URL is that string, and it issues no request. *)
Theorem not_a_network_url url vid ao tr :
  PyStr.match_http url = false ->
  _extract_relinker_info url vid ao tr
  = (tr, Ok [("formats",
              IVFormats [ {| f_url := Some url; f_format_id := None;
                             f_protocol := None; f_ext := None;
                             f_vcodec := None; f_acodec := None;
                             f_tbr := None; f_width := None;
                             f_height := None; f_fps := None |} ])]).
Proof. intros Hm. unfold _extract_relinker_info. by rewrite Hm. Qed.

(** C5 (as amended).  In the dict [_extract_relinker_info] returns for a
    network URL, [is_live] is always present, as a boolean: true exactly
    when some probed profile declares [Y], hence [False] when none
    declares a liveness value; [duration] is omitted when the duration
    of no probed profile parses.

    The probed profiles are read off the log of the call: its downloads
    are those of the first [length rs] profiles, and [rs] are the
    answers to them. *)
Theorem unknown_fields url vid ao tr tr' d :
  PyStr.match_http url = true ->
  _extract_relinker_info url vid ao tr = (tr', Ok d) ->
  exists rs evs,
    rs <> [] /\ responses_of url vid platforms rs
    /\ tr' = tr ++ evs
    /\ List.filter is_download evs
       = map (DownloadXml url vid) (take (length rs) platforms)
    /\ dict_get "is_live" d = Some (IVBool (any_Y "./is_live" rs))
    /\ (Forall (fun r => says_Y "./is_live" r = false) rs ->
        dict_get "is_live" d = Some (IVBool false))
    /\ (Forall (fun r => parsed_duration r = None) rs ->
        dict_get "duration" d = None).
Proof.
  intros Hm Hrun. pose proof Hrun as Hrun'.
  rewrite relinker_info_unfold in Hrun' by done.
  destruct (loop url vid platforms initial tr) as [tr1 [st|e]] eqn:Hloop; [|done].
  clear Hrun'.
  destruct (loop_probed _ _ _ _ _ _ _ Hloop)
    as (rs & evs & Hrs & Hne & (Hg & Hl & Hd) & -> & Hlog).
  assert (Hrs0 : rs <> []) by (by apply Hne).
  rewrite latch_all_is_live in Hl by done.
  rewrite latch_all_duration in Hd by done.
  cbn in Hl.
  assert (Hout : dict_get "is_live" d = Some (IVBool (any_Y "./is_live" rs))
                 /\ dict_get "duration" d
                    = IVFloat <$> first_truthy_or_last (map parsed_duration rs)
                 /\ exists heads, tr' = (tr ++ evs) ++ heads
                                  /\ List.filter is_download heads = []).
  { rewrite relinker_info_unfold, Hloop in Hrun by done.
    destruct (bool_decide (formats st = []) && _); [done|].
    destruct ao.
    - injection Hrun as <- <-.
      rewrite outcome_is_live, outcome_duration, Hl, Hd.
      repeat split; try done. exists []. by rewrite app_nil_r.
    - destruct (_create_http_urls url (formats st) (tr ++ evs))
        as [tr2 [extra|e]] eqn:Hc; [|done].
      injection Hrun as <- <-.
      rewrite outcome_is_live, outcome_duration, Hl, Hd.
      repeat split; try done.
      apply create_http_urls_trace in Hc as [->| ->]; unfold both_probes;
        by eexists. }
  destruct Hout as (Hlive & Hdur & heads & -> & Hheads).
  exists rs, (evs ++ heads). split; [done|]. split; [done|].
  split; [by rewrite app_assoc|].
  split; [by rewrite List.filter_app, Hheads, app_nil_r|].
  split; [done|]. split.
  - intros Hall. rewrite Hlive. do 2 f_equal.
    unfold any_Y. clear -Hall. induction Hall as [|r rs' Hr _ IH]; [done|].
    cbn. by rewrite Hr, IH.
  - intros Hall. rewrite Hdur.
    replace (first_truthy_or_last (map parsed_duration rs)) with (@None float);
      [done|].
    clear -Hall Hrs0. induction Hall as [|r rs' Hr Hall IH]; [done|].
    cbn. rewrite Hr. cbn. destruct rs' as [|r' rs'']; [done|].
    by apply IH.
Qed.

(** *** The branches of one iteration *)

Lemma classify_mp3 vid p r u st tr :
  determine_ext (Some u) "unknown_video" = "mp3" ->
  classify vid p r u st tr
  = (tr, Ok (Break (with_formats st (formats st ++ [mp3_format u])))).
Proof. intros He. unfold classify. by rewrite He. Qed.

Lemma classify_m3u8_mon vid r u st tr :
  determine_ext (Some u) "unknown_video" = "m3u8" ->
  classify vid "mon" r u st tr
  = (tr ++ [ExtractM3u8 u],
     Ok (Next (with_formats st (formats st ++ _extract_m3u8_formats u vid)))).
Proof. intros He. unfold classify. by rewrite He. Qed.

Lemma classify_m3u8_skipped vid p r u st tr :
  determine_ext (Some u) "unknown_video" = "m3u8" -> p <> "mon" ->
  classify vid p r u st tr = (tr, Ok (Next st)).
Proof.
  intros He Hp. unfold classify. rewrite He.
  by rewrite (bool_decide_eq_false_2 (p = "mon")).
Qed.

Lemma classify_marker vid p r u st tr :
  PyStr.contains "format=m3u8" u = true ->
  determine_ext (Some u) "unknown_video" <> "m3u8" ->
  determine_ext (Some u) "unknown_video" <> "mp3" ->
  (determine_ext (Some u) "unknown_video" = "f4m" -> p = "flash") ->
  classify vid p r u st tr
  = (tr ++ [ExtractM3u8 u],
     Ok (Next (with_formats st (formats st ++ _extract_m3u8_formats u vid)))).
Proof.
  intros Hc Hm Hmp3 Hf. unfold classify.
  rewrite (bool_decide_eq_false_2 _ Hm), (bool_decide_eq_false_2 _ Hmp3), Hc.
  cbn [andb orb].
  destruct (bool_decide (determine_ext (Some u) "unknown_video" = "f4m")) eqn:Hf4m;
    [|done].
  apply bool_decide_eq_true in Hf4m. by rewrite (Hf Hf4m).
Qed.

(** The direct-file branch (lines 101-107), reached on the native
    profile: the format carries the declared bitrate when it is
    positive, none when it is zero or negative, and the comparison
    [bitrate > 0] raises when [int_or_none] gave [None]. *)
Lemma classify_direct_file vid p r u st tr :
  let ext := determine_ext (Some u) "unknown_video" in
  ext <> "m3u8" -> ext <> "f4m" -> ext <> "mp3" ->
  PyStr.contains "format=m3u8" u = false ->
  p <> "mon" -> p <> "flash" ->
  classify vid p r u st tr
  = match int_or_none (xpath_text r "bitrate" NO_DEFAULT) with
    | Some bitrate =>
        (tr, Ok (Next (with_formats st (formats st ++ [http_format u bitrate]))))
    | None => (tr, Raise TypeError)
    end.
Proof.
  intros ext Hm Hf Hmp3 Hc Hmon Hflash. unfold classify. fold ext.
  rewrite (bool_decide_eq_false_2 _ Hm), (bool_decide_eq_false_2 _ Hf),
    (bool_decide_eq_false_2 _ Hmp3), (bool_decide_eq_false_2 _ Hmon),
    (bool_decide_eq_false_2 _ Hflash), Hc.
  cbn [andb orb]. by destruct (int_or_none _).
Qed.

Lemma http_format_tbr u bitrate :
  f_tbr (http_format u bitrate)
  = if 0 <? bitrate then Some (NInt bitrate) else None.
Proof. reflexivity. Qed.

(** C8 (as amended).  For a probe response whose media URL is not the
    placeholder: a URL with extension m3u8 is expanded into the
    renditions of the HLS manifest when the profile is mon, and is
    skipped, without any expansion, when the profile is flash or native;
    a URL that carries the marker [format=m3u8] and whose extension is
    neither m3u8 nor mp3 (nor f4m on another profile than flash) is
    expanded on any profile.  The expansion is not fatal: it yields the
    renditions it found, possibly none, and the loop goes on. *)
Theorem hls_expansion url vid p st tr r e u :
  _download_xml url vid p = Some r ->
  find_xpath_attr r "./url" "type" "content" = Some e ->
  text e = Some u ->
  PyStr.contains "/video_no_available.mp4" u = false ->
  let ext := determine_ext (Some u) "unknown_video" in
  let tr1 := probed tr url vid p r in
  let expanded :=
    (tr1 ++ [ExtractM3u8 u],
     Ok (Next (with_formats (latch r st)
                 (formats st ++ _extract_m3u8_formats u vid)))) in
  (ext = "m3u8" -> p = "mon" -> iteration url vid p st tr = expanded)
  /\ (ext = "m3u8" -> p <> "mon" ->
      iteration url vid p st tr = (tr1, Ok (Next (latch r st))))
  /\ (PyStr.contains "format=m3u8" u = true ->
      ext <> "m3u8" -> ext <> "mp3" -> (ext = "f4m" -> p = "flash") ->
      iteration url vid p st tr = expanded).
Proof.
  intros Hr He Ht Hp ext tr1 expanded.
  rewrite (iteration_unfold _ _ _ _ _ _ Hr), He, Ht, Hp. cbn zeta.
  fold tr1. split; [|split].
  - intros Hext ->. by rewrite classify_m3u8_mon.
  - intros Hext Hmon. by rewrite classify_m3u8_skipped.
  - intros Hc Hn1 Hn2 Hn3. by rewrite classify_marker.
Qed.

(** C6 (as amended).  When a profile is reached whose response declares
    a media URL, not the placeholder, with extension mp3, the loop
    appends one audio-only format (vcodec none) to the formats of the
    earlier profiles and stops: nothing is requested for the later
    profiles.  The returned formats are those of the earlier profiles,
    then that format, then the synthesized HTTPS variants if any; with
    [audio_only] there are none of the latter, so the dict holds exactly
    that one format when the earlier profiles produced none. *)
Theorem mp3_stops_probing url vid pre p post tr tr1 st1 r e u :
  probe_all url vid pre initial tr = (tr1, Ok (Next st1)) ->
  _download_xml url vid p = Some r ->
  find_xpath_attr r "./url" "type" "content" = Some e ->
  text e = Some u ->
  PyStr.contains "/video_no_available.mp4" u = false ->
  determine_ext (Some u) "unknown_video" = "mp3" ->
  let tr' := probed tr1 url vid p r in
  let fs := formats st1 ++ [mp3_format u] in
  (exists st', loop url vid (pre ++ p :: post) initial tr = (tr', Ok st')
               /\ formats st' = fs)
  /\ is_audio_only (mp3_format u) = true
  /\ (platforms = pre ++ p :: post -> PyStr.match_http url = true ->
      (exists d, _extract_relinker_info url vid true tr = (tr', Ok d)
                 /\ dict_get "formats" d = Some (IVFormats fs))
      /\ (forall tr2 d, _extract_relinker_info url vid false tr = (tr2, Ok d) ->
          exists extra, dict_get "formats" d = Some (IVFormats (fs ++ extra)))).
Proof.
  intros Hpre Hr He Ht Hp Hext tr' fs.
  set (st' := with_formats (latch r st1) fs).
  assert (Hloop : loop url vid (pre ++ p :: post) initial tr = (tr', Ok st')).
  { rewrite loop_probe_all, (probe_all_app _ _ _ _ _ _ _ _ Hpre), probe_all_cons.
    rewrite (iteration_unfold _ _ _ _ _ _ Hr), He, Ht, Hp. cbn zeta.
    by rewrite classify_mp3. }
  split; [by exists st'|]. split; [done|].
  intros Hps Hm. rewrite !relinker_info_unfold by done.
  rewrite Hps, Hloop.
  assert (Hne : bool_decide (formats st' = []) = false).
  { apply bool_decide_eq_false. cbn. subst fs. by destruct (formats st1). }
  rewrite Hne. cbn [andb]. split.
  - eexists. split; [done|]. by rewrite outcome_formats.
  - intros tr2 d Hrun.
    destruct (_create_http_urls url (formats st') tr') as [tr3 [extra|x]]; [|done].
    injection Hrun as <- <-. exists extra. by rewrite outcome_formats.
Qed.

(** *** [_create_http_urls] *)

Lemma test_url_redirect u tr s :
  redirect_of u = Some s ->
  test_url u tr = (tr ++ [HeadRequest u], Ok (ProbeUrl s)).
Proof.
  unfold redirect_of, test_url. mrun. intros Hr.
  destruct (_request_webpage u) as [resp|]; [|done].
  destruct (code resp =? 200); [|done].
  destruct (bool_decide (resp_url resp = u)); [done|].
  cbn in Hr. by injection Hr as <-.
Qed.

Lemma test_url_no_redirect u tr :
  redirect_of u = None ->
  exists pr, test_url u tr = (tr ++ [HeadRequest u], Ok pr)
             /\ forall s, pr <> ProbeUrl s.
Proof.
  unfold redirect_of, test_url. mrun. intros Hr.
  destruct (_request_webpage u) as [resp|]; [|by eexists].
  destruct (code resp =? 200); [|by eexists].
  destruct (bool_decide (resp_url resp = u)); [by eexists|done].
Qed.

Lemma table_key_int t : table_key t -> exists n, PyStr.int t = Some n.
Proof.
  unfold table_key, _QUALITY. cbn [quality_get].
  repeat (case_bool_decide;
          [subst t; intros _; eexists; vm_compute; reflexivity|]).
  by intros [? ?].
Qed.

Lemma find_copy_finite br fmts c b :
  floor_div_100 br = Ok b -> Forall finite_tbr fmts ->
  exists c', find_copy br fmts c = Ok c'
             /\ (is_Some c \/ Exists (within_bucket br) fmts -> is_Some c').
Proof.
  intros Hb Hall. revert c.
  induction Hall as [|f fmts Hf _ IH]; intros c.
  - exists c. split; [done|]. intros [?|Hex]; [done|]. by apply Exists_nil in Hex.
  - cbn [find_copy]. mrun. rewrite Hb.
    destruct (num_truthy (f_tbr f)) eqn:Ht.
    + destruct (Hf Ht) as [k Hk]. rewrite Hk.
      destruct (IH (if (b - 1 <=? k) && (k <=? b + 1) then Some f else c))
        as (c' & -> & Hc').
      exists c'. split; [done|]. intros [Hc|Hex]; apply Hc'.
      * left. by destruct ((b - 1 <=? k) && (k <=? b + 1)).
      * apply Exists_cons in Hex as [(_ & b' & k' & Hb' & Hk' & Hle)|Hex];
          [|by right].
        left. rewrite Hb in Hb'. rewrite Hk in Hk'. simplify_eq.
        replace ((b' - 1 <=? k') && (k' <=? b' + 1)) with true; [done|].
        symmetry. apply andb_true_iff. split; apply Z.leb_le; lia.
    + destruct (IH c) as (c' & -> & Hc').
      exists c'. split; [done|]. intros [Hc|Hex]; apply Hc'; [by left|].
      apply Exists_cons in Hex as [(Ht' & _)|Hex]; [congruence|by right].
Qed.

Lemma find_copy_falsy br fmts c :
  Forall (fun f => num_truthy (f_tbr f) = false) fmts ->
  find_copy br fmts c = Ok c.
Proof.
  intros Hall. induction Hall as [|f fmts Hf _ IH]; [done|].
  cbn [find_copy]. by rewrite Hf.
Qed.

(** Lines 171-184, once the tier and the copied format are known. *)
Lemma format_info_of_tier t c :
  table_key t \/ is_Some c ->
  exists info,
    match c with
    | Some f =>
        Ok {| f_url := None; f_protocol := None; f_ext := None;
              f_width := f_width f; f_height := f_height f;
              f_tbr := f_tbr f; f_vcodec := f_vcodec f;
              f_acodec := f_acodec f; f_fps := f_fps f;
              f_format_id := Some ("https-" +:+ t) |}
    | None =>
        match quality_get _QUALITY t with
        | None => Raise (KeyError t)
        | Some (w, h) =>
            match PyStr.int t with
            | None => Raise ValueError
            | Some n =>
                Ok {| f_url := None; f_protocol := None; f_ext := None;
                      f_width := Some w; f_height := Some h;
                      f_format_id := Some ("https-" +:+ t);
                      f_tbr := Some (NInt n);
                      f_vcodec := None; f_acodec := None; f_fps := None |}
            end
        end
    end = Ok info
    /\ f_format_id info = Some ("https-" +:+ t).
Proof.
  intros Hk. destruct c as [f|]; [by eexists|].
  destruct Hk as [Hk|[? ?]]; [|done].
  destruct (table_key_int t Hk) as [n ->].
  destruct Hk as [[w h] ->]. by eexists.
Qed.

Lemma target_bitrate_int fmts q n :
  int_or_none (Some q) = Some n -> n <> 0 ->
  target_bitrate fmts q = Some (NInt n).
Proof.
  intros Hn Hn0. unfold target_bitrate. rewrite Hn.
  cbn [fmap option_fmap option_map num_truthy].
  replace (n =? 0) with false by (symmetry; by apply Z.eqb_neq).
  cbn [negb]. by rewrite andb_false_r.
Qed.

Lemma floor_div_100_int n :
  Z.abs n < 2 ^ 46 -> floor_div_100 (Some (NInt n)) = Ok (n / 100).
Proof.
  intros Hn. cbn. replace (Z.abs n <? 2 ^ 46) with true; [done|].
  symmetry. by apply Z.ltb_lt.
Qed.

Lemma tier_int n :
  0 < n < 2 ^ 46 -> tier (Some (NInt n)) = Ok (tier_of n).
Proof.
  intros Hn. unfold tier, tier_of. cbn [num_truthy num_gt_300].
  replace (n =? 0) with false by (symmetry; apply Z.eqb_neq; lia).
  cbn [negb andb]. destruct (300 <? n); [|done].
  rewrite floor_div_100_int by lia. done.
Qed.

Lemma tier_finite br b :
  floor_div_100 br = Ok b -> exists t, tier br = Ok t.
Proof.
  intros Hb. unfold tier. destruct br as [n|]; [|by eexists].
  destruct (num_truthy (Some n) && num_gt_300 n); [|by eexists].
  rewrite Hb. by eexists.
Qed.

Lemma get_format_info_resolvable fmts q :
  resolvable_token fmts q ->
  exists info, get_format_info fmts q = Ok info /\ has_tier_id fmts q info.
Proof.
  unfold get_format_info, has_tier_id.
  intros [(n & Hn & Hrange & Hfin & Hkey) | [(Hn & Hall) | (Hn & f & -> & Ht & Hf)]].
  - rewrite (target_bitrate_int _ _ _ Hn) by lia.
    rewrite tier_int by done. mrun.
    assert (Hfloor : floor_div_100 (Some (NInt n)) = Ok (n / 100))
      by (apply floor_div_100_int; lia).
    destruct (find_copy_finite _ _ None _ Hfloor Hfin) as (c & -> & Hc).
    destruct (format_info_of_tier (tier_of n) c) as (info & -> & Hid).
    { destruct Hkey as [Hkey|Hex]; [by left|right; apply Hc; by right]. }
    exists info. split; [done|]. by exists (tier_of n).
  - assert (Hbr : num_truthy (target_bitrate fmts q) = false).
    { unfold target_bitrate. rewrite Hn. cbn [fmap option_fmap option_map].
      destruct (bool_decide (length fmts = 1%nat) && _); [|done].
      by destruct Hall. }
    assert (Htier : tier (target_bitrate fmts q) = Ok "250").
    { unfold tier. destruct (target_bitrate fmts q); [|done]. by rewrite Hbr. }
    rewrite Htier. mrun. rewrite find_copy_falsy by done.
    destruct (format_info_of_tier "250" None) as (info & -> & Hid).
    { left. by eexists. }
    exists info. split; [done|]. by exists "250".
  - assert (Hbr : target_bitrate [f] q = f_tbr f).
    { unfold target_bitrate. by rewrite Hn. }
    rewrite Hbr. destruct (Hf Ht) as [k Hk].
    destruct (tier_finite _ _ Hk) as [t Htier]. rewrite Htier. mrun.
    destruct (find_copy_finite (f_tbr f) [f] None k Hk) as (c & -> & Hc).
    { by repeat constructor. }
    destruct (format_info_of_tier t c) as (info & -> & Hid).
    { right. apply Hc. right. constructor. split; [done|].
      exists k, k. repeat split; try done; lia. }
    exists info. split; [done|]. by exists t.
Qed.

Lemma https_formats_resolvable url fmts qs :
  Forall (resolvable_token fmts) qs ->
  exists fs,
    https_formats url fmts qs = Ok fs
    /\ Forall2 (has_tier_id fmts) qs fs
    /\ map f_url fs = map (fun q => Some (_MP4_TMPL url q)) qs
    /\ Forall (fun f => f_protocol f = Some "https" /\ f_ext f = Some "mp4") fs.
Proof.
  induction 1 as [|q qs Hq _ (fs & Hfs & Hids & Hurls & Hall)].
  - exists []. repeat split; constructor.
  - destruct (get_format_info_resolvable _ _ Hq) as (info & Hinfo & Hid).
    cbn [https_formats]. unfold https_format. mrun. rewrite Hinfo, Hfs.
    eexists. split; [done|]. cbn. rewrite Hurls.
    repeat split; try done; by constructor.
Qed.

Lemma find_copy_unmatched br fmts c b :
  floor_div_100 br = Ok b -> Forall finite_tbr fmts ->
  Forall (fun f => ~ within_bucket br f) fmts ->
  find_copy br fmts c = Ok c.
Proof.
  intros Hb Hfin Hout. revert c.
  induction Hfin as [|f fmts Hf _ IH]; intros c; [done|].
  apply Forall_cons in Hout as [Hno Hout].
  cbn [find_copy]. mrun. destruct (num_truthy (f_tbr f)) eqn:Ht; [|by apply IH].
  rewrite Hb. destruct (Hf Ht) as [k Hk]. rewrite Hk.
  destruct ((b - 1 <=? k) && (k <=? b + 1)) eqn:Hin; [|by apply IH].
  destruct Hno. split; [done|]. exists b, k. repeat split; try done.
  - apply andb_true_iff in Hin as [Hlo _]. by apply Z.leb_le.
  - apply andb_true_iff in Hin as [_ Hhi]. by apply Z.leb_le.
Qed.

Lemma get_format_info_unanswered fmts q n :
  unanswered_token fmts q n ->
  get_format_info fmts q = Raise (KeyError (tier_of n)).
Proof.
  intros (Hn & Hrange & Hfin & Hkey & Hout). unfold get_format_info.
  rewrite (target_bitrate_int _ _ _ Hn) by lia.
  rewrite tier_int by done. mrun.
  rewrite (find_copy_unmatched _ _ None (n / 100)); try done.
  - destruct (quality_get _QUALITY (tier_of n)) as [wh|] eqn:Hq; [|done].
    destruct Hkey. unfold table_key. by rewrite Hq.
  - apply floor_div_100_int. lia.
Qed.

Lemma https_formats_unanswered url fmts pre q post n :
  Forall (resolvable_token fmts) pre ->
  unanswered_token fmts q n ->
  https_formats url fmts (pre ++ q :: post) = Raise (KeyError (tier_of n)).
Proof.
  intros Hpre Hq. induction Hpre as [|q0 pre Hq0 _ IH].
  - cbn [app https_formats]. unfold https_format. mrun.
    by rewrite (get_format_info_unanswered _ _ _ Hq).
  - destruct (get_format_info_resolvable _ _ Hq0) as (info & Hinfo & _).
    rewrite <- app_comm_cons. cbn [https_formats]. unfold https_format. mrun.
    by rewrite Hinfo, IH.
Qed.

(** C2 (as amended).  [_create_http_urls] returns the empty list,
    without raising, when the HEAD request with the wildcard quality is
    not redirected and when the redirect target of the relinker URL
    does not match [_RELINKER_REG].  Otherwise it returns one descriptor
    per quality token, in token order, with protocol https, extension
    mp4 and the tier of the token in its format id, when every token is
    one [get_format_info] has an answer for: a positive bitrate below
    2^46 whose tier is a key of [_QUALITY] or that lies within one
    bucket of a video format (the bitrates of the video formats being
    finite), the wildcard when no video format carries a bitrate, or
    the wildcard when the only video format carries a finite one.  It
    raises
    [KeyError], with the tier as key and after both HEAD requests, at
    the first token that is a positive bitrate below 2^46 whose tier is
    no key of [_QUALITY] and that lies within one bucket of no video
    format, the tokens before it being answered. *)
Theorem create_http_urls_returns url fmts tr :
  let wild := _MP4_TMPL url "*" in
  (redirect_of wild = None ->
   _create_http_urls url fmts tr = (tr ++ [HeadRequest wild], Ok []))
  /\ (is_Some (redirect_of wild) ->
      re_match _RELINKER_REG (default "" (redirect_of url)) = None ->
      _create_http_urls url fmts tr = (both_probes tr url, Ok []))
  /\ (forall mobj,
        is_Some (redirect_of wild) ->
        re_match _RELINKER_REG (default "" (redirect_of url)) = Some mobj ->
        let tokens := available_qualities (mobj "quality") in
        Forall (resolvable_token (video_formats fmts)) tokens ->
        exists fs,
          _create_http_urls url fmts tr = (both_probes tr url, Ok fs)
          /\ Forall2 (has_tier_id (video_formats fmts)) tokens fs
          /\ map f_url fs = map (fun q => Some (_MP4_TMPL url q)) tokens
          /\ Forall (fun f => f_protocol f = Some "https"
                              /\ f_ext f = Some "mp4") fs)
  /\ (forall mobj pre q post n,
        is_Some (redirect_of wild) ->
        re_match _RELINKER_REG (default "" (redirect_of url)) = Some mobj ->
        available_qualities (mobj "quality") = pre ++ q :: post ->
        Forall (resolvable_token (video_formats fmts)) pre ->
        unanswered_token (video_formats fmts) q n ->
        _create_http_urls url fmts tr
        = (both_probes tr url, Raise (KeyError (tier_of n)))).
Proof.
  intros wild.
  assert (Hsecond : forall tr0,
    exists pr, test_url url tr0 = (tr0 ++ [HeadRequest url], Ok pr)
               /\ match pr with ProbeUrl s => s | _ => "" end
                  = default "" (redirect_of url)).
  { intros tr0. destruct (redirect_of url) as [s|] eqn:Hs.
    - exists (ProbeUrl s). by rewrite (test_url_redirect _ _ _ Hs).
    - destruct (test_url_no_redirect url tr0 Hs) as (pr & -> & Hpr).
      exists pr. split; [done|]. destruct pr; try done. by destruct (Hpr final_url). }
  split; [|split; [|split]].
  - intros Hw. unfold _create_http_urls. mrun. fold wild.
    destruct (test_url_no_redirect wild tr Hw) as (pr & -> & Hpr).
    destruct pr; try done. by destruct (Hpr final_url).
  - intros [s Hw] Hre. unfold _create_http_urls, both_probes. mrun. fold wild.
    rewrite (test_url_redirect _ _ _ Hw).
    destruct (Hsecond (tr ++ [HeadRequest wild])) as (pr & -> & ->).
    rewrite Hre. by rewrite <- app_assoc.
  - intros mobj [s Hw] Hre tokens Htok.
    destruct (https_formats_resolvable url _ _ Htok) as (fs & Hfs & Hrest).
    exists fs. split; [|done].
    unfold _create_http_urls, both_probes. mrun. fold wild.
    rewrite (test_url_redirect _ _ _ Hw).
    destruct (Hsecond (tr ++ [HeadRequest wild])) as (pr & -> & ->).
    rewrite Hre. unfold video_formats in Hfs. fold tokens. rewrite Hfs.
    by rewrite <- app_assoc.
  - intros mobj pre q post n [s Hw] Hre Htok Hpre Hq.
    pose proof (https_formats_unanswered url _ _ _ post _ Hpre Hq) as Hfs.
    unfold _create_http_urls, both_probes. mrun. fold wild.
    rewrite (test_url_redirect _ _ _ Hw).
    destruct (Hsecond (tr ++ [HeadRequest wild])) as (pr & -> & ->).
    rewrite Hre, Htok. unfold video_formats in Hfs. rewrite Hfs.
    by rewrite <- app_assoc.
Qed.

End RelinkerProofs.

Section SubtitleProofs.
Context `{Utils}.

Lemma get_missing (video_data : gmap string pyval) k :
  video_data !! k = None -> get video_data k = PNone.
Proof. unfold get. by intros ->. Qed.

Lemma null_entry_skipped (heap : store) page_url k subtitles :
  add_subtitle heap page_url (PDict [(k, PNone)]) subtitles = Ok subtitles.
Proof.
  unfold add_subtitle, entry_get. mrun. cbn [items_get].
  by destruct (bool_decide (k = "url")).
Qed.

Lemma stl_entry_added (heap : store) page_url :
  urljoin page_url "http://x/a.stl" = Some "http://x/a.stl" ->
  determine_ext (Some "http://x/a.stl") "srt" = "stl" ->
  add_subtitle heap page_url (PDict [("url", PStr "http://x/a.stl")]) []
  = Ok [(PStr "it",
         [ {| ext := "stl"; url := Some "http://x/a.stl" |};
           {| ext := "srt"; url := Some "http://x/a.srt" |} ])].
Proof.
  intros Hjoin Hext. unfold add_subtitle, entry_get. mrun.
  cbn [items_get]. rewrite bool_decide_eq_true_2 by done.
  cbn [PyStr.truthy]. rewrite (bool_decide_eq_false_2 ("url" = "language")) by done.
  cbn [truthy]. rewrite Hjoin. unfold SRT_EXT, STL_EXT. rewrite Hext.
  cbn [hashable negb append_to]. by rewrite bool_decide_eq_true_2.
Qed.

(** C9.  For the record whose only field is [subtitles], bound to
    [http://x/a.stl], [_extract_subtitles] returns the mapping whose only
    key is [it], bound to the stl variant at that URL followed by the srt
    variant at [http://x/a.srt] (given that [urljoin] leaves the absolute
    URL as it is and that [determine_ext] reads its extension as stl);
    and for a record with none of the fields [subtitlesArray],
    [subtitles], [subtitlesUrl] it returns the empty mapping.  Neither
    call fails nor touches the store. *)
Theorem extract_subtitles_stl page_url (heap : store) :
  (urljoin page_url "http://x/a.stl" = Some "http://x/a.stl" ->
   determine_ext (Some "http://x/a.stl") "srt" = "stl" ->
   _extract_subtitles page_url {["subtitles" := PStr "http://x/a.stl"]} heap
   = (heap,
      Ok [(PStr "it",
           [ {| ext := "stl"; url := Some "http://x/a.stl" |};
             {| ext := "srt"; url := Some "http://x/a.srt" |} ])]))
  /\ (forall video_data : gmap string pyval,
        video_data !! "subtitlesArray" = None ->
        video_data !! "subtitles" = None ->
        video_data !! "subtitlesUrl" = None ->
        _extract_subtitles page_url video_data heap = (heap, Ok [])).
Proof.
  split.
  - intros Hjoin Hext. unfold _extract_subtitles, legacy_entries, get.
    rewrite !lookup_singleton_ne by done. rewrite lookup_singleton_eq.
    cbn [default truthy app add_subtitles]. mrun.
    rewrite stl_entry_added by done.
    by rewrite null_entry_skipped.
  - intros video_data Ha Hs Hu. unfold _extract_subtitles, legacy_entries.
    rewrite !get_missing by done.
    cbn [truthy app add_subtitles]. mrun.
    by rewrite !null_entry_skipped.
Qed.

Lemma extract_subtitles_shared page_url (video_data : gmap string pyval)
    (heap : store) l xs :
  video_data !! "subtitlesArray" = Some (PListRef l) ->
  heap !! l = Some xs ->
  xs <> [] ->
  _extract_subtitles page_url video_data heap
  = (<[l := xs ++ legacy_entries video_data]> heap,
     add_subtitles (<[l := xs ++ legacy_entries video_data]> heap) page_url
       (xs ++ legacy_entries video_data) []).
Proof.
  intros Ha Hl Hne. unfold _extract_subtitles.
  assert (Hg : get video_data "subtitlesArray" = PListRef l)
    by (unfold get; by rewrite Ha).
  rewrite Hg. cbn [truthy]. rewrite Hl. by destruct xs.
Qed.

(** C10.  When [subtitlesArray] is a non-empty list, [_extract_subtitles]
    appends to that very list two entries, whose URLs are the values of
    the fields [subtitles] and [subtitlesUrl] ([None] when missing): the
    caller's list is longer after the call, whether the call returns or
    raises, and the other lists are as they were. *)
Theorem subtitles_array_mutated page_url (video_data : gmap string pyval)
    (heap : store) l xs :
  video_data !! "subtitlesArray" = Some (PListRef l) ->
  heap !! l = Some xs ->
  xs <> [] ->
  let heap' := fst (_extract_subtitles page_url video_data heap) in
  heap' !! l
  = Some (xs ++ [ PDict [("url", get video_data "subtitles")];
                  PDict [("url", get video_data "subtitlesUrl")] ])
  /\ heap' !! l <> heap !! l
  /\ forall l', l' <> l -> heap' !! l' = heap !! l'.
Proof.
  intros Ha Hl Hne heap'. subst heap'.
  rewrite (extract_subtitles_shared _ _ _ _ _ Ha Hl Hne). cbn [fst].
  rewrite lookup_insert_eq. split; [done|]. split.
  - rewrite Hl. intros [= Heq].
    apply (f_equal length) in Heq. rewrite length_app in Heq. cbn in Heq. lia.
  - intros l' Hl'. by rewrite lookup_insert_ne.
Qed.

End SubtitleProofs.

(** ** The extractor on concrete responses *)

Section LateLive.
Import Sample.
#[local] Existing Instance late_live_ie.

(** C1, as stated, fails: mon declares [is_live] as [N] and a duration
    of 0, flash declares [Y] and 120.  The first declared values are
    [N] and 0, yet the returned dict has [is_live] true and the
    duration 120. *)
Lemma first_declared_does_not_win :
  map (fun p => _download_xml relinker_url video_id p) platforms
    = map Some late_live_responses
  /\ spec_first_wins_flag "./is_live" late_live_responses = Some false
  /\ spec_first_wins_duration late_live_responses = Some (inject_Z 0)
  /\ exists d,
       _extract_relinker_info relinker_url video_id true [] = (downloads, Ok d)
       /\ dict_get "is_live" d = Some (IVBool true)
       /\ dict_get "is_live" d
          <> IVBool <$> spec_first_wins_flag "./is_live" late_live_responses
       /\ dict_get "duration" d = Some (IVFloat (inject_Z 120))
       /\ dict_get "duration" d
          <> IVFloat <$> spec_first_wins_duration late_live_responses.
Proof.
  repeat split; try (vm_compute; reflexivity).
  eexists. split; [vm_compute; reflexivity|].
  repeat split; try (vm_compute; reflexivity); vm_compute; discriminate.
Qed.

Lemma first_truthy_wins_witness :
  exists rs evs,
    rs <> [] /\ responses_of relinker_url video_id platforms rs
    /\ downloads = [] ++ evs
    /\ List.filter is_download evs
       = map (DownloadXml relinker_url video_id) (take (length rs) platforms)
    /\ geoprotection late_live_locals = Some (any_Y "./geoprotection" rs)
    /\ is_live late_live_locals = Some (any_Y "./is_live" rs)
    /\ duration late_live_locals = first_truthy_or_last (map parsed_duration rs)
    /\ forall ao tr' d,
         PyStr.match_http relinker_url = true ->
         _extract_relinker_info relinker_url video_id ao [] = (tr', Ok d) ->
         dict_get "is_live" d = Some (IVBool (any_Y "./is_live" rs))
         /\ dict_get "duration" d
            = IVFloat <$> first_truthy_or_last (map parsed_duration rs).
Proof.
  apply (first_truthy_wins (H1 := late_live_ie) relinker_url video_id [] downloads late_live_locals).
  vm_compute. reflexivity.
Defined.

End LateLive.

Section Silent.
Import Sample.
#[local] Existing Instance silent_ie.

(** C5, as stated, fails: no profile declares [is_live], yet the
    returned dict has the key, with the value false. *)
Lemma unknown_liveness_is_false :
  map (fun p => _download_xml relinker_url video_id p) platforms
    = map Some silent_responses
  /\ Forall (fun r => xpath_text r "./is_live" (Default None) = None)
            silent_responses
  /\ exists d,
       _extract_relinker_info relinker_url video_id true [] = (downloads, Ok d)
       /\ dict_get "is_live" d = Some (IVBool false)
       /\ dict_get "is_live" d <> None.
Proof.
  repeat split; try (vm_compute; reflexivity).
  - repeat constructor.
  - eexists. split; [vm_compute; reflexivity|].
    split; [vm_compute; reflexivity|vm_compute; discriminate].
Qed.

Lemma unknown_fields_witness :
  exists rs evs,
    rs <> [] /\ responses_of relinker_url video_id platforms rs
    /\ downloads = [] ++ evs
    /\ List.filter is_download evs
       = map (DownloadXml relinker_url video_id) (take (length rs) platforms)
    /\ dict_get "is_live" [("is_live", IVBool false); ("formats", IVFormats [])]
       = Some (IVBool (any_Y "./is_live" rs))
    /\ (Forall (fun r => says_Y "./is_live" r = false) rs ->
        dict_get "is_live" [("is_live", IVBool false); ("formats", IVFormats [])]
        = Some (IVBool false))
    /\ (Forall (fun r => parsed_duration r = None) rs ->
        dict_get "duration" [("is_live", IVBool false); ("formats", IVFormats [])]
        = None).
Proof.
  apply (unknown_fields (H1 := silent_ie) relinker_url video_id true [] downloads).
  - reflexivity.
  - vm_compute. reflexivity.
Defined.

(** C4, as stated, fails: for a string that is not a network URL the
    call returns a dict, it raises nothing. *)
Lemma raw_url_is_returned :
  PyStr.match_http "rtmp://live/stream" = false
  /\ _extract_relinker_info "rtmp://live/stream" video_id false []
     = ([], Ok [("formats", IVFormats [url_only "rtmp://live/stream"])])
  /\ ~ exists e,
        snd (_extract_relinker_info "rtmp://live/stream" video_id false [])
        = Raise e.
Proof.
  repeat split; try (vm_compute; reflexivity).
  intros [e He]. vm_compute in He. discriminate.
Qed.

Lemma not_a_network_url_witness :
  _extract_relinker_info "rtmp://live/stream" video_id false []
  = ([], Ok [("formats", IVFormats [url_only "rtmp://live/stream"])]).
Proof.
  apply (not_a_network_url (H1 := silent_ie) "rtmp://live/stream" video_id false []).
  reflexivity.
Defined.

End Silent.

Section GeoBlocked.
Import Sample.
#[local] Existing Instance geo_blocked_ie.

Lemma geo_restricted_iff_witness :
  snd (_extract_relinker_info relinker_url video_id false [])
  = Raise (GeoRestrictedError ["IT"] true).
Proof.
  apply (geo_restricted_iff (H1 := geo_blocked_ie) relinker_url video_id false [] ["IT"] true).
  - reflexivity.
  - split; [reflexivity|]. split; [reflexivity|].
    exists downloads,
      {| formats := []; geoprotection := Some true; is_live := Some false;
         duration := None |}.
    split; [vm_compute; reflexivity|]. split; reflexivity.
Defined.

End GeoBlocked.

Section HlsThenMp3.
Import Sample.
#[local] Existing Instance hls_then_mp3_ie.

(** C6, as stated, fails: flash declares an mp3 file after mon has
    produced a rendition, and the returned dict holds two formats, the
    first of which is not audio-only. *)
Lemma mp3_is_not_alone :
  _download_xml relinker_url video_id "flash"
    = Some (relinker_doc [content_url "http://x/a.mp3"])
  /\ determine_ext (Some "http://x/a.mp3") "unknown_video" = "mp3"
  /\ exists tr d fs,
       _extract_relinker_info relinker_url video_id true [] = (tr, Ok d)
       /\ dict_get "formats" d = Some (IVFormats fs)
       /\ fs = [hls_rendition; mp3_format "http://x/a.mp3"]
       /\ length fs <> 1%nat
       /\ is_audio_only hls_rendition = false.
Proof.
  repeat split; try (vm_compute; reflexivity).
  eexists _, _, _. split; [vm_compute; reflexivity|].
  split; [vm_compute; reflexivity|]. split; [reflexivity|].
  split; [cbn; lia|vm_compute; reflexivity].
Qed.

Lemma mp3_stops_probing_witness :
  let tr' :=
    [ DownloadXml relinker_url video_id "mon"; ExtractM3u8 "http://x/v.m3u8";
      DownloadXml relinker_url video_id "flash" ] in
  let fs := [hls_rendition; mp3_format "http://x/a.mp3"] in
  (exists st',
     loop relinker_url video_id (["mon"] ++ "flash" :: ["native"]) initial []
       = (tr', Ok st')
     /\ formats st' = fs)
  /\ is_audio_only (mp3_format "http://x/a.mp3") = true
  /\ (platforms = ["mon"] ++ "flash" :: ["native"] ->
      PyStr.match_http relinker_url = true ->
      (exists d, _extract_relinker_info relinker_url video_id true [] = (tr', Ok d)
                 /\ dict_get "formats" d = Some (IVFormats fs))
      /\ (forall tr2 d,
            _extract_relinker_info relinker_url video_id false [] = (tr2, Ok d) ->
            exists extra, dict_get "formats" d = Some (IVFormats (fs ++ extra)))).
Proof.
  apply (mp3_stops_probing (H1 := hls_then_mp3_ie) relinker_url video_id ["mon"] "flash" ["native"] []
           [ DownloadXml relinker_url video_id "mon"; ExtractM3u8 "http://x/v.m3u8" ]
           after_mon
           (relinker_doc [content_url "http://x/a.mp3"])
           (content_url "http://x/a.mp3") "http://x/a.mp3");
    vm_compute; reflexivity.
Defined.

Lemma hls_expansion_witness :
  iteration relinker_url video_id "mon" initial []
  = ([ DownloadXml relinker_url video_id "mon"; ExtractM3u8 "http://x/v.m3u8" ],
     Ok (Next after_mon)).
Proof.
  destruct (hls_expansion (H1 := hls_then_mp3_ie) relinker_url video_id "mon"
              initial []
              (relinker_doc [content_url "http://x/v.m3u8"])
              (content_url "http://x/v.m3u8") "http://x/v.m3u8")
    as (Hmon & _ & _); [vm_compute; reflexivity..|].
  rewrite Hmon; vm_compute; reflexivity.
Defined.

End HlsThenMp3.

Section NoBitrate.
Import Sample.
#[local] Existing Instance no_bitrate_ie.

(** C7: the native profile answers with a direct file and no [bitrate]
    element; [int_or_none] gives [None], the comparison [bitrate > 0]
    raises [TypeError] and the resolution fails. *)
Lemma missing_bitrate_raises :
  _download_xml relinker_url video_id "native"
    = Some (relinker_doc [content_url "http://x/a.mp4"])
  /\ int_or_none (xpath_text (relinker_doc [content_url "http://x/a.mp4"])
                     "bitrate" NO_DEFAULT) = None
  /\ _extract_relinker_info relinker_url video_id true []
     = (downloads, Raise TypeError).
Proof. repeat split; vm_compute; reflexivity. Qed.

(** With a [bitrate] element the same answer gives one format, which
    carries the bitrate when it is positive and none when it is zero. *)
Lemma declared_bitrate_is_read :
  (exists d,
     _extract_relinker_info (H1 := bitrate_800_ie) relinker_url video_id true []
       = (downloads, Ok d)
     /\ dict_get "formats" d
        = Some (IVFormats [http_format "http://x/a.mp4" 800])
     /\ f_tbr (http_format "http://x/a.mp4" 800) = Some (NInt 800))
  /\ (exists d,
        _extract_relinker_info (H1 := bitrate_0_ie) relinker_url video_id true []
          = (downloads, Ok d)
        /\ dict_get "formats" d
           = Some (IVFormats [http_format "http://x/a.mp4" 0])
        /\ f_tbr (http_format "http://x/a.mp4" 0) = None).
Proof.
  split; eexists; (split; [vm_compute; reflexivity|]);
    split; vm_compute; reflexivity.
Qed.

End NoBitrate.

Section M3u8OnNative.
Import Sample.
#[local] Existing Instance m3u8_on_native_ie.

(** C8, as stated, fails: native declares a URL with extension m3u8
    whose manifest has a rendition; nothing is expanded and no format is
    returned. *)
Lemma m3u8_on_native_is_skipped :
  _download_xml relinker_url video_id "native"
    = Some (relinker_doc [content_url "http://x/a.m3u8"])
  /\ determine_ext (Some "http://x/a.m3u8") "unknown_video" = "m3u8"
  /\ _extract_m3u8_formats "http://x/a.m3u8" video_id = [hls_rendition]
  /\ exists tr d,
       _extract_relinker_info relinker_url video_id true [] = (tr, Ok d)
       /\ ~ In (ExtractM3u8 "http://x/a.m3u8") tr
       /\ dict_get "formats" d = Some (IVFormats []).
Proof.
  repeat split; try (vm_compute; reflexivity).
  eexists _, _. split; [vm_compute; reflexivity|]. split.
  - cbn. intros [?|[?|[?|[]]]]; discriminate.
  - vm_compute. reflexivity.
Qed.

End M3u8OnNative.

Section UnknownTier.
Import Sample.
#[local] Existing Instance unknown_tier_ie.

(** C2, as stated, fails: the redirect target carries the quality
    tokens 250 and 500, and 500 is no key of [_QUALITY]; with no format
    to copy from, the lookup raises [KeyError]. *)
Lemma unknown_tier_raises :
  redirect_of (_MP4_TMPL relinker_url "*")
    = Some "https://host/extra/path/id_250,500.mp4?auth=1"
  /\ redirect_of relinker_url
     = Some "https://host/extra/path/id_250,500.mp4?auth=1"
  /\ (exists mobj,
        re_match _RELINKER_REG "https://host/extra/path/id_250,500.mp4?auth=1"
          = Some mobj
        /\ mobj "quality" = Some "250,500")
  /\ _create_http_urls relinker_url [] []
     = (both_probes [] relinker_url, Raise (KeyError "500")).
Proof.
  repeat split; try (vm_compute; reflexivity).
  eexists. split; vm_compute; reflexivity.
Qed.

End UnknownTier.

Section TwoTiers.
Import Sample.
#[local] Existing Instance two_tiers_ie.

Lemma create_http_urls_returns_witness :
  (exists fs,
     _create_http_urls relinker_url [] [] = (both_probes [] relinker_url, Ok fs)
     /\ map f_format_id fs = [Some "https-250"; Some "https-400"]
     /\ map f_url fs
        = [ Some (_MP4_TMPL relinker_url "250");
            Some (_MP4_TMPL relinker_url "400") ]
     /\ Forall (fun f => f_protocol f = Some "https" /\ f_ext f = Some "mp4") fs)
  /\ _create_http_urls (H1 := unknown_tier_ie) relinker_url [] []
     = (both_probes [] relinker_url, Raise (KeyError "500")).
Proof.
  split; cycle 1.
  { destruct (create_http_urls_returns (H1 := unknown_tier_ie) relinker_url [] [])
      as (_ & _ & _ & Hk).
    destruct (re_match _RELINKER_REG "https://host/extra/path/id_250,500.mp4?auth=1")
      as [mobj|] eqn:Hre; [|vm_compute in Hre; discriminate].
    assert (Hquality : mobj "quality" = Some "250,500").
    { vm_compute in Hre. injection Hre as <-. vm_compute. reflexivity. }
    apply (Hk mobj ["250"] "500" [] 500).
    - eexists. vm_compute. reflexivity.
    - exact Hre.
    - rewrite Hquality. vm_compute. reflexivity.
    - constructor; [|constructor].
      left. exists 250. split; [vm_compute; reflexivity|].
      split; [lia|]. split; [constructor|].
      left. eexists. vm_compute. reflexivity.
    - split; [vm_compute; reflexivity|]. split; [lia|].
      split; [constructor|]. split; [|constructor].
      intros [wh Hwh]. vm_compute in Hwh. discriminate. }
  destruct (create_http_urls_returns (H1 := two_tiers_ie) relinker_url [] [])
    as (_ & _ & Hq & _).
  destruct (re_match _RELINKER_REG "https://host/extra/path/id_250,400.mp4?auth=1")
    as [mobj|] eqn:Hre; [|vm_compute in Hre; discriminate].
  assert (Hquality : mobj "quality" = Some "250,400").
  { vm_compute in Hre. injection Hre as <-. vm_compute. reflexivity. }
  destruct (Hq mobj) as (fs & Hrun & Hids & Hurls & Hall).
  - eexists. vm_compute. reflexivity.
  - exact Hre.
  - rewrite Hquality.
    change (available_qualities (Some "250,400")) with ["250"; "400"].
    constructor; [|constructor; [|constructor]].
    + left. exists 250. split; [vm_compute; reflexivity|].
      split; [lia|]. split; [constructor|].
      left. eexists. vm_compute. reflexivity.
    + left. exists 400. split; [vm_compute; reflexivity|].
      split; [lia|]. split; [constructor|].
      left. eexists. vm_compute. reflexivity.
  - rewrite Hquality in Hids, Hurls.
    change (available_qualities (Some "250,400")) with ["250"; "400"] in Hids, Hurls.
    exists fs. split; [exact Hrun|]. split; [|split; [|exact Hall]].
    + inversion Hids as [|q1 f1 qs1 fs1 (t1 & Ht1 & Hid1) Hids1]; subst.
      inversion Hids1 as [|q2 f2 qs2 fs2 (t2 & Ht2 & Hid2) Hids2]; subst.
      inversion Hids2; subst.
      vm_compute in Ht1, Ht2. injection Ht1 as <-. injection Ht2 as <-.
      cbn [map]. rewrite Hid1, Hid2. reflexivity.
    + rewrite Hurls. vm_compute. reflexivity.
Defined.

End TwoTiers.

Section OneTier.
Import Sample.
#[local] Existing Instance one_tier_ie.

(** A redirect target with a single quality, [id_1800.mp4]: the id group
    of [_RELINKER_REG] takes the quality with it, so the only token is
    the wildcard.  With no video format the tier is 250; with one video
    format its fields are copied; with two video formats that carry a
    bitrate, [br] is [None] and [br / 100] raises [TypeError]. *)
Lemma wildcard_token :
  (exists mobj,
     re_match _RELINKER_REG "https://host/extra/path/id_1800.mp4?auth=1"
       = Some mobj
     /\ mobj "id" = Some "id_1800" /\ mobj "quality" = None)
  /\ (exists fs, snd (_create_http_urls relinker_url [] []) = Ok fs
                 /\ map f_format_id fs = [Some "https-250"])
  /\ (exists fs, snd (_create_http_urls relinker_url [hls_rendition] []) = Ok fs
                 /\ map f_format_id fs = [Some "https-1200"]
                 /\ map f_width fs = [Some 736])
  /\ snd (_create_http_urls relinker_url [hls_rendition; hls_rendition] [])
     = Raise TypeError.
Proof.
  split; [|split; [|split]].
  - eexists. split; [vm_compute; reflexivity|]. split; vm_compute; reflexivity.
  - eexists. split; vm_compute; reflexivity.
  - eexists. split; [vm_compute; reflexivity|]. split; vm_compute; reflexivity.
  - vm_compute. reflexivity.
Qed.

End OneTier.

Section SubtitleExamples.
Import Sample.

Lemma extract_subtitles_stl_witness :
  _extract_subtitles "http://page/" {["subtitles" := PStr "http://x/a.stl"]} ∅
  = (∅,
     Ok [(PStr "it",
          [ {| ext := "stl"; url := Some "http://x/a.stl" |};
            {| ext := "srt"; url := Some "http://x/a.srt" |} ])])
  /\ _extract_subtitles "http://page/" ∅ ∅ = (∅, Ok []).
Proof.
  destruct (extract_subtitles_stl (H0 := sample_utils) "http://page/" ∅) as [Hstl Hnone].
  split.
  - apply Hstl; reflexivity.
  - apply Hnone; apply lookup_empty.
Defined.

Lemma subtitles_array_mutated_witness :
  let heap' := fst (_extract_subtitles "http://page/" shared_record shared_store) in
  heap' !! 1%positive
  = Some ([PDict [("url", PStr "http://x/b.srt")]]
          ++ [ PDict [("url", get shared_record "subtitles")];
               PDict [("url", get shared_record "subtitlesUrl")] ])
  /\ heap' !! 1%positive <> shared_store !! 1%positive
  /\ forall l', l' <> 1%positive -> heap' !! l' = shared_store !! l'.
Proof.
  apply (subtitles_array_mutated (H0 := sample_utils) "http://page/" shared_record shared_store
           1%positive [PDict [("url", PStr "http://x/b.srt")]]).
  - reflexivity.
  - reflexivity.
  - discriminate.
Defined.

End SubtitleExamples.

(** ** Further properties of the relinker resolution *)

Section RequestProofs.
Context `{InfoExtractor}.

Implicit Types (st : locals) (tr : list event) (r : Element).

(** *** The requests a call issues *)

Lemma loop_trace url vid ps st tr tr' res :
  loop url vid ps st tr = (tr', res) ->
  exists n evs,
    tr' = tr ++ evs
    /\ List.filter is_download evs = map (DownloadXml url vid) (take n ps)
    /\ Forall (fun ev => is_head ev = false) evs
    /\ (ps <> [] -> (1 <= n)%nat).
Proof.
  revert st tr. induction ps as [|p ps IH]; intros st tr.
  - cbn. mrun. intros [= <- _]. exists 0%nat, [].
    rewrite app_nil_r. repeat split; try done; try constructor.
  - rewrite loop_cons.
    destruct (iteration url vid p st tr) as [tr1 r1] eqn:Hi.
    apply iteration_trace in Hi as (evs & -> & Hq).
    assert (Hone : forall x,
      (tr ++ DownloadXml url vid p :: evs, x) = (tr', res) ->
      exists n evs',
        tr' = tr ++ evs'
        /\ List.filter is_download evs'
           = map (DownloadXml url vid) (take n (p :: ps))
        /\ Forall (fun ev => is_head ev = false) evs'
        /\ (p :: ps <> [] -> (1 <= n)%nat)).
    { intros x [= <- _]. exists 1%nat, (DownloadXml url vid p :: evs).
      repeat split; try done.
      - cbn. rewrite quiet_no_download by done. by rewrite take_0.
      - constructor; [done|by apply quiet_no_head]. }
    destruct r1 as [[st1|st1]|e]; eauto.
    intros Hl. apply IH in Hl as (n & evs' & -> & Hf & Hh & _).
    exists (S n), (DownloadXml url vid p :: evs ++ evs').
    repeat split.
    + rewrite <- app_assoc. done.
    + cbn. rewrite List.filter_app, quiet_no_download by done. cbn.
      by rewrite Hf.
    + constructor; [done|]. apply Forall_app. split; [by apply quiet_no_head|done].
    + lia.
Qed.

(** X1.  The relinker is asked for the profiles in the order mon, flash,
    native, each at most once and none skipped: the downloads of a call
    are those of the first [n] profiles, with [n] at least one for a
    network URL and zero otherwise. *)
Theorem downloads_in_profile_order url vid ao tr :
  exists n evs,
    fst (_extract_relinker_info url vid ao tr) = tr ++ evs
    /\ List.filter is_download evs
       = map (DownloadXml url vid) (take n platforms)
    /\ (PyStr.match_http url = true -> (1 <= n)%nat)
    /\ (PyStr.match_http url = false -> evs = []).
Proof.
  destruct (PyStr.match_http url) eqn:Hm.
  - rewrite relinker_info_unfold by done.
    destruct (loop url vid platforms initial tr) as [tr1 r1] eqn:Hl.
    apply loop_trace in Hl as (n & evs & -> & Hf & Hh & Hn).
    assert (Hn1 : (1 <= n)%nat) by (by apply Hn).
    assert (Hplain : exists n0 evs0,
      tr ++ evs = tr ++ evs0
      /\ List.filter is_download evs0
         = map (DownloadXml url vid) (take n0 platforms)
      /\ (true = true -> (1 <= n0)%nat) /\ (true = false -> evs0 = [])).
    { exists n, evs. by repeat split. }
    destruct r1 as [st|e]; [|exact Hplain].
    destruct (bool_decide (formats st = []) && _); [exact Hplain|].
    destruct ao; [exact Hplain|].
    destruct (_create_http_urls url (formats st) (tr ++ evs)) as [tr2 r2] eqn:Hc.
    assert (Htr2 : exists heads, tr2 = tr ++ evs ++ heads
                                 /\ List.filter is_download heads = []).
    { apply create_http_urls_trace in Hc as [->| ->]; unfold both_probes;
        rewrite <- app_assoc; by eexists. }
    destruct Htr2 as (heads & -> & Hheads).
    exists n, (evs ++ heads).
    assert (fst (match r2 with
                 | Ok extra => (tr ++ evs ++ heads, Ok (outcome st (formats st ++ extra)))
                 | Raise e => (tr ++ evs ++ heads, Raise e)
                 end) = tr ++ evs ++ heads) as -> by (by destruct r2).
    repeat split; try done.
    by rewrite List.filter_app, Hheads, app_nil_r.
  - unfold _extract_relinker_info. rewrite Hm. exists 0%nat, [].
    cbn. rewrite app_nil_r. by repeat split.
Qed.

(** X2.  HEAD requests come last and there are at most two of them, the
    one with the wildcard quality first; none is issued with
    [audio_only], for a string that is no network URL, or when the call
    raises [GeoRestrictedError]. *)
Theorem head_requests_come_last url vid ao tr :
  exists evs heads,
    fst (_extract_relinker_info url vid ao tr) = tr ++ evs ++ heads
    /\ Forall (fun ev => is_head ev = false) evs
    /\ (heads = []
        \/ heads = [HeadRequest (_MP4_TMPL url "*")]
        \/ heads = [HeadRequest (_MP4_TMPL url "*"); HeadRequest url])
    /\ (ao = true -> heads = [])
    /\ (PyStr.match_http url = false -> heads = [])
    /\ (forall c m,
          snd (_extract_relinker_info url vid ao tr)
          = Raise (GeoRestrictedError c m) -> heads = []).
Proof.
  destruct (PyStr.match_http url) eqn:Hm.
  - rewrite relinker_info_unfold by done.
    destruct (loop url vid platforms initial tr) as [tr1 r1] eqn:Hl.
    apply loop_trace in Hl as (n & evs & -> & Hf & Hh & Hn).
    assert (Hplain : forall x : result info_dict,
      exists evs0 heads,
        fst (tr ++ evs, x) = tr ++ evs0 ++ heads
        /\ Forall (fun ev => is_head ev = false) evs0
        /\ (heads = []
            \/ heads = [HeadRequest (_MP4_TMPL url "*")]
            \/ heads = [HeadRequest (_MP4_TMPL url "*"); HeadRequest url])
        /\ (ao = true -> heads = [])
        /\ (true = false -> heads = [])
        /\ (forall c m, snd (tr ++ evs, x) = Raise (GeoRestrictedError c m) ->
            heads = [])).
    { intros x. exists evs, []. rewrite app_nil_r. repeat split; auto. }
    destruct r1 as [st|e]; [|apply Hplain].
    destruct (bool_decide (formats st = []) && _); [apply Hplain|].
    destruct ao; [apply Hplain|].
    destruct (_create_http_urls url (formats st) (tr ++ evs)) as [tr2 r2] eqn:Hc.
    assert (Hfst : forall tr2, fst (match r2 with
                 | Ok extra => (tr2, Ok (outcome st (formats st ++ extra)))
                 | Raise e => (tr2, Raise e)
                 end) = tr2) by (intros; by destruct r2).
    assert (Hgeo : forall tr2 c m,
      snd (match r2 with
           | Ok extra => (tr2, Ok (outcome st (formats st ++ extra)))
           | Raise e => (tr2, Raise e)
           end) = Raise (GeoRestrictedError c m) -> False).
    { intros tr0 c m Hg. destruct r2 as [extra|e]; [done|].
      cbn in Hg. injection Hg as ->.
      by apply create_http_urls_raises in Hc. }
    pose proof Hc as Htr. apply create_http_urls_trace in Htr.
    destruct Htr as [Htr|Htr]; rewrite Htr, Hfst.
    + exists evs, [HeadRequest (_MP4_TMPL url "*")].
      rewrite <- app_assoc. repeat split; auto; try done.
      intros c m Hg. by apply Hgeo in Hg.
    + exists evs, [HeadRequest (_MP4_TMPL url "*"); HeadRequest url].
      unfold both_probes. rewrite <- app_assoc. repeat split; auto; try done.
      intros c m Hg. by apply Hgeo in Hg.
  - unfold _extract_relinker_info. rewrite Hm. exists [], [].
    cbn. rewrite app_nil_r. repeat split; auto.
Qed.

(** *** The formats a call gathers *)

Lemma classify_appends vid p r u st tr tr' fl :
  classify vid p r u st tr = (tr', Ok fl) ->
  exists new, formats (locals_of fl) = formats st ++ new.
Proof.
  unfold classify, extract_m3u8_formats, extract_f4m_formats. mrun.
  intros Hc.
  repeat case_match; simplify_eq; cbn;
    try (exists []; by rewrite app_nil_r); by eexists.
Qed.

Lemma iteration_appends url vid p st tr tr' fl :
  iteration url vid p st tr = (tr', Ok fl) ->
  exists new, formats (locals_of fl) = formats st ++ new.
Proof.
  destruct (_download_xml url vid p) as [r|] eqn:Hr.
  - rewrite (iteration_unfold _ _ _ _ _ _ Hr). cbn zeta. intros Hi.
    repeat case_match; simplify_eq; cbn;
      try (exists []; by rewrite app_nil_r).
    apply classify_appends in Hi as [new Hnew]. by exists new.
  - by rewrite iteration_failed_download.
Qed.

Lemma loop_appends url vid ps st tr tr' st' :
  loop url vid ps st tr = (tr', Ok st') ->
  exists new, formats st' = formats st ++ new.
Proof.
  revert st tr. induction ps as [|p ps IH]; intros st tr.
  - cbn. mrun. intros [= _ <-]. exists []. by rewrite app_nil_r.
  - rewrite loop_cons.
    destruct (iteration url vid p st tr) as [tr1 [[st1|st1]|e]] eqn:Hi; [| |done].
    + intros Hl. apply iteration_appends in Hi as [new1 Hnew1].
      apply IH in Hl as [new2 Hnew2]. cbn in Hnew1.
      exists (new1 ++ new2). by rewrite Hnew2, Hnew1, app_assoc.
    + intros [= _ <-]. by apply iteration_appends in Hi.
Qed.

(** X3.  Formats are only ever appended: what the first profiles have
    gathered stays, in order, at the front of what the loop ends with. *)
Theorem gathered_formats_are_kept url vid pre post tr tr1 st1 tr2 st2 :
  probe_all url vid pre initial tr = (tr1, Ok (Next st1)) ->
  loop url vid (pre ++ post) initial tr = (tr2, Ok st2) ->
  exists later, formats st2 = formats st1 ++ later.
Proof.
  intros Hpre. rewrite loop_probe_all, (probe_all_app _ _ _ _ _ _ _ _ Hpre).
  intros Hl.
  assert (Hloop : loop url vid post st1 tr1 = (tr2, Ok st2))
    by (by rewrite loop_probe_all).
  by apply loop_appends in Hloop.
Qed.

(** X4.  In the returned dict [formats] is always present and holds the
    formats of the loop followed by the synthesized HTTPS variants; with
    [audio_only] nothing follows and nothing more is requested. *)
Theorem synthesized_formats_come_last url vid ao tr tr' d :
  PyStr.match_http url = true ->
  _extract_relinker_info url vid ao tr = (tr', Ok d) ->
  exists tr1 st extra,
    loop url vid platforms initial tr = (tr1, Ok st)
    /\ dict_get "formats" d = Some (IVFormats (formats st ++ extra))
    /\ (ao = true -> extra = [] /\ tr' = tr1)
    /\ (ao = false -> _create_http_urls url (formats st) tr1 = (tr', Ok extra)).
Proof.
  intros Hm. rewrite relinker_info_unfold by done.
  destruct (loop url vid platforms initial tr) as [tr1 [st|e]]; [|done].
  destruct (bool_decide (formats st = []) && _); [done|].
  destruct ao.
  - intros [= <- <-]. exists tr1, st, [].
    rewrite app_nil_r, outcome_formats. by repeat split.
  - destruct (_create_http_urls url (formats st) tr1) as [tr2 [extra|e]] eqn:Hc;
      [|done].
    intros [= <- <-]. exists tr1, st, extra.
    rewrite outcome_formats. by repeat split.
Qed.

(** *** Profiles without a usable media URL *)

Lemma iteration_unusable url vid p st tr :
  unusable url vid p ->
  exists r, _download_xml url vid p = Some r
            /\ iteration url vid p st tr
               = (probed tr url vid p r, Ok (Next (latch r st))).
Proof.
  intros (r & Hr & Hu). exists r. split; [done|].
  rewrite (iteration_unfold _ _ _ _ _ _ Hr). cbn zeta.
  destruct Hu as [-> | (e & u & -> & -> & ->)]; done.
Qed.

Lemma drm_events_no_expansion vid r :
  Forall (fun ev => is_expansion ev = false) (drm_events vid r).
Proof. unfold drm_events. case_match; by repeat constructor. Qed.

(** X5.  A profile that answers without a [url] element of type
    [content], or with the placeholder [/video_no_available.mp4],
    contributes nothing: over such profiles the loop downloads each
    answer, expands no manifest and leaves the formats as they were.  If
    all three profiles are so, a call with [audio_only] returns no
    format at all, or raises [GeoRestrictedError]. *)
Theorem unusable_profiles_give_no_format url vid :
  (forall ps st tr,
     Forall (unusable url vid) ps ->
     exists tr' st' evs,
       loop url vid ps st tr = (tr', Ok st')
       /\ formats st' = formats st
       /\ tr' = tr ++ evs
       /\ List.filter is_download evs = map (DownloadXml url vid) ps
       /\ Forall (fun ev => is_expansion ev = false) evs)
  /\ (forall tr,
        PyStr.match_http url = true ->
        Forall (unusable url vid) platforms ->
        exists tr',
          _extract_relinker_info url vid true tr
            = (tr', Raise (GeoRestrictedError ["IT"] true))
          \/ exists d, _extract_relinker_info url vid true tr = (tr', Ok d)
                       /\ dict_get "formats" d = Some (IVFormats [])).
Proof.
  assert (Hloop : forall ps st tr,
     Forall (unusable url vid) ps ->
     exists tr' st' evs,
       loop url vid ps st tr = (tr', Ok st')
       /\ formats st' = formats st
       /\ tr' = tr ++ evs
       /\ List.filter is_download evs = map (DownloadXml url vid) ps
       /\ Forall (fun ev => is_expansion ev = false) evs).
  { intros ps st tr Hall. revert st tr.
    induction Hall as [|p ps Hp _ IH]; intros st tr.
    - exists tr, st, []. cbn. rewrite app_nil_r. repeat split; try done.
    - destruct (iteration_unusable url vid p st tr Hp) as (r & Hr & Hi).
      destruct (IH (latch r st) (probed tr url vid p r))
        as (tr' & st' & evs & Hl & Hf & -> & Hd & He).
      exists (probed tr url vid p r ++ evs), st',
        ([DownloadXml url vid p] ++ drm_events vid r ++ evs).
      rewrite loop_cons, Hi. repeat split; try done.
      + unfold probed. by rewrite <- !app_assoc.
      + cbn. rewrite List.filter_app.
        rewrite (quiet_no_download _ (drm_events_quiet vid r)). cbn.
        by rewrite Hd.
      + constructor; [done|]. apply Forall_app.
        split; [apply drm_events_no_expansion|done]. }
  split; [exact Hloop|].
  intros tr Hm Hall.
  destruct (Hloop platforms initial tr Hall) as (tr' & st' & evs & Hl & Hf & _).
  exists tr'. rewrite relinker_info_unfold, Hl by done.
  cbn in Hf. rewrite Hf. rewrite bool_decide_eq_true_2 by done. cbn [andb].
  destruct (bool_decide (geoprotection st' = Some true)); [by left|].
  right. eexists. split; [done|]. by rewrite outcome_formats.
Qed.

(** *** What stops the loop *)

Lemma loop_stops_on_raise url vid pre p post tr tr1 st1 tr2 e :
  probe_all url vid pre initial tr = (tr1, Ok (Next st1)) ->
  iteration url vid p st1 tr1 = (tr2, Raise e) ->
  loop url vid (pre ++ p :: post) initial tr = (tr2, Raise e)
  /\ (platforms = pre ++ p :: post ->
      PyStr.match_http url = true ->
      forall ao, _extract_relinker_info url vid ao tr = (tr2, Raise e)).
Proof.
  intros Hpre Hi.
  assert (Hloop : loop url vid (pre ++ p :: post) initial tr = (tr2, Raise e)).
  { rewrite loop_probe_all, (probe_all_app _ _ _ _ _ _ _ _ Hpre), probe_all_cons.
    by rewrite Hi. }
  split; [done|]. intros Hps Hm ao.
  by rewrite relinker_info_unfold, Hps, Hloop.
Qed.

(** X6.  When a profile that is reached answers with a [url] element of
    type [content] that has no text, the test for the placeholder raises
    [TypeError], right after that download; the later profiles are not
    asked and the call fails with that error. *)
Theorem url_without_text_raises url vid pre p post tr tr1 st1 r e :
  probe_all url vid pre initial tr = (tr1, Ok (Next st1)) ->
  _download_xml url vid p = Some r ->
  find_xpath_attr r "./url" "type" "content" = Some e ->
  text e = None ->
  loop url vid (pre ++ p :: post) initial tr
    = (probed tr1 url vid p r, Raise TypeError)
  /\ (platforms = pre ++ p :: post ->
      PyStr.match_http url = true ->
      forall ao, _extract_relinker_info url vid ao tr
                 = (probed tr1 url vid p r, Raise TypeError)).
Proof.
  intros Hpre Hr He Ht. apply (loop_stops_on_raise _ _ _ _ _ _ _ _ _ _ Hpre).
  rewrite (iteration_unfold _ _ _ _ _ _ Hr), He, Ht. done.
Qed.

(** X7.  No fetch of the relinker is optional: when the download for a
    profile that is reached fails, be it flash or native, the call
    fails with it, the formats gathered so far are lost and the later
    profiles are not asked. *)
Theorem failed_download_is_fatal url vid pre p post tr tr1 st1 :
  probe_all url vid pre initial tr = (tr1, Ok (Next st1)) ->
  _download_xml url vid p = None ->
  loop url vid (pre ++ p :: post) initial tr
    = (tr1 ++ [DownloadXml url vid p], Raise ExtractorError)
  /\ (platforms = pre ++ p :: post ->
      PyStr.match_http url = true ->
      forall ao, _extract_relinker_info url vid ao tr
                 = (tr1 ++ [DownloadXml url vid p], Raise ExtractorError)).
Proof.
  intros Hpre Hr. apply (loop_stops_on_raise _ _ _ _ _ _ _ _ _ _ Hpre).
  by apply iteration_failed_download.
Qed.

(** *** The HDS branch *)

Lemma prefix_uncontained old s :
  PyStr.contains old s = false -> String.prefix old s = false.
Proof. destruct s; cbn; intros Hc; by apply orb_false_iff in Hc as [? _]. Qed.

Lemma replace_absent old new s :
  PyStr.contains old s = false -> PyStr.replace old new s = s.
Proof.
  unfold PyStr.replace. induction s as [|c s IH]; [done|].
  intros Hc. cbn [PyStr.replace_go].
  rewrite (prefix_uncontained _ _ Hc).
  cbn in Hc. apply orb_false_iff in Hc as [_ Hc]. by rewrite IH.
Qed.

Lemma classify_hds vid r u st tr :
  determine_ext (Some u) "unknown_video" <> "m3u8" ->
  determine_ext (Some u) "unknown_video" <> "mp3" ->
  PyStr.contains "format=m3u8" u = false ->
  classify vid "flash" r u st tr
  = (tr ++ [ExtractF4m (hds_manifest u)],
     Ok (Next (with_formats st
                 (formats st ++ _extract_f4m_formats (hds_manifest u) vid)))).
Proof.
  intros Hm Hmp3 Hc. unfold classify, hds_manifest.
  rewrite (bool_decide_eq_false_2 _ Hm), (bool_decide_eq_false_2 _ Hmp3), Hc.
  cbn [andb orb negb]. rewrite andb_false_r. cbn [orb].
  rewrite orb_true_r. done.
Qed.

Lemma classify_f4m_skipped vid p r u st tr :
  determine_ext (Some u) "unknown_video" = "f4m" -> p <> "flash" ->
  classify vid p r u st tr = (tr, Ok (Next st)).
Proof.
  intros He Hp. unfold classify. rewrite He.
  rewrite (bool_decide_eq_false_2 (p = "flash")) by done.
  cbn. by rewrite orb_true_r.
Qed.

(** X8.  The flash profile expands whatever media URL it is given as an
    HDS manifest, unless the extension is m3u8 or mp3 or the URL carries
    [format=m3u8]: the manifest is the URL with the live manifest name
    rewritten and the two vendor parameters added, and the renditions
    found, possibly none, are appended.  A URL with extension f4m from
    mon or native is skipped.  Without the live manifest name the URL is
    passed as it is to [update_url_query]. *)
Theorem hds_expansion url vid p st tr r e u :
  _download_xml url vid p = Some r ->
  find_xpath_attr r "./url" "type" "content" = Some e ->
  text e = Some u ->
  PyStr.contains "/video_no_available.mp4" u = false ->
  let ext := determine_ext (Some u) "unknown_video" in
  let tr1 := probed tr url vid p r in
  (p = "flash" -> ext <> "m3u8" -> ext <> "mp3" ->
   PyStr.contains "format=m3u8" u = false ->
   iteration url vid p st tr
   = (tr1 ++ [ExtractF4m (hds_manifest u)],
      Ok (Next (with_formats (latch r st)
                  (formats st ++ _extract_f4m_formats (hds_manifest u) vid)))))
  /\ (ext = "f4m" -> p <> "flash" ->
      iteration url vid p st tr = (tr1, Ok (Next (latch r st))))
  /\ (PyStr.contains "manifest#live_hds.f4m" u = false ->
      hds_manifest u
      = update_url_query u [("hdcore", "3.7.0"); ("plugin", "aasp-3.7.0.39.44")]).
Proof.
  intros Hr He Ht Hp ext tr1.
  rewrite (iteration_unfold _ _ _ _ _ _ Hr), He, Ht, Hp. cbn zeta.
  fold tr1. split; [|split].
  - intros -> Hm Hmp3 Hc. by rewrite classify_hds.
  - intros Hext Hflash. by rewrite classify_f4m_skipped.
  - intros Hc. unfold hds_manifest. by rewrite replace_absent.
Qed.

End RequestProofs.

(** ** Further properties of the HTTPS variants *)

Section VariantProofs.
Context `{InfoExtractor}.

Lemma create_http_urls_matched url fmts tr mobj :
  is_Some (redirect_of (_MP4_TMPL url "*")) ->
  re_match _RELINKER_REG (default "" (redirect_of url)) = Some mobj ->
  _create_http_urls url fmts tr
  = (both_probes tr url,
     https_formats url (video_formats fmts) (available_qualities (mobj "quality"))).
Proof.
  intros [s Hw] Hre. unfold _create_http_urls, both_probes. mrun.
  rewrite (test_url_redirect _ _ _ Hw).
  destruct (redirect_of url) as [s'|] eqn:Hs.
  - rewrite (test_url_redirect _ _ _ Hs). cbn in Hre. rewrite Hre.
    unfold lift. by rewrite <- app_assoc.
  - destruct (test_url_no_redirect url (tr ++ [HeadRequest (_MP4_TMPL url "*")]) Hs)
      as (pr & -> & Hpr).
    assert (Hstr : match pr with ProbeUrl s0 => s0 | _ => "" end = "").
    { destruct pr; try done. by destruct (Hpr final_url). }
    rewrite Hstr. cbn in Hre. rewrite Hre. by rewrite <- app_assoc.
Qed.

Lemma create_http_urls_unredirected url fmts tr :
  redirect_of (_MP4_TMPL url "*") = None ->
  _create_http_urls url fmts tr
  = (tr ++ [HeadRequest (_MP4_TMPL url "*")], Ok []).
Proof.
  intros Hw. unfold _create_http_urls. mrun.
  destruct (test_url_no_redirect _ tr Hw) as (pr & -> & Hpr).
  destruct pr; try done. by destruct (Hpr final_url).
Qed.

Lemma create_http_urls_unmatched url fmts tr :
  is_Some (redirect_of (_MP4_TMPL url "*")) ->
  re_match _RELINKER_REG (default "" (redirect_of url)) = None ->
  _create_http_urls url fmts tr = (both_probes tr url, Ok []).
Proof.
  intros [s Hw] Hre. unfold _create_http_urls, both_probes. mrun.
  rewrite (test_url_redirect _ _ _ Hw).
  destruct (redirect_of url) as [s'|] eqn:Hs.
  - rewrite (test_url_redirect _ _ _ Hs). cbn in Hre. rewrite Hre.
    by rewrite <- app_assoc.
  - destruct (test_url_no_redirect url (tr ++ [HeadRequest (_MP4_TMPL url "*")]) Hs)
      as (pr & -> & Hpr).
    assert (Hstr : match pr with ProbeUrl s0 => s0 | _ => "" end = "").
    { destruct pr; try done. by destruct (Hpr final_url). }
    rewrite Hstr. cbn in Hre. rewrite Hre. by rewrite <- app_assoc.
Qed.

Lemma create_http_urls_cases url fmts tr :
  _create_http_urls url fmts tr = (tr ++ [HeadRequest (_MP4_TMPL url "*")], Ok [])
  \/ _create_http_urls url fmts tr = (both_probes tr url, Ok [])
  \/ exists mobj,
       is_Some (redirect_of (_MP4_TMPL url "*"))
       /\ re_match _RELINKER_REG (default "" (redirect_of url)) = Some mobj
       /\ _create_http_urls url fmts tr
          = (both_probes tr url,
             https_formats url (video_formats fmts)
               (available_qualities (mobj "quality"))).
Proof.
  destruct (redirect_of (_MP4_TMPL url "*")) as [s|] eqn:Hw.
  - destruct (re_match _RELINKER_REG (default "" (redirect_of url)))
      as [mobj|] eqn:Hre.
    + right. right. exists mobj. split; [done|]. split; [done|].
      apply create_http_urls_matched; [by rewrite Hw|done].
    + right. left. apply create_http_urls_unmatched; [by rewrite Hw|done].
  - left. by apply create_http_urls_unredirected.
Qed.

(** *** The table and the bitrates *)

Lemma key_value (m : Z) :
  table_key (pretty m) -> PyStr.int (pretty m) = Some m.
Proof.
  unfold table_key, _QUALITY. cbn [quality_get].
  assert (Hinj : forall k : Z, pretty k = pretty m -> k = m)
    by (intros k Hk; by apply (inj pretty)).
  repeat (case_bool_decide as Hk;
    [ intros _;
      first
        [ rewrite <- (Hinj 250 Hk) | rewrite <- (Hinj 400 Hk)
        | rewrite <- (Hinj 700 Hk) | rewrite <- (Hinj 800 Hk)
        | rewrite <- (Hinj 1200 Hk) | rewrite <- (Hinj 1800 Hk)
        | rewrite <- (Hinj 2400 Hk) | rewrite <- (Hinj 3200 Hk)
        | rewrite <- (Hinj 3600 Hk) | rewrite <- (Hinj 5000 Hk)
        | rewrite <- (Hinj 10000 Hk) ];
      vm_compute; reflexivity
    | clear Hk ]).
  by intros [? ?].
Qed.

Lemma tier_key_value n :
  table_key (tier_of n) -> PyStr.int (tier_of n) = Some (tier_value n).
Proof.
  unfold tier_of, tier_value. destruct (300 <? n).
  - apply key_value.
  - intros _. vm_compute. reflexivity.
Qed.

(** X9.  When no video format carries a bitrate, a quality token that
    is a positive bitrate [n] below 2^46, the range in which
    [math.floor(n / 100)] is the exact quotient, is answered from the
    table alone: its tier is 250 up to 300 and [n] rounded down to the
    hundred above; a tier that is a key of [_QUALITY] gives the width
    and height of its row with the tier as bitrate, any other tier
    raises [KeyError] with the tier as key. *)
Theorem table_lookup_or_key_error fmts q n :
  int_or_none (Some q) = Some n ->
  0 < n < 2 ^ 46 ->
  Forall (fun f => num_truthy (f_tbr f) = false) fmts ->
  get_format_info fmts q
  = match quality_get _QUALITY (tier_of n) with
    | Some (w, h) => Ok (table_info (tier_of n) w h (tier_value n))
    | None => Raise (KeyError (tier_of n))
    end.
Proof.
  intros Hn Hrange Hall. unfold get_format_info.
  rewrite (target_bitrate_int _ _ _ Hn) by lia.
  rewrite tier_int by done. mrun. rewrite find_copy_falsy by done.
  destruct (quality_get _QUALITY (tier_of n)) as [[w h]|] eqn:Hq; [|done].
  rewrite tier_key_value; [done|]. unfold table_key. by rewrite Hq.
Qed.

(** X10.  Every row of [_QUALITY] answers for its own key: with no
    video format to copy from, the token that is a key of the table,
    read as the decimal number it is, gives the width and height of its
    row, that number as bitrate and the key in the format id. *)
Theorem table_rows_answer_their_key k w h n :
  In (k, (w, h)) _QUALITY ->
  PyStr.int k = Some n ->
  int_or_none (Some k) = Some n ->
  get_format_info [] k = Ok (table_info k w h n).
Proof.
  intros Hin Hint Hn.
  assert (Hrow : 0 < n < 2 ^ 46 /\ tier_of n = k /\ tier_value n = n
                 /\ quality_get _QUALITY k = Some (w, h)).
  { unfold _QUALITY in Hin. cbn in Hin.
    repeat (destruct Hin as [Hin|Hin];
            [ injection Hin as <- <- <-; vm_compute in Hint;
              injection Hint as <-; repeat split; vm_compute; reflexivity | ]).
    done. }
  destruct Hrow as (Hrange & Ht & Hv & Hq).
  unfold get_format_info.
  rewrite (target_bitrate_int _ _ _ Hn) by lia.
  rewrite tier_int by done. mrun. rewrite find_copy_falsy by constructor.
  rewrite Ht, Hq, <- Ht, tier_key_value; [by rewrite Ht, Hv|].
  unfold table_key. by rewrite Ht, Hq.
Qed.

Lemma find_copy_unknown_target fmts c :
  Exists (fun f => num_truthy (f_tbr f) = true) fmts ->
  find_copy None fmts c = Raise TypeError.
Proof.
  intros Hex. revert c. induction fmts as [|f fmts IH]; intros c.
  - by apply Exists_nil in Hex.
  - cbn [find_copy]. destruct (num_truthy (f_tbr f)) eqn:Ht; [done|].
    apply Exists_cons in Hex as [Hf|Hex]; [congruence|]. by apply IH.
Qed.

(** X11.  When the redirect target names no quality list, the only
    token is the wildcard; if there is not exactly one video format and
    some video format carries a bitrate, no target bitrate is known,
    [br / 100] raises [TypeError] and [_create_http_urls] fails with it
    after its two HEAD requests. *)
Theorem wildcard_without_target_raises url fmts tr mobj :
  is_Some (redirect_of (_MP4_TMPL url "*")) ->
  re_match _RELINKER_REG (default "" (redirect_of url)) = Some mobj ->
  mobj "quality" = None ->
  int_or_none (Some "*") = None ->
  length (video_formats fmts) <> 1%nat ->
  Exists (fun f => num_truthy (f_tbr f) = true) (video_formats fmts) ->
  _create_http_urls url fmts tr = (both_probes tr url, Raise TypeError).
Proof.
  intros Hw Hre Hq Hint Hlen Hex.
  rewrite (create_http_urls_matched _ _ _ _ Hw Hre), Hq.
  do 2 f_equal. cbn [available_qualities PyStr.truthy List.filter https_formats].
  unfold https_format, get_format_info, target_bitrate. mrun.
  rewrite Hint. cbn [fmap option_fmap option_map].
  rewrite (bool_decide_eq_false_2 _ Hlen). cbn [andb tier].
  by rewrite find_copy_unknown_target.
Qed.

Lemma get_format_info_id fmts q info :
  get_format_info fmts q = Ok info ->
  exists t, f_format_id info = Some ("https-" +:+ t).
Proof.
  unfold get_format_info. mrun. intros Hg.
  repeat case_match; simplify_eq; by eexists.
Qed.

Lemma https_formats_shape url fmts qs fs :
  https_formats url fmts qs = Ok fs ->
  map f_url fs = map (fun q => Some (_MP4_TMPL url q)) qs
  /\ Forall (fun f => f_protocol f = Some "https" /\ f_ext f = Some "mp4"
                      /\ exists t, f_format_id f = Some ("https-" +:+ t)) fs.
Proof.
  revert fs. induction qs as [|q qs IH]; intros fs.
  - cbn. intros [= <-]. by split.
  - cbn [https_formats]. unfold https_format. mrun.
    destruct (get_format_info fmts q) as [info|] eqn:Hinfo; [|done].
    destruct (https_formats url fmts qs) as [fs'|] eqn:Hfs; [|done].
    intros [= <-]. destruct (IH fs' eq_refl) as [Hurls Hall].
    apply get_format_info_id in Hinfo as [t Ht].
    split; [cbn; by rewrite Hurls|].
    constructor; [|done]. cbn. repeat split; try done. by exists t.
Qed.

Lemma contains_char_cons sep c w :
  c <> sep ->
  PyStr.contains (String sep EmptyString) (String c w)
  = PyStr.contains (String sep EmptyString) w.
Proof.
  intros Hc. cbn [PyStr.contains String.prefix].
  destruct (ascii_dec sep c); [congruence|done].
Qed.

Lemma split_pieces sep s :
  Forall (fun w => PyStr.contains (String sep EmptyString) w = false)
         (PyStr.split sep s).
Proof.
  induction s as [|c s IH]; cbn [PyStr.split].
  - by repeat constructor.
  - destruct (Ascii.eqb c sep) eqn:Hc.
    + constructor; [done|exact IH].
    + apply Ascii.eqb_neq in Hc.
      destruct (PyStr.split sep s) as [|w ws].
      * constructor; [|done]. by rewrite contains_char_cons.
      * apply Forall_cons in IH as [Hw Hws]. constructor; [|done].
        by rewrite contains_char_cons.
Qed.

Lemma comma_free_cons c w :
  PyStr.contains "," (String c w) = false ->
  c <> ","%char /\ PyStr.contains "," w = false.
Proof.
  intros Hc. destruct (ascii_dec c ","%char) as [->|Hne].
  - cbn [PyStr.contains String.prefix] in Hc.
    destruct (ascii_dec "," ","); [|done]. by destruct w.
  - split; [done|]. by rewrite contains_char_cons in Hc.
Qed.

Lemma split_comma_free w :
  PyStr.contains "," w = false -> PyStr.split "," w = [w].
Proof.
  induction w as [|c w IH]; [done|].
  intros Hc. apply comma_free_cons in Hc as [Hne Hw].
  cbn [PyStr.split]. apply Ascii.eqb_neq in Hne. rewrite Hne.
  by rewrite IH.
Qed.

Lemma split_comma_app w s :
  PyStr.contains "," w = false ->
  PyStr.split "," (w +:+ "," +:+ s) = w :: PyStr.split "," s.
Proof.
  induction w as [|c w IH]; [done|].
  intros Hc. apply comma_free_cons in Hc as [Hne Hw].
  change (String c w +:+ "," +:+ s) with (String c (w +:+ "," +:+ s)).
  cbn [PyStr.split]. apply Ascii.eqb_neq in Hne. rewrite Hne.
  by rewrite IH.
Qed.

(** [split] undoes [join] on pieces without a comma ... *)
Lemma split_comma_join pieces :
  pieces <> [] ->
  Forall (fun w => PyStr.contains "," w = false) pieces ->
  PyStr.split "," (comma_join pieces) = pieces.
Proof.
  intros Hne Hall. induction Hall as [|w ws Hw Hws IH]; [done|].
  destruct ws as [|w' ws].
  - by apply split_comma_free.
  - cbn [comma_join]. rewrite split_comma_app by done.
    f_equal. by apply IH.
Qed.

(** ... and [join] undoes [split]. *)
Lemma comma_join_split s :
  PyStr.split "," s <> [] /\ comma_join (PyStr.split "," s) = s.
Proof.
  induction s as [|c s [Hne IH]]; [done|].
  cbn [PyStr.split]. destruct (Ascii.eqb c ",") eqn:Hc.
  - apply Ascii.eqb_eq in Hc as ->. split; [done|].
    destruct (PyStr.split "," s) as [|w ws]; [done|].
    cbn [comma_join] in *. by rewrite IH.
  - destruct (PyStr.split "," s) as [|w ws]; [done|]. split; [done|].
    destruct ws as [|w' ws]; cbn [comma_join] in *; by rewrite <- IH.
Qed.

(** X12.  The quality tokens are the non-empty pieces of the captured
    quality list, all of them and in order: when the list is the
    comma-join of pieces without a comma, as every string is in one
    way, the tokens are these pieces less the empty ones (so none at
    all for a list of commas only).  Hence no token is empty and none
    contains a comma.  Without a captured list, or with an empty one,
    the only token is the wildcard. *)
Theorem quality_tokens :
  (forall pieces,
     pieces <> [] ->
     Forall (fun w => PyStr.contains "," w = false) pieces ->
     available_qualities (Some (comma_join pieces))
     = if PyStr.truthy (comma_join pieces)
       then List.filter PyStr.truthy pieces
       else ["*"])
  /\ (forall q,
        exists pieces,
          pieces <> []
          /\ Forall (fun w => PyStr.contains "," w = false) pieces
          /\ comma_join pieces = q
          /\ forall pieces',
               pieces' <> [] ->
               Forall (fun w => PyStr.contains "," w = false) pieces' ->
               comma_join pieces' = q -> pieces' = pieces)
  /\ available_qualities None = ["*"]
  /\ (forall quality,
        Forall (fun q => q <> EmptyString /\ PyStr.contains "," q = false)
               (available_qualities quality)).
Proof.
  split; [|split; [|split]].
  - intros pieces Hne Hall. unfold available_qualities.
    destruct (PyStr.truthy (comma_join pieces)); [|done].
    by rewrite split_comma_join.
  - intros q. destruct (comma_join_split q) as [Hne Hq].
    exists (PyStr.split "," q). split; [done|].
    split; [apply (split_pieces ","%char)|]. split; [done|].
    intros pieces' Hne' Hall' <-. by rewrite split_comma_join.
  - done.
  - intros quality. unfold available_qualities.
    assert (Hfilter : forall l,
      Forall (fun w => PyStr.contains "," w = false) l ->
      Forall (fun q => q <> EmptyString /\ PyStr.contains "," q = false)
             (List.filter PyStr.truthy l)).
    { induction 1 as [|w l Hw _ IH]; [constructor|]. cbn.
      destruct w; cbn; [exact IH|]. constructor; [|exact IH]. by split. }
    apply Hfilter. destruct quality as [q|]; [|by repeat constructor].
    destruct (PyStr.truthy q); [|by repeat constructor].
    apply (split_pieces ","%char).
Qed.

(** X13.  Whenever [_create_http_urls] returns, it returns either no
    descriptor or exactly one per quality token, in token order: the
    URL of each is the relinker URL with the override for its token, its
    protocol is https, its extension mp4 and its format id starts with
    [https-]. *)
Theorem descriptors_follow_tokens url fmts tr tr' fs :
  _create_http_urls url fmts tr = (tr', Ok fs) ->
  fs = []
  \/ exists mobj,
       re_match _RELINKER_REG (default "" (redirect_of url)) = Some mobj
       /\ map f_url fs
          = map (fun q => Some (_MP4_TMPL url q))
                (available_qualities (mobj "quality"))
       /\ Forall (fun f => f_protocol f = Some "https" /\ f_ext f = Some "mp4"
                           /\ exists t, f_format_id f = Some ("https-" +:+ t)) fs.
Proof.
  destruct (create_http_urls_cases url fmts tr)
    as [-> | [-> | (mobj & Hw & Hre & ->)]].
  - intros [= _ <-]. by left.
  - intros [= _ <-]. by left.
  - intros [= _ Hfs]. right. exists mobj. split; [done|].
    by apply https_formats_shape in Hfs.
Qed.

Lemma find_copy_last br fmts c b :
  floor_div_100 br = Ok b -> Forall finite_tbr fmts ->
  find_copy br fmts c
  = Ok (match last (List.filter (in_bucket b) fmts) with
        | Some f => Some f
        | None => c
        end).
Proof.
  intros Hb Hall. revert c.
  induction Hall as [|f fmts Hf _ IH]; intros c; [done|].
  cbn [find_copy List.filter]. unfold in_bucket at 1. mrun. rewrite Hb.
  destruct (num_truthy (f_tbr f)) eqn:Ht; cbn [andb].
  - destruct (Hf Ht) as [k Hk]. rewrite Hk. rewrite IH.
    destruct ((b - 1 <=? k) && (k <=? b + 1)); [|done].
    rewrite last_cons. by destruct (last (List.filter (in_bucket b) fmts)).
  - apply IH.
Qed.

(** X14.  For a token that is a positive bitrate [n] below 2^46, and
    video formats whose bitrates, where they carry one, are all finite
    (neither an infinity nor a nan, which [math.floor] refuses): when
    some video format lies within one bucket of the token, it is the
    last such format, in the order of the list, whose width, height,
    bitrate, codecs and frame rate the descriptor copies; the table is
    not consulted, so a tier that is no key of [_QUALITY] raises
    nothing. *)
Theorem last_format_in_bucket_is_copied fmts q n f :
  int_or_none (Some q) = Some n ->
  0 < n < 2 ^ 46 ->
  Forall finite_tbr fmts ->
  last (List.filter (in_bucket (n / 100)) fmts) = Some f ->
  get_format_info fmts q = Ok (copied_info (tier_of n) f).
Proof.
  intros Hn Hrange Hfin Hlast. unfold get_format_info.
  rewrite (target_bitrate_int _ _ _ Hn) by lia.
  rewrite tier_int by done. mrun.
  rewrite (find_copy_last _ _ _ (n / 100)); [|apply floor_div_100_int; lia|done].
  by rewrite Hlast.
Qed.

(** X15.  Audio-only formats take no part: when all existing formats
    are audio-only, as after an mp3 answer, and the redirect target
    names no quality list, [_create_http_urls] returns the single
    descriptor of the lowest tier, [https-250] of 352 by 198. *)
Theorem audio_only_formats_give_lowest_tier url fmts tr mobj :
  Forall (fun f => is_audio_only f = true) fmts ->
  is_Some (redirect_of (_MP4_TMPL url "*")) ->
  re_match _RELINKER_REG (default "" (redirect_of url)) = Some mobj ->
  mobj "quality" = None ->
  int_or_none (Some "*") = None ->
  _create_http_urls url fmts tr
  = (both_probes tr url,
     Ok [descriptor url "*" (table_info "250" 352 198 250)]).
Proof.
  intros Hall Hw Hre Hq Hint.
  rewrite (create_http_urls_matched _ _ _ _ Hw Hre), Hq.
  assert (Hvideo : video_formats fmts = []).
  { unfold video_formats. induction Hall as [|f fmts Hf _ IH]; [done|].
    cbn. by rewrite Hf. }
  rewrite Hvideo. do 2 f_equal.
  cbn [available_qualities PyStr.truthy List.filter https_formats].
  unfold https_format, get_format_info, target_bitrate. mrun.
  rewrite Hint. reflexivity.
Qed.

Lemma find_copy_same_bucket br1 br2 fmts c :
  floor_div_100 br1 = floor_div_100 br2 ->
  find_copy br1 fmts c = find_copy br2 fmts c.
Proof.
  intros Hb. revert c. induction fmts as [|f fmts IH]; intros c; [done|].
  cbn [find_copy]. mrun. rewrite Hb.
  destruct (num_truthy (f_tbr f)); [|apply IH].
  destruct (floor_div_100 br2) as [b|]; [|done].
  destruct (floor_div_100 (f_tbr f)) as [k|]; [|done]. apply IH.
Qed.

(** X21.  Format ids need not be unique: two quality tokens that are
    bitrates above 300 and below 2^46 (the range in which
    [math.floor(n / 100)] is the exact quotient) in the same hundred get
    the same answer from [get_format_info], be it the same error or the
    same dict, with the same format id, whatever the existing
    formats. *)
Theorem same_hundred_same_descriptor fmts q1 q2 n1 n2 :
  int_or_none (Some q1) = Some n1 ->
  int_or_none (Some q2) = Some n2 ->
  300 < n1 < 2 ^ 46 ->
  300 < n2 < 2 ^ 46 ->
  n1 / 100 = n2 / 100 ->
  get_format_info fmts q1 = get_format_info fmts q2.
Proof.
  intros Hq1 Hq2 Hn1 Hn2 Hsame. unfold get_format_info.
  rewrite (target_bitrate_int _ _ _ Hq1), (target_bitrate_int _ _ _ Hq2) by lia.
  rewrite !tier_int by lia.
  assert (Htier : tier_of n1 = tier_of n2).
  { unfold tier_of. rewrite Hsame.
    replace (300 <? n1) with true by (symmetry; apply Z.ltb_lt; lia).
    replace (300 <? n2) with true by (symmetry; apply Z.ltb_lt; lia). done. }
  rewrite Htier. mrun.
  rewrite (find_copy_same_bucket (Some (NInt n1)) (Some (NInt n2))); [done|].
  rewrite !floor_div_100_int by lia. by rewrite Hsame.
Qed.

End VariantProofs.

(** ** Further properties of the subtitles *)

Section MoreSubtitleProofs.
Context `{Utils}.

Lemma total_variants_cons (k : pyval) vs (d : subtitles_dict) :
  total_variants ((k, vs) :: d) = (length vs + total_variants d)%nat.
Proof. reflexivity. Qed.

Lemma append_to_total (d : subtitles_dict) k v :
  total_variants (append_to d k v) = S (total_variants d).
Proof.
  induction d as [|[k' vs] d IH]; [done|].
  cbn [append_to]. destruct (key_eqb k' k); rewrite !total_variants_cons.
  - rewrite length_app. cbn. lia.
  - rewrite IH. lia.
Qed.

Lemma append_to_entries (d : subtitles_dict) k v :
  language_key k ->
  Forall (fun kv => language_key (fst kv) /\ snd kv <> []) d ->
  Forall (fun kv => language_key (fst kv) /\ snd kv <> []) (append_to d k v).
Proof.
  intros Hk Hall. induction Hall as [|[k' vs] d [Hk' Hvs] Hrest IH]; cbn.
  - constructor; [|constructor]. by split.
  - destruct (key_eqb k' k).
    + constructor; [|done]. split; [done|]. cbn. by destruct vs.
    + by constructor.
Qed.

Lemma append_to_other_keys (d : subtitles_dict) k0 k v :
  key_eqb k0 k = false ->
  Forall (fun kv => key_eqb k0 (fst kv) = false) d ->
  Forall (fun kv => key_eqb k0 (fst kv) = false) (append_to d k v).
Proof.
  intros Hk Hall. induction Hall as [|[k' vs] d Hk' Hrest IH]; cbn.
  - constructor; [done|constructor].
  - destruct (key_eqb k' k) eqn:Heq; by constructor.
Qed.

Lemma append_to_distinct (d : subtitles_dict) k v :
  distinct_keys d -> distinct_keys (append_to d k v).
Proof.
  induction d as [|[k' vs] d IH]; cbn; [by intros; split|].
  intros [Hk' Hd]. destruct (key_eqb k' k) eqn:Heq; cbn.
  - by split.
  - split; [by apply append_to_other_keys|by apply IH].
Qed.

Lemma append_to_well_formed (d : subtitles_dict) k v :
  language_key k -> well_formed d -> well_formed (append_to d k v).
Proof.
  intros Hk [Hd Hall]. split;
    [by apply append_to_distinct|by apply append_to_entries].
Qed.

Lemma truthy_hashable_key (heap : store) v :
  truthy heap v = true -> hashable v = true -> language_key v.
Proof.
  destruct v as [|b|z|s|l|items]; cbn; try done.
  - intros Hz _ ->. done.
  - by destruct s.
Qed.

(** What one entry does to the dict: nothing, or one or two variants
    added under one key. *)
Lemma add_subtitle_inv (heap : store) page_url subtitle d d' :
  add_subtitle heap page_url subtitle d = Ok d' ->
  (d' = d /\ produced page_url subtitle = 0%nat)
  \/ exists k v,
       language_key k
       /\ ((d' = append_to d k v /\ produced page_url subtitle = 1%nat)
           \/ exists v', d' = append_to (append_to d k v) k v'
                         /\ produced page_url subtitle = 2%nat).
Proof.
  unfold add_subtitle, entry_get, produced. mrun.
  destruct subtitle as [| | | | |items]; try done.
  destruct (items_get items "url") as [| | |s| |]; try (intros [= <-]; by left).
  destruct (PyStr.truthy s); [|intros [= <-]; by left].
  set (language := items_get items "language").
  set (sub_lang := if truthy heap language then language else PStr "it").
  destruct (hashable sub_lang) eqn:Hh; [|done]. cbn [negb].
  assert (Hkey : language_key sub_lang).
  { subst sub_lang. destruct (truthy heap language) eqn:Ht.
    - by eapply truthy_hashable_key.
    - done. }
  case_bool_decide.
  - destruct (urljoin page_url s) as [u|]; [|done].
    intros [= <-]. right. eexists _, _. split; [done|]. right. by eexists.
  - intros [= <-]. right. eexists _, _. split; [done|]. by left.
Qed.

Lemma add_subtitle_raises (heap : store) page_url subtitle d e :
  add_subtitle heap page_url subtitle d = Raise e ->
  e = AttributeError \/ e = TypeError.
Proof.
  unfold add_subtitle, entry_get. mrun. intros Ha.
  repeat case_match; simplify_eq; auto.
Qed.

Lemma add_subtitles_inv (heap : store) page_url entries d d' :
  add_subtitles heap page_url entries d = Ok d' ->
  (well_formed d -> well_formed d')
  /\ total_variants d'
     = (total_variants d + expected_variants page_url entries)%nat.
Proof.
  revert d. induction entries as [|subtitle entries IH]; intros d.
  - cbn. intros [= <-]. split; [done|lia].
  - cbn [add_subtitles expected_variants foldr]. mrun.
    destruct (add_subtitle heap page_url subtitle d) as [d1|] eqn:Hd1; [|done].
    intros Hrest. apply IH in Hrest as [Hwf Htotal].
    fold (expected_variants page_url entries). rewrite Htotal.
    apply add_subtitle_inv in Hd1
      as [[-> ->] | (k & v & Hk & [[-> ->] | (v' & -> & ->)])].
    + split; [done|lia].
    + split; [|rewrite append_to_total; lia].
      intros Hd. by apply Hwf, append_to_well_formed.
    + split; [|rewrite !append_to_total; lia].
      intros Hd. by apply Hwf, append_to_well_formed, append_to_well_formed.
Qed.

Lemma extract_subtitles_unfold page_url (video_data : gmap string pyval)
    (heap : store) :
  (exists l xs,
     get video_data "subtitlesArray" = PListRef l
     /\ heap !! l = Some xs /\ xs <> []
     /\ _extract_subtitles page_url video_data heap
        = (<[l := xs ++ legacy_entries video_data]> heap,
           add_subtitles (<[l := xs ++ legacy_entries video_data]> heap)
             page_url (subtitle_entries video_data heap) []))
  \/ (truthy heap (get video_data "subtitlesArray") = true
      /\ (forall l, get video_data "subtitlesArray" <> PListRef l)
      /\ _extract_subtitles page_url video_data heap
         = (heap, Raise AttributeError))
  \/ (truthy heap (get video_data "subtitlesArray") = false
      /\ _extract_subtitles page_url video_data heap
         = (heap, add_subtitles heap page_url (legacy_entries video_data) [])).
Proof.
  unfold _extract_subtitles, subtitle_entries.
  destruct (truthy heap (get video_data "subtitlesArray")) eqn:Ht.
  - destruct (get video_data "subtitlesArray") as [| | | |l|] eqn:Hv;
      try (right; left; by repeat split).
    left. cbn in Ht. destruct (heap !! l) as [[|x xs]|] eqn:Hl; try done.
    exists l, (x :: xs). by repeat split.
  - right. right. by split.
Qed.

(** X16.  Whatever the record, the dict [_extract_subtitles] returns has
    no two equal language keys, every key is a truthy hashable value (a
    non-empty string unless the record gives another type) and every
    language has at least one variant. *)
Theorem returned_subtitles_are_well_formed page_url
    (video_data : gmap string pyval) (heap heap' : store) d :
  _extract_subtitles page_url video_data heap = (heap', Ok d) ->
  well_formed d.
Proof.
  assert (Hempty : well_formed []) by (split; [done|constructor]).
  destruct (extract_subtitles_unfold page_url video_data heap)
    as [(l & xs & _ & _ & _ & ->) | [(_ & _ & ->) | (_ & ->)]].
  - intros Hd. apply (f_equal snd) in Hd. cbn [snd] in Hd.
    by apply add_subtitles_inv in Hd as [Hwf _]; apply Hwf.
  - done.
  - intros Hd. apply (f_equal snd) in Hd. cbn [snd] in Hd.
    by apply add_subtitles_inv in Hd as [Hwf _]; apply Hwf.
Qed.

(** X17.  The variants of the returned dict are counted by the entries:
    every entry with a non-empty string under [url] gives exactly one
    variant, and one more, the srt sibling, when its extension is stl;
    the other entries give none. *)
Theorem variants_are_counted page_url (video_data : gmap string pyval)
    (heap heap' : store) d :
  _extract_subtitles page_url video_data heap = (heap', Ok d) ->
  total_variants d
  = expected_variants page_url
      (if truthy heap (get video_data "subtitlesArray")
       then subtitle_entries video_data heap
       else legacy_entries video_data).
Proof.
  destruct (extract_subtitles_unfold page_url video_data heap)
    as [(l & xs & Hv & Hl & Hne & ->) | [(_ & _ & ->) | (Ht & ->)]].
  - intros Hd. apply (f_equal snd) in Hd. cbn [snd] in Hd.
    apply add_subtitles_inv in Hd as [_ ->].
    rewrite Hv. cbn [truthy]. rewrite Hl. by destruct xs.
  - done.
  - intros Hd. apply (f_equal snd) in Hd. cbn [snd] in Hd.
    apply add_subtitles_inv in Hd as [_ ->]. by rewrite Ht.
Qed.

(** X18.  The call writes to the store only when [subtitlesArray] is a
    non-empty list, and then only to that list: an empty list, a missing
    or null field, or another value leaves every list as it was. *)
Theorem only_a_nonempty_list_is_written page_url
    (video_data : gmap string pyval) (heap : store) :
  fst (_extract_subtitles page_url video_data heap) = heap
  \/ exists l xs,
       get video_data "subtitlesArray" = PListRef l
       /\ heap !! l = Some xs /\ xs <> []
       /\ fst (_extract_subtitles page_url video_data heap)
          = <[l := xs ++ legacy_entries video_data]> heap.
Proof.
  destruct (extract_subtitles_unfold page_url video_data heap)
    as [(l & xs & Hv & Hl & Hne & ->) | [(_ & _ & ->) | (_ & ->)]].
  - right. by exists l, xs.
  - by left.
  - by left.
Qed.

Lemma add_subtitles_not_a_dict (heap : store) page_url entries d :
  Exists (fun e => is_dict e = false) entries ->
  exists e, add_subtitles heap page_url entries d = Raise e
            /\ (e = AttributeError \/ e = TypeError).
Proof.
  intros Hex. revert d. induction Hex as [x entries Hx|x entries _ IH]; intros d.
  - cbn [add_subtitles]. mrun.
    destruct x; try done; by exists AttributeError; split; [|left].
  - cbn [add_subtitles]. mrun.
    destruct (add_subtitle heap page_url x d) as [d1|e] eqn:Hd1.
    + apply IH.
    + exists e. split; [done|]. by eapply add_subtitle_raises.
Qed.

(** X19.  [subtitlesArray] must be a list of objects: a truthy value
    that is no list (a string, a number, an object) raises
    [AttributeError] and writes nothing; a list with an entry that is no
    object makes the call raise, after the list has been extended. *)
Theorem malformed_subtitles_array_raises page_url
    (video_data : gmap string pyval) (heap : store) :
  (truthy heap (get video_data "subtitlesArray") = true ->
   (forall l, get video_data "subtitlesArray" <> PListRef l) ->
   _extract_subtitles page_url video_data heap = (heap, Raise AttributeError))
  /\ (forall l xs,
        video_data !! "subtitlesArray" = Some (PListRef l) ->
        heap !! l = Some xs ->
        Exists (fun e => is_dict e = false) xs ->
        exists e,
          snd (_extract_subtitles page_url video_data heap) = Raise e
          /\ (e = AttributeError \/ e = TypeError)
          /\ fst (_extract_subtitles page_url video_data heap) !! l
             = Some (xs ++ legacy_entries video_data)).
Proof.
  split.
  - intros Ht Hnl.
    destruct (extract_subtitles_unfold page_url video_data heap)
      as [(l & xs & Hv & _) | [(_ & _ & ->) | (Hf & _)]]; [|done|congruence].
    by destruct (Hnl l).
  - intros l xs Ha Hl Hex.
    assert (Hne : xs <> []) by (intros ->; by apply Exists_nil in Hex).
    rewrite (extract_subtitles_shared _ _ _ _ _ Ha Hl Hne). cbn [fst snd].
    destruct (add_subtitles_not_a_dict
                (<[l := xs ++ legacy_entries video_data]> heap) page_url
                (xs ++ legacy_entries video_data) [])
      as (e & -> & He).
    { apply Exists_app. by left. }
    exists e. repeat split; try done. by rewrite lookup_insert_eq.
Qed.

(** X20.  The call is not idempotent on the caller's record: a second
    call on the same record finds the two entries the first one left in
    [subtitlesArray], appends them once more and goes through them
    twice. *)
Theorem second_call_sees_first_entries page_url
    (video_data : gmap string pyval) (heap : store) l xs :
  video_data !! "subtitlesArray" = Some (PListRef l) ->
  heap !! l = Some xs ->
  xs <> [] ->
  let legacy := legacy_entries video_data in
  let heap1 := fst (_extract_subtitles page_url video_data heap) in
  let second := _extract_subtitles page_url video_data heap1 in
  fst second !! l = Some (xs ++ legacy ++ legacy)
  /\ snd second
     = add_subtitles (fst second) page_url (xs ++ legacy ++ legacy) [].
Proof.
  intros Ha Hl Hne legacy heap1 second. subst second heap1.
  rewrite (extract_subtitles_shared _ _ _ _ _ Ha Hl Hne). cbn [fst].
  fold legacy.
  assert (Hl1 : (<[l := xs ++ legacy]> heap) !! l = Some (xs ++ legacy))
    by apply lookup_insert_eq.
  assert (Hne1 : xs ++ legacy <> []) by (by destruct xs).
  rewrite (extract_subtitles_shared _ _ _ _ _ Ha Hl1 Hne1). cbn [fst snd].
  fold legacy. rewrite lookup_insert_eq, <- app_assoc. done.
Qed.

End MoreSubtitleProofs.

(** ** The further properties on concrete responses *)

Section RequestCases.
Import Sample Cases.

Lemma gathered_formats_are_kept_witness :
  exists later, formats after_flash = formats after_mon ++ later.
Proof.
  apply (gathered_formats_are_kept (H1 := hls_then_mp3_ie) relinker_url video_id
           ["mon"] ["flash"; "native"] []
           [ DownloadXml relinker_url video_id "mon"; ExtractM3u8 "http://x/v.m3u8" ]
           after_mon
           [ DownloadXml relinker_url video_id "mon"; ExtractM3u8 "http://x/v.m3u8";
             DownloadXml relinker_url video_id "flash" ]
           after_flash);
    vm_compute; reflexivity.
Defined.

Lemma synthesized_formats_come_last_witness :
  exists tr' d,
    _extract_relinker_info (H1 := two_tiers_ie) relinker_url video_id false []
      = (tr', Ok d)
    /\ exists tr1 st extra,
         loop (H1 := two_tiers_ie) relinker_url video_id platforms initial []
           = (tr1, Ok st)
         /\ dict_get "formats" d = Some (IVFormats (formats st ++ extra))
         /\ (false = true -> extra = [] /\ tr' = tr1)
         /\ (false = false ->
             _create_http_urls (H1 := two_tiers_ie) relinker_url (formats st) tr1
             = (tr', Ok extra)).
Proof.
  eexists _, _. split; [vm_compute; reflexivity|].
  eapply (synthesized_formats_come_last (H1 := two_tiers_ie)
            relinker_url video_id false []).
  - reflexivity.
  - vm_compute. reflexivity.
Defined.

Lemma unusable_profiles_give_no_format_witness :
  exists tr',
    _extract_relinker_info (H1 := placeholders_ie) relinker_url video_id true []
      = (tr', Raise (GeoRestrictedError ["IT"] true))
    \/ exists d,
         _extract_relinker_info (H1 := placeholders_ie) relinker_url video_id true []
           = (tr', Ok d)
         /\ dict_get "formats" d = Some (IVFormats []).
Proof.
  destruct (unusable_profiles_give_no_format (H1 := placeholders_ie)
              relinker_url video_id) as [_ Hcall].
  apply Hcall; [reflexivity|].
  repeat constructor;
    (eexists; split; [vm_compute; reflexivity|];
     right; eexists _, _; repeat split; vm_compute; reflexivity).
Defined.

Lemma url_without_text_raises_witness :
  _extract_relinker_info (H1 := empty_url_ie) relinker_url video_id false []
  = ([DownloadXml relinker_url video_id "mon"], Raise TypeError).
Proof.
  destruct (url_without_text_raises (H1 := empty_url_ie) relinker_url video_id
              [] "mon" ["flash"; "native"] [] [] initial
              (relinker_doc [Node "url" [("type", "content")] None []])
              (Node "url" [("type", "content")] None []))
    as [_ Hcall]; [vm_compute; reflexivity..|].
  rewrite Hcall by reflexivity. vm_compute. reflexivity.
Defined.

Lemma failed_download_is_fatal_witness :
  _extract_relinker_info (H1 := flash_down_ie) relinker_url video_id false []
  = ([ DownloadXml relinker_url video_id "mon";
       DownloadXml relinker_url video_id "flash" ], Raise ExtractorError).
Proof.
  destruct (failed_download_is_fatal (H1 := flash_down_ie) relinker_url video_id
              ["mon"] "flash" ["native"] []
              [DownloadXml relinker_url video_id "mon"] after_silent_mon)
    as [_ Hcall]; [vm_compute; reflexivity..|].
  rewrite Hcall by reflexivity. reflexivity.
Defined.

Lemma hds_expansion_witness :
  iteration (H1 := hds_on_flash_ie) relinker_url video_id "flash"
    after_silent_mon []
  = ([ DownloadXml relinker_url video_id "flash";
       ExtractF4m "http://x/z/manifest.f4m?hdcore=3.7.0&plugin=aasp-3.7.0.39.44" ],
     Ok (Next {| formats := [hds_rendition]; geoprotection := Some false;
                 is_live := Some false; duration := None |})).
Proof.
  destruct (hds_expansion (H1 := hds_on_flash_ie) relinker_url video_id "flash"
              after_silent_mon []
              (relinker_doc [content_url "http://x/z/manifest#live_hds.f4m"])
              (content_url "http://x/z/manifest#live_hds.f4m")
              "http://x/z/manifest#live_hds.f4m")
    as (Hflash & _ & _); [vm_compute; reflexivity..|].
  rewrite Hflash;
    [vm_compute; reflexivity | reflexivity
    | vm_compute; discriminate | vm_compute; discriminate
    | vm_compute; reflexivity].
Defined.

End RequestCases.

Section VariantCases.
Import Sample Cases.

Lemma table_lookup_or_key_error_witness :
  get_format_info (H0 := sample_utils) [] "500" = Raise (KeyError "500")
  /\ get_format_info (H0 := sample_utils) [] "1899"
     = Ok (table_info "1800" 1024 576 1800).
Proof.
  split.
  - rewrite (table_lookup_or_key_error (H0 := sample_utils) [] "500" 500);
      [vm_compute; reflexivity|reflexivity|lia|constructor].
  - rewrite (table_lookup_or_key_error (H0 := sample_utils) [] "1899" 1899);
      [vm_compute; reflexivity|reflexivity|lia|constructor].
Defined.

Lemma table_rows_answer_their_key_witness :
  get_format_info (H0 := sample_utils) [] "3600"
  = Ok (table_info "3600" 1440 810 3600).
Proof.
  apply (table_rows_answer_their_key (H0 := sample_utils) "3600" 1440 810 3600).
  - cbn. tauto.
  - reflexivity.
  - reflexivity.
Defined.

Lemma wildcard_without_target_raises_witness :
  _create_http_urls (H1 := one_tier_ie) relinker_url
    [hls_rendition; hls_rendition] []
  = (both_probes [] relinker_url, Raise TypeError).
Proof.
  destruct (re_match _RELINKER_REG "https://host/extra/path/id_1800.mp4?auth=1")
    as [mobj|] eqn:Hre; [|vm_compute in Hre; discriminate].
  apply (wildcard_without_target_raises (H1 := one_tier_ie) relinker_url
           [hls_rendition; hls_rendition] [] mobj).
  - eexists. vm_compute. reflexivity.
  - exact Hre.
  - vm_compute in Hre. injection Hre as <-. vm_compute. reflexivity.
  - reflexivity.
  - vm_compute. discriminate.
  - constructor. vm_compute. reflexivity.
Defined.

Lemma quality_tokens_witness :
  available_qualities (Some "250,,500") = ["250"; "500"]
  /\ available_qualities (Some ",,") = [].
Proof.
  destruct quality_tokens as (Hpieces & _).
  split.
  - apply (Hpieces ["250"; ""; "500"]); [discriminate|].
    repeat constructor.
  - apply (Hpieces [""; ""; ""]); [discriminate|].
    repeat constructor.
Defined.

Lemma descriptors_follow_tokens_witness :
  exists tr' fs,
    _create_http_urls (H1 := two_tiers_ie) relinker_url [] [] = (tr', Ok fs)
    /\ (fs = []
        \/ exists mobj,
             re_match _RELINKER_REG
               (default "" (redirect_of (H1 := two_tiers_ie) relinker_url))
               = Some mobj
             /\ map f_url fs
                = map (fun q => Some (_MP4_TMPL relinker_url q))
                      (available_qualities (mobj "quality"))
             /\ Forall (fun f => f_protocol f = Some "https"
                                 /\ f_ext f = Some "mp4"
                                 /\ exists t, f_format_id f = Some ("https-" +:+ t))
                       fs).
Proof.
  eexists _, _. split; [vm_compute; reflexivity|].
  eapply (descriptors_follow_tokens (H1 := two_tiers_ie) relinker_url [] []).
  vm_compute. reflexivity.
Defined.

Lemma last_format_in_bucket_is_copied_witness :
  get_format_info (H0 := sample_utils) [hls_rendition] "1300"
  = Ok (copied_info "1300" hls_rendition).
Proof.
  rewrite (last_format_in_bucket_is_copied (H0 := sample_utils)
             [hls_rendition] "1300" 1300 hls_rendition).
  - vm_compute. reflexivity.
  - reflexivity.
  - lia.
  - constructor; [|constructor]. intros _. eexists. vm_compute. reflexivity.
  - vm_compute. reflexivity.
Defined.

Lemma audio_only_formats_give_lowest_tier_witness :
  _create_http_urls (H1 := one_tier_ie) relinker_url
    [mp3_format "http://x/a.mp3"] []
  = (both_probes [] relinker_url,
     Ok [descriptor relinker_url "*" (table_info "250" 352 198 250)]).
Proof.
  destruct (re_match _RELINKER_REG "https://host/extra/path/id_1800.mp4?auth=1")
    as [mobj|] eqn:Hre; [|vm_compute in Hre; discriminate].
  apply (audio_only_formats_give_lowest_tier (H1 := one_tier_ie) relinker_url
           [mp3_format "http://x/a.mp3"] [] mobj).
  - constructor; [vm_compute; reflexivity|constructor].
  - eexists. vm_compute. reflexivity.
  - exact Hre.
  - vm_compute in Hre. injection Hre as <-. vm_compute. reflexivity.
  - reflexivity.
Defined.

Lemma same_hundred_same_descriptor_witness :
  get_format_info (H0 := sample_utils) [hls_rendition] "1810"
  = get_format_info (H0 := sample_utils) [hls_rendition] "1899".
Proof.
  apply (same_hundred_same_descriptor (H0 := sample_utils)
           [hls_rendition] "1810" "1899" 1810 1899);
    [reflexivity | reflexivity | lia | lia | reflexivity].
Defined.

End VariantCases.

Section SubtitleCases.
Import Sample Cases.

Lemma returned_subtitles_are_well_formed_witness : well_formed stl_subtitles.
Proof.
  apply (returned_subtitles_are_well_formed (H0 := sample_utils)
           "http://page/" stl_record ∅ ∅).
  vm_compute. reflexivity.
Defined.

Lemma variants_are_counted_witness : total_variants stl_subtitles = 2%nat.
Proof.
  rewrite (variants_are_counted (H0 := sample_utils)
             "http://page/" stl_record ∅ ∅ stl_subtitles).
  - vm_compute. reflexivity.
  - vm_compute. reflexivity.
Defined.

Lemma malformed_subtitles_array_raises_witness :
  exists e,
    snd (_extract_subtitles (H0 := sample_utils) "http://page/"
           shared_record bare_string_store) = Raise e
    /\ (e = AttributeError \/ e = TypeError)
    /\ fst (_extract_subtitles (H0 := sample_utils) "http://page/"
              shared_record bare_string_store) !! 1%positive
       = Some ([PStr "http://x/b.srt"] ++ legacy_entries shared_record).
Proof.
  destruct (malformed_subtitles_array_raises (H0 := sample_utils)
              "http://page/" shared_record bare_string_store) as [_ Hlist].
  apply Hlist.
  - reflexivity.
  - reflexivity.
  - constructor. reflexivity.
Defined.

Lemma second_call_sees_first_entries_witness :
  let legacy := legacy_entries shared_record in
  let heap1 :=
    fst (_extract_subtitles (H0 := sample_utils) "http://page/"
           shared_record shared_store) in
  let second :=
    _extract_subtitles (H0 := sample_utils) "http://page/" shared_record heap1 in
  fst second !! 1%positive
  = Some ([PDict [("url", PStr "http://x/b.srt")]] ++ legacy ++ legacy)
  /\ snd second
     = add_subtitles (fst second) "http://page/"
         ([PDict [("url", PStr "http://x/b.srt")]] ++ legacy ++ legacy) [].
Proof.
  apply (second_call_sees_first_entries (H0 := sample_utils) "http://page/"
           shared_record shared_store 1%positive
           [PDict [("url", PStr "http://x/b.srt")]]).
  - reflexivity.
  - reflexivity.
  - discriminate.
Defined.

End SubtitleCases.
